(** * QNX grid simulator ([qnx/grid_sim.cpp]): model and properties

    The simulator draws a voltage and a load per sector, classifies the
    voltage against a fixed threshold, stamps the event with the wall-clock
    time and prints one JSON line per sector, forever, sleeping five seconds
    between cycles.

    Doubles are Rocq's binary64 floats.  The two sources of entropy, the
    Mersenne twister behind [std::uniform_real_distribution] and
    [std::chrono::system_clock], are inputs of the model: the generator is a
    section variable with the contract the C++ standard gives it, the clock
    is the sequence of instants the successive calls of [now()] return. *)

From Stdlib Require Import ZArith List String Ascii Bool Lia.
From Stdlib Require Import Floats.
From Stdlib Require Uint63.
Import ListNotations.

Local Open Scope string_scope.
Local Open Scope Z_scope.

(** ** Stream formatting of integers: [operator<<], [setw], [setfill] *)

Module Fmt.

Definition digit (d : Z) : ascii := ascii_of_nat (48 + Z.to_nat d).

Definition is_digit (c : ascii) : bool :=
  let n := nat_of_ascii c in (48 <=? n)%nat && (n <=? 57)%nat.

(** Digits of a non-negative [n], least significant first, pushed in
    front of [acc].  [fuel] bounds the number of digits. *)
Fixpoint dec_digits (fuel : nat) (n : Z) (acc : string) : string :=
  match fuel with
  | O => acc
  | S f =>
      let acc' := String (digit (n mod 10)) acc in
      if n <? 10 then acc' else dec_digits f (n / 10) acc'
  end.

(** One more than the binary length: never fewer than the decimal digits. *)
Definition dec_fuel (n : Z) : nat := S (Z.to_nat (Z.log2 n)).

(** [os << n] for an integer [n] with the stream's default flags. *)
Definition decimal (n : Z) : string :=
  if n <? 0 then String "-" (dec_digits (dec_fuel (- n)) (- n) "")
  else dec_digits (dec_fuel n) n "".

Fixpoint replicate (k : nat) (c : ascii) : string :=
  match k with
  | O => ""
  | S k' => String c (replicate k' c)
  end.

(** [os << std::setfill(c) << std::setw(w) << s]: right adjustment, the
    fill characters go in front; a longer [s] is not truncated. *)
Definition setw (w : nat) (c : ascii) (s : string) : string :=
  replicate (w - String.length s) c ++ s.

End Fmt.

(** ** Fixed-point rendering of a double: [std::fixed << std::setprecision(2)] *)

Module Fixed.

(** Nearest integer to [num / den] for [den > 0], ties to even: the
    rounding the C library applies to the exact binary value. *)
Definition round_half_even (num den : Z) : Z :=
  let q := num / den in
  let r := num mod den in
  match 2 * r ?= den with
  | Lt => q
  | Gt => q + 1
  | Eq => if Z.even q then q else q + 1
  end.

(** Hundredths nearest to the magnitude [m * 2^e]. *)
Definition hundredths (m : positive) (e : Z) : Z :=
  if 0 <=? e then Z.pos m * 2 ^ e * 100
  else round_half_even (Z.pos m * 100) (2 ^ (- e)).

Definition sign_prefix (s : bool) : string := if s then "-" else "".

Definition render_hundredths (n : Z) : string :=
  Fmt.decimal (n / 100) ++ "." ++ Fmt.setw 2 "0" (Fmt.decimal (n mod 100)).

Definition fixed2 (x : float) : string :=
  match Prim2SF x with
  | S754_zero s => sign_prefix s ++ "0.00"
  | S754_infinity s => sign_prefix s ++ "inf"
  | S754_nan => "nan"
  | S754_finite s m e => sign_prefix s ++ render_hundredths (hundredths m e)
  end.

End Fixed.

(** ** Calendar time: [to_time_t], [gmtime], [put_time] *)

Module Time.

(** [struct tm], the fields the format string reads. *)
Record tm := mk_tm {
  tm_year : Z;   (* years since 1900 *)
  tm_mon : Z;    (* months since January, 0..11 *)
  tm_mday : Z;   (* day of the month, 1..31 *)
  tm_hour : Z;
  tm_min : Z;
  tm_sec : Z
}.

(** Proleptic Gregorian date of the day number [z] counted from
    1970-01-01, over 400-year eras that start on 1 March. *)
Definition civil_from_days (z : Z) : Z * Z * Z :=
  let z := z + 719468 in
  let era := z / 146097 in
  let doe := z mod 146097 in
  let yoe := (doe - doe / 1460 + doe / 36524 - doe / 146096) / 365 in
  let doy := doe - (365 * yoe + yoe / 4 - yoe / 100) in
  let mp := (5 * doy + 2) / 153 in
  let d := doy - (153 * mp + 2) / 5 + 1 in
  let m := if mp <? 10 then mp + 3 else mp - 9 in
  let y := yoe + era * 400 + (if m <=? 2 then 1 else 0) in
  (y, m, d).

(** [std::gmtime(&t)]: seconds since the epoch to broken-down UTC. *)
Definition gmtime (t : Z) : tm :=
  let days := t / 86400 in
  let rem := t mod 86400 in
  let '(y, m, d) := civil_from_days days in
  {| tm_year := y - 1900; tm_mon := m - 1; tm_mday := d;
     tm_hour := rem / 3600; tm_min := rem mod 3600 / 60; tm_sec := rem mod 60 |}.

Definition two (n : Z) : string := Fmt.setw 2 "0" (Fmt.decimal n).

(** [std::put_time(tm, "%Y-%m-%dT%H:%M:%S")]. *)
Definition put_time (b : tm) : string :=
  Fmt.decimal (tm_year b + 1900) ++ "-" ++ two (tm_mon b + 1) ++ "-" ++ two (tm_mday b)
  ++ "T" ++ two (tm_hour b) ++ ":" ++ two (tm_min b) ++ ":" ++ two (tm_sec b).

(** [system_clock::duration] counts nanoseconds (libstdc++, the library
    of the documented [g++] build). *)
Definition ticks_per_sec : Z := 1000000000.
Definition ticks_per_ms : Z := 1000000.

(** [system_clock::to_time_t]: a [duration_cast] to seconds, truncating. *)
Definition to_time_t (now : Z) : Z := Z.quot now ticks_per_sec.

(** [duration_cast<milliseconds>(now.time_since_epoch()) % 1000]. *)
Definition millis (now : Z) : Z := Z.rem (Z.quot now ticks_per_ms) 1000.

End Time.

(** [getCurrentTimestamp], as a function of the instant [now()] returned. *)
Definition getCurrentTimestamp (now : Z) : string :=
  let time_t := Time.to_time_t now in
  let ms := Time.millis now in
  let ss := Time.put_time (Time.gmtime time_t) in
  ss ++ "." ++ Fmt.setw 3 "0" (Fmt.decimal ms) ++ "Z".

(** ** Compiled-in configuration *)

Definition SECTORS : list string := ["sector-1"; "sector-2"; "sector-3"].
Definition NUM_SECTORS : Z := 3.

Definition LOAD_MIN : float := 0.0%float.
Definition LOAD_MAX : float := 100.0%float.

Definition EVENT_INTERVAL_SEC : Z := 5.

(** [int] is 32 bits wide; [cycle++] past [INT_MAX] is modelled as the
    two's complement wrap-around the hardware performs. *)
Definition INT_MAX : Z := 2147483647.
Definition wrap_int (x : Z) : Z := (x + 2 ^ 31) mod 2 ^ 32 - 2 ^ 31.

(** ** Observable behaviour *)

(** What the process does to its environment, in program order.  A line is
    the text written before [std::endl], which ends it and flushes. *)
Inductive event :=
| Out (line : string)     (* one line on [std::cout] *)
| Err (line : string)     (* one line on [std::cerr] *)
| Sleep (secs : Z).       (* [std::this_thread::sleep_for] *)

Definition stdout_of (tr : list event) : list string :=
  flat_map (fun e => match e with Out l => [l] | _ => [] end) tr.

Definition stderr_of (tr : list event) : list string :=
  flat_map (fun e => match e with Err l => [l] | _ => [] end) tr.

Definition sleeps_of (tr : list event) : list Z :=
  flat_map (fun e => match e with Sleep n => [n] | _ => [] end) tr.

(** The locals of [emitPowerEvent] that make up one reading. *)
Record Reading := mk_reading {
  sector_id : string;
  voltage : float;
  load : float;
  timestamp : string;
  is_failure : bool
}.

(** The double quote character of the source's string literals. *)
Definition dq : string := String "034"%char "".

Definition status_text (r : Reading) : string :=
  if is_failure r then dq ++ "failure" ++ dq else dq ++ "normal" ++ dq.

(** The insertion chain of [emitPowerEvent], up to [std::endl]. *)
Definition serialize (r : Reading) : string :=
  "{"
  ++ (dq ++ "sector_id" ++ dq ++ ":" ++ dq) ++ sector_id r ++ (dq ++ ",")
  ++ (dq ++ "voltage" ++ dq ++ ":") ++ Fixed.fixed2 (voltage r) ++ ","
  ++ (dq ++ "load" ++ dq ++ ":") ++ Fixed.fixed2 (load r) ++ ","
  ++ (dq ++ "timestamp" ++ dq ++ ":" ++ dq) ++ timestamp r ++ (dq ++ ",")
  ++ (dq ++ "status" ++ dq ++ ":") ++ status_text r
  ++ "}".

(** The progress line of a cycle: the text and the counter inserted
    into [std::cerr]. *)
Definition cycle_line (c : Z) : string :=
  "[QNX] deterministic loop - cycle " ++ Fmt.decimal c.

Section Program.

(** [std::mt19937]: the generator state, and its construction from the
    value [std::random_device] returned. *)
Variable Gen : Type.
Variable mt19937 : Z -> Gen.

(** [std::uniform_real_distribution<double>(a, b)(gen)]: the value drawn
    and the advanced generator. *)
Variable uniform_real : float -> float -> Gen -> float * Gen.

(** [clock k] is the instant the [k]-th call of [system_clock::now()]
    returns, [k] counted from 0. *)
Variable clock : nat -> Z.

Record world := mk_world {
  gen : Gen;
  reads : nat;          (* calls of [now()] so far *)
  cycle : Z;
  trace : list event
}.

Definition write (e : event) (w : world) : world :=
  {| gen := gen w; reads := reads w; cycle := cycle w; trace := trace w ++ [e] |}.

(** The reading [emitPowerEvent] builds in world [w], with the generator
    it leaves behind. *)
Definition drawReading (sector : string) (w : world) : Reading * Gen :=
  let '(voltage, g1) := uniform_real 0.0%float 130.0%float (gen w) in
  let is_failure := (voltage <? 50.0)%float in
  let '(load, g2) := uniform_real LOAD_MIN LOAD_MAX g1 in
  ({| sector_id := sector; voltage := voltage; load := load;
      timestamp := getCurrentTimestamp (clock (reads w));
      is_failure := is_failure |}, g2).

Definition emitPowerEvent (sector : string) (w : world) : world :=
  let '(r, g) := drawReading sector w in
  {| gen := g; reads := S (reads w); cycle := cycle w;
     trace := trace w ++ [Out (serialize r)] |}.

(** [for (int i = 0; i < NUM_SECTORS; i++) emitPowerEvent(SECTORS[i], gen);] *)
Fixpoint for_sectors (fuel : nat) (i : Z) (w : world) : world :=
  match fuel with
  | O => w
  | S f =>
      if i <? NUM_SECTORS
      then for_sectors f (i + 1) (emitPowerEvent (nth (Z.to_nat i) SECTORS "") w)
      else w
  end.

(** [cycle++] and the progress line that open an iteration. *)
Definition logged (w : world) : world :=
  let c := wrap_int (cycle w + 1) in
  {| gen := gen w; reads := reads w; cycle := c;
     trace := trace w ++ [Err (cycle_line c)] |}.

(** One iteration of [while (true)]. *)
Definition cycle_body (w : world) : world :=
  let w1 := logged w in
  let w2 := for_sectors (Z.to_nat NUM_SECTORS) 0 w1 in
  write (Sleep EVENT_INTERVAL_SEC) w2.

(** [main] up to the loop: seeded generator, four start-up lines. *)
Definition startup (seed : Z) : world :=
  {| gen := mt19937 seed; reads := O; cycle := 0;
     trace := [ Err "[QNX] Grid Simulator started";
                Err ("[QNX] Emitting power events every " ++ Fmt.decimal EVENT_INTERVAL_SEC ++ " seconds");
                Err "[QNX] Sectors: sector-1, sector-2, sector-3";
                Err "[QNX] Deterministic loop" ] |}.

(** The first [n] iterations of the loop. *)
Fixpoint iterate (n : nat) (w : world) : world :=
  match n with
  | O => w
  | S k => cycle_body (iterate k w)
  end.

(** [main], observed after [n] cycles. *)
Definition main (seed : Z) (n : nat) : world := iterate n (startup seed).

(** The readings behind the lines: those [emitPowerEvent] builds for
    the given sectors in turn, those of the cycle entered in [w], and
    those of the first [n] cycles. *)
Fixpoint readings_from (sectors : list string) (w : world) : list Reading :=
  match sectors with
  | [] => []
  | s :: rest => fst (drawReading s w) :: readings_from rest (emitPowerEvent s w)
  end.

Definition cycle_readings (w : world) : list Reading := readings_from SECTORS (logged w).

Fixpoint run_readings (n : nat) (w : world) : list Reading :=
  match n with
  | O => []
  | S k => run_readings k w ++ cycle_readings (iterate k w)
  end.

End Program.

Arguments gen {Gen} _.
Arguments reads {Gen} _.
Arguments cycle {Gen} _.
Arguments trace {Gen} _.
Arguments logged {Gen} _.
Arguments drawReading {Gen} _ _ _ _.
Arguments emitPowerEvent {Gen} _ _ _ _.
Arguments cycle_body {Gen} _ _ _.
Arguments startup {Gen} _ _.
Arguments iterate {Gen} _ _ _ _.
Arguments main {Gen} _ _ _ _ _.
Arguments cycle_readings {Gen} _ _ _.
Arguments run_readings {Gen} _ _ _ _.

(** A generator for examples: the draws are read off a list, and a value
    outside the requested range is replaced by the lower bound. *)
Module Scripted.

Definition Gen := list float.
Definition mt19937 (script : list float) (_ : Z) : Gen := script.
Definition uniform_real (a b : float) (g : Gen) : float * Gen :=
  match g with
  | [] => (a, [])
  | x :: g' => (if ((a <=? x) && (x <=? b))%float then x else a, g')
  end.

End Scripted.

(** What the standard promises of [uniform_real_distribution(a, b)] for
    [a <= b]: a value between the bounds.  The upper bound is allowed, as
    some library versions can round up to it. *)
Definition uniform_real_contract
    {Gen : Type} (uniform_real : float -> float -> Gen -> float * Gen) : Prop :=
  forall (a b : float) (g : Gen),
    (a <=? b)%float = true ->
    (a <=? fst (uniform_real a b g))%float = true
    /\ (fst (uniform_real a b g) <=? b)%float = true.

(** Neither an infinity nor a NaN. *)
Definition finite_or_zero (x : float) : Prop :=
  match Prim2SF x with
  | S754_zero _ | S754_finite _ _ _ => True
  | _ => False
  end.

(** The least double that is at least 49.995: the double just below it,
    the one nearest to 49.995, lies under 49.995 and prints as 49.99. *)
Definition least_above_49_995 : float := 0x1.8ff5c28f5c290p+5%float.

Definition failure_text : string := dq ++ "failure" ++ dq.
Definition normal_text : string := dq ++ "normal" ++ dq.

(** ** Shapes of the rendered text *)

(** [fixed_width k n acc]: the [k] low decimal digits of [n], leading
    zeros kept, in front of [acc]. *)
Fixpoint fixed_width (k : nat) (n : Z) (acc : string) : string :=
  match k with
  | O => acc
  | S k' => fixed_width k' (n / 10) (String (Fmt.digit (n mod 10)) acc)
  end.

(** A fixed-layout text: a digit or a given character at each position. *)
Inductive pat := Dg | Ch (c : ascii).

Fixpoint matches (p : list pat) (s : string) : bool :=
  match p, s with
  | [], "" => true
  | Dg :: p', String c s' => Fmt.is_digit c && matches p' s'
  | Ch a :: p', String c s' => Ascii.eqb a c && matches p' s'
  | _, _ => false
  end.

(** YYYY-MM-DDTHH:MM:SS.mmmZ *)
Definition iso8601_ms : list pat :=
  [Dg; Dg; Dg; Dg; Ch "-"; Dg; Dg; Ch "-"; Dg; Dg; Ch "T";
   Dg; Dg; Ch ":"; Dg; Dg; Ch ":"; Dg; Dg; Ch "."; Dg; Dg; Dg; Ch "Z"]%char.

(** The text of a timestamp whose fields all have their full width. *)
Definition render_fields (y mo d h mi s ms : Z) : string :=
  fixed_width 4 y "" ++ "-" ++ fixed_width 2 mo "" ++ "-" ++ fixed_width 2 d ""
  ++ "T" ++ fixed_width 2 h "" ++ ":" ++ fixed_width 2 mi "" ++ ":" ++ fixed_width 2 s ""
  ++ "." ++ fixed_width 3 ms "" ++ "Z".

(** The instants [getCurrentTimestamp] is meant for: from the epoch to the
    last nanosecond of the year 9999. *)
Definition clock_in_range (now : Z) : Prop := 0 <= now < 253402300800 * Time.ticks_per_sec.

(** ** The consumer's view of a line *)

Fixpoint string_forall (P : ascii -> bool) (s : string) : bool :=
  match s with
  | "" => true
  | String c s' => P c && string_forall P s'
  end.

Definition quote : ascii := "034"%char.

(** Space, tab, line feed, carriage return. *)
Definition is_space (c : ascii) : bool :=
  Ascii.eqb c " " || Ascii.eqb c "009" || Ascii.eqb c "010" || Ascii.eqb c "013".

(** Neither white space nor a double quote. *)
Definition plain (c : ascii) : bool := negb (is_space c) && negb (Ascii.eqb c quote).

Definition is_number_char (c : ascii) : bool :=
  Fmt.is_digit c || Ascii.eqb c "-" || Ascii.eqb c ".".

(** Fixed-point text with two fractional digits: an optional minus sign,
    one digit or more, a dot, two digits. *)
Fixpoint int_frac (seen : bool) (s : string) : bool :=
  match s with
  | "" => false
  | String c s' =>
      if Fmt.is_digit c then int_frac true s'
      else Ascii.eqb c "." && seen && matches [Dg; Dg] s'
  end.

Definition two_decimals (s : string) : bool :=
  match s with
  | "" => false
  | String c s' => if Ascii.eqb c "-" then int_frac false s' else int_frac false s
  end.

Inductive jvalue :=
| JString (s : string)
| JNumber (s : string).

(** A reader of one flat JSON object, character by character.  It knows
    strings without escapes and numbers, and skips no white space. *)
Inductive jstate :=
| Start
| ExpectKey (ms : list (string * jvalue))
| InKey (ms : list (string * jvalue)) (k : string)
| ExpectColon (ms : list (string * jvalue)) (k : string)
| ExpectValue (ms : list (string * jvalue)) (k : string)
| InStr (ms : list (string * jvalue)) (k v : string)
| InNum (ms : list (string * jvalue)) (k v : string)
| AfterValue (ms : list (string * jvalue))
| Done (ms : list (string * jvalue))
| Broken.

Definition snoc (s : string) (c : ascii) : string := s ++ String c "".

Definition jstep (st : jstate) (c : ascii) : jstate :=
  match st with
  | Start => if Ascii.eqb c "{" then ExpectKey [] else Broken
  | ExpectKey ms => if Ascii.eqb c quote then InKey ms "" else Broken
  | InKey ms k => if Ascii.eqb c quote then ExpectColon ms k else InKey ms (snoc k c)
  | ExpectColon ms k => if Ascii.eqb c ":" then ExpectValue ms k else Broken
  | ExpectValue ms k =>
      if Ascii.eqb c quote then InStr ms k ""
      else if is_number_char c then InNum ms k (String c "")
      else Broken
  | InStr ms k v =>
      if Ascii.eqb c quote then AfterValue (ms ++ [(k, JString v)])
      else InStr ms k (snoc v c)
  | InNum ms k v =>
      if is_number_char c then InNum ms k (snoc v c)
      else if Ascii.eqb c "," then ExpectKey (ms ++ [(k, JNumber v)])
      else if Ascii.eqb c "}" then Done (ms ++ [(k, JNumber v)])
      else Broken
  | AfterValue ms =>
      if Ascii.eqb c "," then ExpectKey ms
      else if Ascii.eqb c "}" then Done ms
      else Broken
  | Done _ => Broken
  | Broken => Broken
  end.

Fixpoint jrun (st : jstate) (s : string) : jstate :=
  match s with
  | "" => st
  | String c s' => jrun (jstep st c) s'
  end.

(** The members of the object a line holds, in order; [None] when the
    line is not exactly one such object. *)
Definition parse_object (s : string) : option (list (string * jvalue)) :=
  match jrun Start s with
  | Done ms => Some ms
  | _ => None
  end.

(** What a consumer requires of a line: no white space anywhere, and one
    object with the five members, in order. *)
Definition line_ok (l : string) : Prop :=
  string_forall (fun c => negb (is_space c)) l = true
  /\ exists sid v ld ts st : string,
       parse_object l
       = Some [ ("sector_id", JString sid); ("voltage", JNumber v); ("load", JNumber ld);
                ("timestamp", JString ts); ("status", JString st) ]
       /\ In sid SECTORS
       /\ two_decimals v = true /\ two_decimals ld = true
       /\ matches iso8601_ms ts = true
       /\ (st = "failure" \/ st = "normal").

(** ** Order of timestamps *)

(** Each text is at most the next, in lexicographic order. *)
Fixpoint nondecreasing (l : list string) : bool :=
  match l with
  | a :: ((b :: _) as rest) => String.leb a b && nondecreasing rest
  | _ => true
  end.

(** Lexicographic combination of two comparisons. *)
Definition lex (c1 c2 : comparison) : comparison :=
  match c1 with
  | Eq => c2
  | _ => c1
  end.

(** A calendar date as one number, yyyymmdd. *)
Definition date_key (z : Z) : Z :=
  let '(y, m, d) := Time.civil_from_days z in y * 10000 + m * 100 + d.

(** The same for a day of the era, the year counted within the era. *)
Definition era_key (doe : Z) : Z :=
  let yoe := (doe - doe / 1460 + doe / 36524 - doe / 146096) / 365 in
  let doy := doe - (365 * yoe + yoe / 4 - yoe / 100) in
  let mp := (5 * doy + 2) / 153 in
  let d := doy - (153 * mp + 2) / 5 + 1 in
  let m := if mp <? 10 then mp + 3 else mp - 9 in
  (yoe + (if m <=? 2 then 1 else 0)) * 10000 + m * 100 + d.

(** [era_key] on machine integers, for checking a whole era by
    computation, and the check of [n] consecutive integers from [i] on. *)
Module Era63.
Import Uint63.

Definition era_key63 (doe : int) : int :=
  (let yoe := (doe - doe / 1460 + doe / 36524 - doe / 146096) / 365 in
   let doy := doe - (365 * yoe + yoe / 4 - yoe / 100) in
   let mp := (5 * doy + 2) / 153 in
   let d := doy - (153 * mp + 2) / 5 + 1 in
   let m := if mp <? 10 then mp + 3 else mp - 9 in
   (yoe + (if m <=? 2 then 1 else 0)) * 10000 + m * 100 + d)%uint63.

Fixpoint all_from63 (n : nat) (i : int) (p : int -> bool) : bool :=
  match n with
  | O => true
  | S k => if p i then all_from63 k (i + 1)%uint63 p else false
  end.

Definition era_step_ok (doe : int) : bool :=
  (era_key63 doe <? era_key63 (doe + 1))%uint63.

End Era63.

(** Date, time and milliseconds as one number, yyyymmddhhmmssmmm. *)
Definition fields_key (y mo d h mi s ms : Z) : Z :=
  (((((y * 100 + mo) * 100 + d) * 100 + h) * 100 + mi) * 100 + s) * 1000 + ms.

(** ** The generator along a run *)

(** What one call of [emitPowerEvent] does to the generator: the voltage
    draw, then the load draw. *)
Definition two_draws {Gen : Type} (uniform_real : float -> float -> Gen -> float * Gen)
    (g : Gen) : Gen :=
  snd (uniform_real LOAD_MIN LOAD_MAX (snd (uniform_real 0.0%float 130.0%float g))).

(** The values [emitPowerEvent] draws from generator [g]: voltage, load
    and classification. *)
Definition drawn_values {Gen : Type} (uniform_real : float -> float -> Gen -> float * Gen)
    (g : Gen) : float * float * bool :=
  let v := uniform_real 0.0%float 130.0%float g in
  (fst v, fst (uniform_real LOAD_MIN LOAD_MAX (snd v)), (fst v <? 50.0)%float).

(** ** Reading a printed number *)

(** The value of a digit character. *)
Definition digit_value (c : ascii) : Z := Z.of_nat (nat_of_ascii c) - 48.

(** The number a text of digits denotes, after the digits [acc] stands
    for. *)
Fixpoint digits_value (acc : Z) (s : string) : Z :=
  match s with
  | "" => acc
  | String c s' => digits_value (acc * 10 + digit_value c) s'
  end.

(** Hundredths denoted by the digits, dot and two digits of a text; [acc]
    and [seen] are the integer part read so far and whether it has a
    digit. *)
Fixpoint read_int_frac (acc : Z) (seen : bool) (s : string) : option Z :=
  match s with
  | "" => None
  | String c s' =>
      if Fmt.is_digit c then read_int_frac (acc * 10 + digit_value c) true s'
      else if Ascii.eqb c "." && seen && matches [Dg; Dg] s'
           then Some (digits_value acc s')
           else None
  end.

(** A consumer's reading of a two-decimal text, in hundredths. *)
Definition read_fixed2 (s : string) : option Z :=
  match s with
  | "" => None
  | String c s' =>
      if Ascii.eqb c "-" then option_map Z.opp (read_int_frac 0 false s')
      else read_int_frac 0 false s
  end.

(** ** The date and time a timestamp denotes *)

(** The calendar behind the words ISO-8601 UTC, written from the calendar
    itself and not from [gmtime]: Gregorian years and months, counted in
    days from 1970-01-01 by adding up the lengths of the years and of the
    months gone by, and the reading of the seven numbers of a timestamp
    text.  The timestamps of the program are compared with it. *)
Module Utc.

Definition is_leap (y : Z) : bool :=
  (y mod 4 =? 0) && (negb (y mod 100 =? 0) || (y mod 400 =? 0)).

Definition days_in_year (y : Z) : Z := if is_leap y then 366 else 365.

Definition days_in_month (y m : Z) : Z :=
  if m =? 2 then (if is_leap y then 29 else 28)
  else if (m =? 4) || (m =? 6) || (m =? 9) || (m =? 11) then 30
  else 31.

(** [f a + f (a + 1) + ... ], [n] terms. *)
Fixpoint sum_from (f : Z -> Z) (a : Z) (n : nat) : Z :=
  match n with
  | O => 0
  | S k => f a + sum_from f (a + 1) k
  end.

(** Days from 1970-01-01 to 1 January of year [y]. *)
Definition days_before_year (y : Z) : Z :=
  sum_from days_in_year 1970 (Z.to_nat (y - 1970)).

(** Days from 1 January of year [y] to the first of its month [m]. *)
Definition days_before_month (y m : Z) : Z :=
  sum_from (days_in_month y) 1 (Z.to_nat (m - 1)).

(** Days from 1970-01-01 to the date [y]-[m]-[d]. *)
Definition epoch_days (y m d : Z) : Z :=
  days_before_year y + days_before_month y m + (d - 1).

(** Milliseconds from 1970-01-01T00:00:00Z to the given UTC date and
    time; no zone offset is applied. *)
Definition epoch_millis (y mo d h mi s ms : Z) : Z :=
  (((epoch_days y mo d * 24 + h) * 60 + mi) * 60 + s) * 1000 + ms.

(** The number written in the [len] characters of [s] from [start] on. *)
Definition number (start len : nat) (s : string) : Z :=
  digits_value 0 (substring start len s).

(** Year, month, day, hour, minute, second and millisecond of a text
    laid out as YYYY-MM-DDTHH:MM:SS.mmmZ. *)
Definition read (s : string) : option (Z * Z * Z * Z * Z * Z * Z) :=
  if matches iso8601_ms s
  then Some (number 0 4 s, number 5 2 s, number 8 2 s,
             number 11 2 s, number 14 2 s, number 17 2 s, number 20 3 s)
  else None.

End Utc.

(** ** The streams as functions of the seed and of the instants read *)






(** ** A system clock that is set back *)

(** The instants of a clock set back by two seconds between the first
    and the second call of [now()], as an adjustment of the system time
    does: 2026-12-30T00:05:00.005Z, then 00:04:58.000Z, then 00:05:05.000Z
    from the third call on. *)
Definition stepping_back_clock (k : nat) : Z :=
  match k with
  | O => 1798589100005000000
  | S O => 1798589098000000000
  | _ => 1798589105000000000
  end.

(** * Properties *)

(** Linear arithmetic with division and remainder by constants. *)
Ltac divlia := Z.div_mod_to_equations; lia.

(** ** Strings *)

Section StringFacts.

Lemma append_assoc (a b c : string) : (a ++ b) ++ c = a ++ b ++ c.
Proof. induction a as [|x a IH]; cbn; [reflexivity | now rewrite IH]. Qed.

Lemma append_nil_r (a : string) : a ++ "" = a.
Proof. induction a as [|x a IH]; cbn; [reflexivity | now rewrite IH]. Qed.

Lemma snoc_append (a : string) (c : ascii) (b : string) :
  snoc a c ++ b = a ++ String c b.
Proof. unfold snoc. rewrite append_assoc. reflexivity. Qed.

Lemma string_forall_app (P : ascii -> bool) (a b : string) :
  string_forall P (a ++ b) = string_forall P a && string_forall P b.
Proof.
  induction a as [|x a IH]; cbn; [reflexivity|].
  rewrite IH. apply andb_assoc.
Qed.

Lemma string_forall_impl (P Q : ascii -> bool) (a : string) :
  (forall c : ascii, P c = true -> Q c = true) ->
  string_forall P a = true -> string_forall Q a = true.
Proof.
  intros HPQ. induction a as [|x a IH]; cbn; [reflexivity|].
  intros H. apply andb_true_iff in H. destruct H as [Hx Ha].
  rewrite (HPQ x Hx), (IH Ha). reflexivity.
Qed.

(** Character classes, by cases on the eight bits. *)
Lemma is_digit_number_char (c : ascii) : Fmt.is_digit c = true -> is_number_char c = true.
Proof. unfold is_number_char. intros ->. reflexivity. Qed.

Lemma number_char_plain (c : ascii) : is_number_char c = true -> plain c = true.
Proof.
  destruct c as [[] [] [] [] [] [] [] []]; cbv; intros H; try reflexivity; discriminate.
Qed.

Lemma is_digit_not_minus (c : ascii) : Fmt.is_digit c = true -> Ascii.eqb c "-" = false.
Proof.
  destruct c as [[] [] [] [] [] [] [] []]; cbv; intros H; try reflexivity; discriminate.
Qed.

Lemma plain_not_quote (c : ascii) : plain c = true -> Ascii.eqb c quote = false.
Proof.
  unfold plain. intros H. apply andb_true_iff in H. destruct H as [_ H].
  apply negb_true_iff in H. exact H.
Qed.

Lemma plain_not_space (c : ascii) : plain c = true -> negb (is_space c) = true.
Proof.
  unfold plain. intros H. apply andb_true_iff in H. tauto.
Qed.

End StringFacts.

(** ** Reading a line back *)

Section JsonFacts.

Lemma jrun_app (a : string) :
  forall (st : jstate) (b : string), jrun st (a ++ b) = jrun (jrun st a) b.
Proof.
  induction a as [|x a IH]; intros st b; cbn; [reflexivity | apply IH].
Qed.

Lemma jrun_InKey (ms : list (string * jvalue)) (a : string) :
  forall k : string,
    string_forall plain a = true -> jrun (InKey ms k) a = InKey ms (k ++ a).
Proof.
  induction a as [|x a IH]; intros k H; cbn.
  - rewrite append_nil_r. reflexivity.
  - cbn in H. apply andb_true_iff in H. destruct H as [Hx Ha].
    rewrite (plain_not_quote x Hx), (IH _ Ha), snoc_append. reflexivity.
Qed.

Lemma jrun_InStr (ms : list (string * jvalue)) (k : string) (a : string) :
  forall v : string,
    string_forall plain a = true -> jrun (InStr ms k v) a = InStr ms k (v ++ a).
Proof.
  induction a as [|x a IH]; intros v H; cbn.
  - rewrite append_nil_r. reflexivity.
  - cbn in H. apply andb_true_iff in H. destruct H as [Hx Ha].
    rewrite (plain_not_quote x Hx), (IH _ Ha), snoc_append. reflexivity.
Qed.

Lemma jrun_InNum (ms : list (string * jvalue)) (k : string) (a : string) :
  forall v : string,
    string_forall is_number_char a = true -> jrun (InNum ms k v) a = InNum ms k (v ++ a).
Proof.
  induction a as [|x a IH]; intros v H; cbn.
  - rewrite append_nil_r. reflexivity.
  - cbn in H. apply andb_true_iff in H. destruct H as [Hx Ha].
    rewrite Hx, (IH _ Ha), snoc_append. reflexivity.
Qed.

Lemma jrun_ExpectValue_number (ms : list (string * jvalue)) (k : string) (a : string) :
  a <> "" -> string_forall is_number_char a = true ->
  jrun (ExpectValue ms k) a = InNum ms k a.
Proof.
  destruct a as [|x a]; [congruence|]. intros _ H. cbn in H.
  apply andb_true_iff in H. destruct H as [Hx Ha]. cbn.
  rewrite (plain_not_quote x (number_char_plain x Hx)), Hx.
  rewrite (jrun_InNum _ _ _ _ Ha). reflexivity.
Qed.

(** A line of the five members reads back as those members. *)
Lemma parse_object_members (sid v ld ts st : string) :
  string_forall plain sid = true ->
  v <> "" -> string_forall is_number_char v = true ->
  ld <> "" -> string_forall is_number_char ld = true ->
  string_forall plain ts = true ->
  string_forall plain st = true ->
  parse_object
    ("{" ++ (dq ++ "sector_id" ++ dq ++ ":" ++ dq) ++ sid ++ (dq ++ ",")
         ++ (dq ++ "voltage" ++ dq ++ ":") ++ v ++ ","
         ++ (dq ++ "load" ++ dq ++ ":") ++ ld ++ ","
         ++ (dq ++ "timestamp" ++ dq ++ ":" ++ dq) ++ ts ++ (dq ++ ",")
         ++ (dq ++ "status" ++ dq ++ ":") ++ (dq ++ st ++ dq)
         ++ "}")
  = Some [ ("sector_id", JString sid); ("voltage", JNumber v); ("load", JNumber ld);
           ("timestamp", JString ts); ("status", JString st) ].
Proof.
  intros Hsid Hv0 Hv Hl0 Hl Hts Hst. unfold parse_object.
  rewrite (jrun_app "{"). rewrite (jrun_app (dq ++ "sector_id" ++ dq ++ ":" ++ dq)).
  change (jrun (jrun Start "{") (dq ++ "sector_id" ++ dq ++ ":" ++ dq))
    with (InStr [] "sector_id" "").
  rewrite (jrun_app sid), (jrun_InStr _ _ _ _ Hsid).
  rewrite (jrun_app (dq ++ ",")), (jrun_app (dq ++ "voltage" ++ dq ++ ":")).
  change (jrun (jrun (InStr [] "sector_id" ("" ++ sid)) (dq ++ ","))
            (dq ++ "voltage" ++ dq ++ ":"))
    with (ExpectValue [("sector_id", JString sid)] "voltage").
  rewrite (jrun_app v), (jrun_ExpectValue_number _ _ _ Hv0 Hv).
  rewrite (jrun_app ","), (jrun_app (dq ++ "load" ++ dq ++ ":")).
  change (jrun (jrun (InNum [("sector_id", JString sid)] "voltage" v) ",")
            (dq ++ "load" ++ dq ++ ":"))
    with (ExpectValue [("sector_id", JString sid); ("voltage", JNumber v)] "load").
  rewrite (jrun_app ld), (jrun_ExpectValue_number _ _ _ Hl0 Hl).
  rewrite (jrun_app ","), (jrun_app (dq ++ "timestamp" ++ dq ++ ":" ++ dq)).
  change (jrun (jrun (InNum [("sector_id", JString sid); ("voltage", JNumber v)] "load" ld) ",")
            (dq ++ "timestamp" ++ dq ++ ":" ++ dq))
    with (InStr [("sector_id", JString sid); ("voltage", JNumber v); ("load", JNumber ld)]
            "timestamp" "").
  rewrite (jrun_app ts), (jrun_InStr _ _ _ _ Hts).
  rewrite (jrun_app (dq ++ ",")), (jrun_app (dq ++ "status" ++ dq ++ ":")).
  rewrite (jrun_app (dq ++ st ++ dq)).
  rewrite (jrun_app dq), (jrun_app st).
  change (jrun (jrun (jrun (InStr [("sector_id", JString sid); ("voltage", JNumber v);
                                   ("load", JNumber ld)] "timestamp" ("" ++ ts))
                        (dq ++ ",")) (dq ++ "status" ++ dq ++ ":")) dq)
    with (InStr [("sector_id", JString sid); ("voltage", JNumber v); ("load", JNumber ld);
                 ("timestamp", JString ts)] "status" "").
  rewrite (jrun_InStr _ _ _ _ Hst). reflexivity.
Qed.

End JsonFacts.

(** ** Decimal rendering *)

Section DecimalFacts.

Import Fmt.

Lemma dec_digits_enough (f1 : nat) :
  forall (f2 : nat) (n : Z) (acc : string),
    0 <= n -> n < 10 ^ Z.of_nat (S f1) -> n < 10 ^ Z.of_nat (S f2) ->
    dec_digits (S f1) n acc = dec_digits (S f2) n acc.
Proof.
  induction f1 as [|f1 IH]; intros f2 n acc Hn H1 H2.
  - change (10 ^ Z.of_nat 1) with 10 in H1.
    cbn [dec_digits]. destruct (Z.ltb_spec n 10); [reflexivity | lia].
  - cbn [dec_digits]. destruct (Z.ltb_spec n 10) as [|Hge]; [reflexivity|].
    destruct f2 as [|f2].
    + change (10 ^ Z.of_nat 1) with 10 in H2. lia.
    + apply IH.
      * divlia.
      * rewrite Nat2Z.inj_succ, Z.pow_succ_r in H1 by lia.
        apply Z.div_lt_upper_bound; lia.
      * rewrite Nat2Z.inj_succ, Z.pow_succ_r in H2 by lia.
        apply Z.div_lt_upper_bound; lia.
Qed.

Lemma dec_fuel_enough (n : Z) : 0 <= n -> n < 10 ^ Z.of_nat (dec_fuel n).
Proof.
  intros Hn. unfold dec_fuel.
  rewrite Nat2Z.inj_succ, Z2Nat.id by apply Z.log2_nonneg.
  destruct (Z.eq_dec n 0) as [->|Hnz].
  - reflexivity.
  - apply Z.lt_le_trans with (2 ^ Z.succ (Z.log2 n)).
    + apply Z.log2_spec; lia.
    + apply Z.pow_le_mono_l. lia.
Qed.

(** With [k + 1] digits at most, the rendering is [dec_digits (k + 1)]. *)
Lemma decimal_small (k : nat) (n : Z) :
  0 <= n < 10 ^ Z.of_nat (S k) -> decimal n = dec_digits (S k) n "".
Proof.
  intros [Hn Hlt]. unfold decimal.
  destruct (Z.ltb_spec n 0); [lia|].
  unfold dec_fuel at 1. apply dec_digits_enough; auto.
  apply (dec_fuel_enough n Hn).
Qed.

Lemma digit_0 : digit 0 = "0"%char.
Proof. reflexivity. Qed.

Lemma is_digit_digit (d : Z) : 0 <= d < 10 -> is_digit (digit d) = true.
Proof.
  intros H.
  assert (Hc : d = 0 \/ d = 1 \/ d = 2 \/ d = 3 \/ d = 4 \/ d = 5 \/ d = 6
               \/ d = 7 \/ d = 8 \/ d = 9) by lia.
  repeat (destruct Hc as [->|Hc]; [reflexivity|]). subst d. reflexivity.
Qed.

Lemma digit_value_digit (d : Z) : 0 <= d < 10 -> digit_value (digit d) = d.
Proof.
  intros H.
  assert (Hc : d = 0 \/ d = 1 \/ d = 2 \/ d = 3 \/ d = 4 \/ d = 5 \/ d = 6
               \/ d = 7 \/ d = 8 \/ d = 9) by lia.
  repeat (destruct Hc as [->|Hc]; [reflexivity|]). subst d. reflexivity.
Qed.

Lemma setw2_decimal (n : Z) :
  0 <= n < 100 -> setw 2 "0" (decimal n) = fixed_width 2 n "".
Proof.
  intros H. rewrite (decimal_small 1) by (change (10 ^ Z.of_nat 2) with 100; lia).
  cbn [dec_digits fixed_width].
  destruct (Z.ltb_spec n 10).
  - rewrite (Z.div_small n 10), (Z.mod_small 0 10), digit_0 by lia. reflexivity.
  - destruct (Z.ltb_spec (n / 10) 10); [|divlia].
    reflexivity.
Qed.

Lemma setw3_decimal (n : Z) :
  0 <= n < 1000 -> setw 3 "0" (decimal n) = fixed_width 3 n "".
Proof.
  intros H. rewrite (decimal_small 2) by (change (10 ^ Z.of_nat 3) with 1000; lia).
  cbn [dec_digits fixed_width].
  destruct (Z.ltb_spec n 10).
  - rewrite (Z.div_small n 10), (Z.mod_small 0 10), digit_0 by lia. reflexivity.
  - destruct (Z.ltb_spec (n / 10) 10).
    + rewrite (Z.div_small (n / 10) 10), (Z.mod_small 0 10), digit_0 by divlia.
      reflexivity.
    + destruct (Z.ltb_spec (n / 10 / 10) 10); [|divlia].
      reflexivity.
Qed.

Lemma decimal_four_digits (n : Z) :
  1000 <= n < 10000 -> decimal n = fixed_width 4 n "".
Proof.
  intros H. rewrite (decimal_small 3) by (change (10 ^ Z.of_nat 4) with 10000; lia).
  cbn [dec_digits fixed_width].
  destruct (Z.ltb_spec n 10); [lia|].
  destruct (Z.ltb_spec (n / 10) 10); [divlia|].
  destruct (Z.ltb_spec (n / 10 / 10) 10); [divlia|].
  destruct (Z.ltb_spec (n / 10 / 10 / 10) 10); [|divlia].
  reflexivity.
Qed.

Lemma dec_digits_shape (fuel : nat) :
  forall (n : Z) (acc : string),
    0 <= n ->
    exists D : string,
      dec_digits (S fuel) n acc = D ++ acc
      /\ string_forall is_digit D = true /\ D <> "".
Proof.
  induction fuel as [|fuel IH]; intros n acc Hn.
  - exists (String (digit (n mod 10)) "").
    cbn [dec_digits]. split; [destruct (n <? 10); reflexivity|].
    split; [|discriminate]. cbn [string_forall]. rewrite is_digit_digit by divlia. reflexivity.
  - remember (S fuel) as f eqn:Hf. cbn [dec_digits].
    destruct (Z.ltb_spec n 10) as [Hlt|Hge].
    + exists (String (digit (n mod 10)) "").
      split; [reflexivity|]. split; [|discriminate].
      cbn [string_forall]. rewrite is_digit_digit by divlia. reflexivity.
    + subst f.
      destruct (IH (n / 10) (String (digit (n mod 10)) acc)) as (D & HD & Hd & Hne);
        [divlia|].
      exists (D ++ String (digit (n mod 10)) "").
      rewrite HD, append_assoc. split; [reflexivity|]. split.
      * rewrite string_forall_app, Hd. cbn [string_forall].
        rewrite is_digit_digit by divlia. reflexivity.
      * destruct D; [congruence | discriminate].
Qed.

(** A non-negative integer prints as one digit or more, and digits only. *)
Lemma decimal_shape (n : Z) :
  0 <= n -> string_forall is_digit (decimal n) = true /\ decimal n <> "".
Proof.
  intros Hn. unfold decimal. destruct (Z.ltb_spec n 0); [lia|].
  unfold dec_fuel.
  destruct (dec_digits_shape (Z.to_nat (Z.log2 n)) n "" Hn) as (D & HD & Hd & Hne).
  rewrite HD, append_nil_r. auto.
Qed.

End DecimalFacts.

(** ** Fixed-point rendering *)

Section FixedFacts.

Import Fixed.

Lemma round_half_even_nonneg (num den : Z) :
  0 <= num -> 0 < den -> 0 <= round_half_even num den.
Proof.
  intros Hn Hd. unfold round_half_even.
  assert (0 <= num / den) by (apply Z.div_pos; lia).
  destruct (2 * (num mod den) ?= den); [destruct (Z.even (num / den))| |]; lia.
Qed.

Lemma hundredths_nonneg (m : positive) (e : Z) : 0 <= hundredths m e.
Proof.
  unfold hundredths. destruct (Z.leb_spec 0 e).
  - assert (0 <= 2 ^ e) by (apply Z.pow_nonneg; lia). nia.
  - apply round_half_even_nonneg; [lia|]. apply Z.pow_pos_nonneg; lia.
Qed.

(** The text of a rendered double: sign, integer digits, dot, two digits. *)
Lemma fixed2_shape (x : float) :
  finite_or_zero x ->
  exists (neg : bool) (D F : string),
    fixed2 x = sign_prefix neg ++ D ++ "." ++ F
    /\ string_forall Fmt.is_digit D = true /\ D <> ""
    /\ matches [Dg; Dg] F = true.
Proof.
  unfold finite_or_zero, fixed2.
  destruct (Prim2SF x) as [sx|sx| |sx mx ex]; try contradiction; intros _.
  - exists sx, "0", "00". repeat split; discriminate.
  - pose proof (hundredths_nonneg mx ex) as Hn.
    set (n := hundredths mx ex) in *.
    destruct (decimal_shape (n / 100)) as [Hd Hne]; [divlia|].
    exists sx, (Fmt.decimal (n / 100)), (fixed_width 2 (n mod 100) "").
    unfold render_hundredths. rewrite setw2_decimal by divlia.
    repeat split; try assumption.
    cbn [fixed_width matches]. rewrite !is_digit_digit by divlia. reflexivity.
Qed.

Lemma int_frac_digits (D F : string) :
  forall seen : bool,
    string_forall Fmt.is_digit D = true -> D <> "" \/ seen = true ->
    int_frac seen (D ++ "." ++ F) = matches [Dg; Dg] F.
Proof.
  induction D as [|c D IH]; intros seen Hd Hs.
  - destruct Hs as [Hs| ->]; [congruence|]. reflexivity.
  - cbn in Hd. apply andb_true_iff in Hd. destruct Hd as [Hc Hd].
    cbn [append int_frac]. rewrite Hc. apply IH; auto.
Qed.

Lemma fixed2_two_decimals (x : float) :
  finite_or_zero x -> two_decimals (fixed2 x) = true.
Proof.
  intros Hx. destruct (fixed2_shape x Hx) as (neg & D & F & -> & Hd & Hne & HF).
  destruct neg; cbn [sign_prefix].
  - change (two_decimals ("-" ++ D ++ "." ++ F)) with (int_frac false (D ++ "." ++ F)).
    rewrite int_frac_digits by auto. exact HF.
  - change ("" ++ D ++ "." ++ F) with (D ++ "." ++ F).
    assert (E : two_decimals (D ++ "." ++ F) = int_frac false (D ++ "." ++ F)).
    { destruct D as [|c D]; [congruence|].
      cbn in Hd. apply andb_true_iff in Hd. destruct Hd as [Hc _].
      unfold two_decimals. cbn [append]. rewrite (is_digit_not_minus c Hc). reflexivity. }
    rewrite E, int_frac_digits by auto. exact HF.
Qed.

Lemma fixed2_number_chars (x : float) :
  finite_or_zero x ->
  fixed2 x <> "" /\ string_forall is_number_char (fixed2 x) = true.
Proof.
  intros Hx. destruct (fixed2_shape x Hx) as (neg & D & F & -> & Hd & Hne & HF).
  split.
  - destruct neg; [discriminate|]. destruct D; [congruence | discriminate].
  - rewrite !string_forall_app.
    rewrite (string_forall_impl _ _ D is_digit_number_char Hd).
    destruct F as [|a [|b [|c F]]]; cbn in HF; rewrite ?andb_false_r in HF;
      try discriminate.
    apply andb_true_iff in HF. destruct HF as [Ha HF].
    apply andb_true_iff in HF. destruct HF as [Hb _].
    cbn [string_forall]. rewrite (is_digit_number_char a Ha), (is_digit_number_char b Hb).
    destruct neg; reflexivity.
Qed.

End FixedFacts.

(** ** An era, day by day *)

Section EraFacts.

Import Uint63.

Lemma to_Z_small (x : Z) : 0 <= x < 4611686018427387904 -> x mod Uint63.wB = x.
Proof.
  intros H. apply Z.mod_small. change Uint63.wB with 9223372036854775808. lia.
Qed.

Lemma ltb63_Z (x y : Uint63.int) :
  Uint63.ltb x y = (Uint63.to_Z x <? Uint63.to_Z y).
Proof.
  destruct (Z.ltb_spec (Uint63.to_Z x) (Uint63.to_Z y)) as [H|H].
  - apply Uint63.ltb_spec. exact H.
  - destruct (Uint63.ltb x y) eqn:E; [|reflexivity].
    apply Uint63.ltb_spec in E. lia.
Qed.

Lemma leb63_Z (x y : Uint63.int) :
  Uint63.leb x y = (Uint63.to_Z x <=? Uint63.to_Z y).
Proof.
  destruct (Z.leb_spec (Uint63.to_Z x) (Uint63.to_Z y)) as [H|H].
  - apply Uint63.leb_spec. exact H.
  - destruct (Uint63.leb x y) eqn:E; [|reflexivity].
    apply Uint63.leb_spec in E. lia.
Qed.

(** On the days of an era the machine-integer key is the key. *)
Lemma era_key63_spec (i : Uint63.int) :
  Uint63.to_Z i <= 146096 ->
  Uint63.to_Z (Era63.era_key63 i) = era_key (Uint63.to_Z i).
Proof.
  intros Hi. pose proof (Uint63.to_Z_bounded i) as Hb.
  unfold Era63.era_key63, era_key. cbv zeta.
  set (z := Uint63.to_Z i) in *.
  assert (Hz : 0 <= z <= 146096) by lia. clear Hb Hi.
  set (n := z - z / 1460 + z / 36524 - z / 146096).
  set (y := n / 365).
  set (doy := z - (365 * y + y / 4 - y / 100)).
  set (mp := (5 * doy + 2) / 153).
  set (d := doy - (153 * mp + 2) / 5 + 1).
  assert (Hn : 0 <= n <= 146096) by (subst n; divlia).
  assert (Hy : 0 <= y <= 399 /\ 0 <= doy <= 365) by (subst doy y n; divlia).
  assert (Hmp : 0 <= mp <= 11) by (subst mp; divlia).
  assert (Hd : 1 <= d <= 31) by (subst d mp; divlia).
  set (n63 := (i - i / 1460 + i / 36524 - i / 146096)%uint63).
  assert (En : Uint63.to_Z n63 = n).
  { subst n63 n. rewrite Uint63.sub_spec, Uint63.add_spec, Uint63.sub_spec, !Uint63.div_spec.
    fold z. change (Uint63.to_Z 1460) with 1460. change (Uint63.to_Z 36524) with 36524.
    change (Uint63.to_Z 146096) with 146096.
    rewrite (to_Z_small (z - z / 1460)) by divlia.
    rewrite (to_Z_small (z - z / 1460 + z / 36524)) by divlia.
    apply to_Z_small. divlia. }
  clearbody n63.
  set (y63 := (n63 / 365)%uint63).
  assert (Ey : Uint63.to_Z y63 = y).
  { subst y63 y. rewrite Uint63.div_spec, En. reflexivity. }
  clearbody y63.
  set (doy63 := (i - (365 * y63 + y63 / 4 - y63 / 100))%uint63).
  assert (Edoy : Uint63.to_Z doy63 = doy).
  { subst doy63 doy.
    rewrite Uint63.sub_spec, Uint63.sub_spec, Uint63.add_spec, Uint63.mul_spec,
      !Uint63.div_spec, Ey.
    fold z. change (Uint63.to_Z 365) with 365. change (Uint63.to_Z 4) with 4.
    change (Uint63.to_Z 100) with 100.
    rewrite (to_Z_small (365 * y)) by lia.
    rewrite (to_Z_small (365 * y + y / 4)) by divlia.
    rewrite (to_Z_small (365 * y + y / 4 - y / 100)) by divlia.
    apply to_Z_small. lia. }
  clearbody doy63.
  set (mp63 := ((5 * doy63 + 2) / 153)%uint63).
  assert (Emp : Uint63.to_Z mp63 = mp).
  { subst mp63 mp. rewrite Uint63.div_spec, Uint63.add_spec, Uint63.mul_spec, Edoy.
    change (Uint63.to_Z 5) with 5. change (Uint63.to_Z 2) with 2.
    change (Uint63.to_Z 153) with 153.
    rewrite (to_Z_small (5 * doy)) by lia.
    rewrite (to_Z_small (5 * doy + 2)) by lia. reflexivity. }
  clearbody mp63.
  set (d63 := (doy63 - (153 * mp63 + 2) / 5 + 1)%uint63).
  assert (Ed : Uint63.to_Z d63 = d).
  { subst d63 d. rewrite Uint63.add_spec, Uint63.sub_spec, Uint63.div_spec, Uint63.add_spec,
      Uint63.mul_spec, Edoy, Emp.
    change (Uint63.to_Z 5) with 5. change (Uint63.to_Z 2) with 2.
    change (Uint63.to_Z 153) with 153. change (Uint63.to_Z 1) with 1.
    rewrite (to_Z_small (153 * mp)) by lia.
    rewrite (to_Z_small (153 * mp + 2)) by lia.
    rewrite (to_Z_small (doy - (153 * mp + 2) / 5)) by lia.
    apply to_Z_small. lia. }
  clearbody d63.
  rewrite ltb63_Z, Emp. change (Uint63.to_Z 10) with 10.
  set (m63 := if mp <? 10 then (mp63 + 3)%uint63 else (mp63 - 9)%uint63).
  set (m := if mp <? 10 then mp + 3 else mp - 9).
  assert (Em : Uint63.to_Z m63 = m /\ 1 <= m <= 12).
  { subst m63 m. destruct (Z.ltb_spec mp 10).
    - rewrite Uint63.add_spec, Emp. change (Uint63.to_Z 3) with 3.
      rewrite to_Z_small by lia. lia.
    - rewrite Uint63.sub_spec, Emp. change (Uint63.to_Z 9) with 9.
      rewrite to_Z_small by lia. lia. }
  destruct Em as [Em Hm]. clearbody m63 m.
  rewrite leb63_Z, Em. change (Uint63.to_Z 2) with 2.
  set (c63 := if m <=? 2 then 1%uint63 else 0%uint63).
  set (c := if m <=? 2 then 1 else 0).
  assert (Ec : Uint63.to_Z c63 = c /\ 0 <= c <= 1).
  { subst c63 c. destruct (m <=? 2); split; try reflexivity; lia. }
  destruct Ec as [Ec Hc]. clearbody c63 c.
  rewrite !Uint63.add_spec, !Uint63.mul_spec, Uint63.add_spec, Ey, Ec, Em, Ed.
  change (Uint63.to_Z 10000) with 10000. change (Uint63.to_Z 100) with 100.
  rewrite (to_Z_small (y + c)) by lia.
  rewrite (to_Z_small ((y + c) * 10000)) by lia.
  rewrite (to_Z_small (m * 100)) by lia.
  rewrite (to_Z_small ((y + c) * 10000 + m * 100)) by lia.
  apply to_Z_small. lia.
Qed.

Lemma all_from63_spec (p : Uint63.int -> bool) (n : nat) :
  forall i : Uint63.int,
    Era63.all_from63 n i p = true ->
    Uint63.to_Z i + Z.of_nat n < 4611686018427387904 ->
    forall k : Z, Uint63.to_Z i <= k < Uint63.to_Z i + Z.of_nat n ->
                  p (Uint63.of_Z k) = true.
Proof.
  induction n as [|n IH]; intros i H Hb k Hk.
  - lia.
  - cbn [Era63.all_from63] in H. destruct (p i) eqn:Hi; [|discriminate].
    pose proof (Uint63.to_Z_bounded i) as Hib.
    destruct (Z.eq_dec k (Uint63.to_Z i)) as [->|Hne].
    + rewrite Uint63.of_to_Z. exact Hi.
    + assert (E : Uint63.to_Z (Uint63.add i 1) = Uint63.to_Z i + 1).
      { rewrite Uint63.add_spec. change (Uint63.to_Z 1) with 1.
        apply to_Z_small. lia. }
      apply (IH _ H); rewrite E; lia.
Qed.

(** Day after day within an era the date grows: checked on each of the
    146096 pairs of consecutive days. *)
Lemma era_key_step_check :
  Era63.all_from63 (Z.to_nat 146096) 0%uint63 Era63.era_step_ok = true.
Proof. vm_compute. reflexivity. Qed.

Lemma era_key_step (doe : Z) :
  0 <= doe < 146096 -> era_key doe < era_key (doe + 1).
Proof.
  intros H.
  assert (Hc : Era63.era_step_ok (Uint63.of_Z doe) = true).
  { apply (all_from63_spec _ _ _ era_key_step_check).
    - change (Uint63.to_Z 0) with 0. rewrite Z2Nat.id; lia.
    - change (Uint63.to_Z 0) with 0. rewrite Z2Nat.id; lia. }
  unfold Era63.era_step_ok in Hc. apply Uint63.ltb_spec in Hc.
  assert (E0 : Uint63.to_Z (Uint63.of_Z doe) = doe).
  { rewrite Uint63.of_Z_spec. apply to_Z_small. lia. }
  assert (E1 : Uint63.to_Z (Uint63.add (Uint63.of_Z doe) 1) = doe + 1).
  { rewrite Uint63.add_spec, E0. change (Uint63.to_Z 1) with 1. apply to_Z_small. lia. }
  rewrite !era_key63_spec in Hc by lia.
  rewrite E1, E0 in Hc. exact Hc.
Qed.

End EraFacts.

(** ** Calendar fields *)

Section TimeFacts.

Import Time.

(** Day numbers of 1970-01-01 .. 9999-12-31 give a four-digit year and
    a valid month and day. *)
Lemma civil_from_days_range (z : Z) :
  0 <= z <= 2932896 ->
  let '(y, m, d) := civil_from_days z in
  1970 <= y <= 9999 /\ 1 <= m <= 12 /\ 1 <= d <= 31.
Proof.
  intros Hz. unfold civil_from_days.
  set (doe := (z + 719468) mod 146097).
  set (era := (z + 719468) / 146097).
  set (yoe := (doe - doe / 1460 + doe / 36524 - doe / 146096) / 365).
  set (doy := doe - (365 * yoe + yoe / 4 - yoe / 100)).
  set (mp := (5 * doy + 2) / 153).
  assert (Hdoe : 0 <= doe < 146097) by (subst doe; divlia).
  assert (Hera : z + 719468 = 146097 * era + doe) by (subst doe era; divlia).
  assert (Hyoe : 0 <= yoe <= 399 /\ 0 <= doy <= 365) by (subst doy yoe; divlia).
  assert (Hmp : 0 <= mp <= 11) by (subst mp; divlia).
  assert (Hd : 1 <= doy - (153 * mp + 2) / 5 + 1 <= 31) by (subst mp; divlia).
  assert (Hlo : era = 4 -> 369 <= yoe /\ (yoe = 369 -> 10 <= mp))
    by (intros He; subst mp doy yoe; divlia).
  assert (Hhi : era = 24 -> yoe <= 399 /\ (yoe = 399 -> mp < 10))
    by (intros He; subst mp doy yoe; divlia).
  destruct (Z.ltb_spec mp 10) as [Hm|Hm];
    match goal with
    | |- context [?a <=? 2] => destruct (Z.leb_spec a 2) as [Hc|Hc]
    end;
    (split; [lia | split; [lia | exact Hd]]).
Qed.

Lemma clock_in_range_seconds (now : Z) :
  clock_in_range now ->
  to_time_t now = now / 1000000000 /\ 0 <= now / 1000000000 < 253402300800.
Proof.
  unfold clock_in_range, to_time_t, ticks_per_sec. intros H.
  rewrite Z.quot_div_nonneg by lia. divlia.
Qed.

Lemma clock_in_range_millis (now : Z) :
  clock_in_range now ->
  millis now = (now / 1000000) mod 1000 /\ 0 <= millis now < 1000.
Proof.
  unfold clock_in_range, millis, ticks_per_sec, ticks_per_ms. intros H.
  rewrite Z.quot_div_nonneg by lia.
  rewrite Z.rem_mod_nonneg by divlia. divlia.
Qed.

(** Within the range every field is printed at its full width. *)
Lemma getCurrentTimestamp_fields (now : Z) :
  clock_in_range now ->
  let b := gmtime (to_time_t now) in
  getCurrentTimestamp now =
    render_fields (tm_year b + 1900) (tm_mon b + 1) (tm_mday b)
                  (tm_hour b) (tm_min b) (tm_sec b) (millis now)
  /\ 1970 <= tm_year b + 1900 <= 9999 /\ 1 <= tm_mon b + 1 <= 12 /\ 1 <= tm_mday b <= 31
  /\ 0 <= tm_hour b <= 23 /\ 0 <= tm_min b <= 59 /\ 0 <= tm_sec b <= 59.
Proof.
  intros H.
  destruct (clock_in_range_seconds now H) as [Ht Hs].
  destruct (clock_in_range_millis now H) as [_ Hms].
  rewrite Ht. set (t := now / 1000000000) in *.
  unfold getCurrentTimestamp, put_time, two, render_fields. rewrite Ht. fold t.
  unfold gmtime.
  pose proof (civil_from_days_range (t / 86400)) as Hc.
  destruct (civil_from_days (t / 86400)) as [[y m] d].
  specialize (Hc ltac:(divlia)). destruct Hc as (Hy & Hm & Hd).
  cbn [tm_year tm_mon tm_mday tm_hour tm_min tm_sec].
  replace (y - 1900 + 1900) with y by lia.
  replace (m - 1 + 1) with m by lia.
  assert (Hh : 0 <= t mod 86400 / 3600 <= 23) by divlia.
  assert (Hmi : 0 <= t mod 86400 mod 3600 / 60 <= 59) by divlia.
  assert (Hse : 0 <= t mod 86400 mod 60 <= 59) by divlia.
  rewrite (decimal_four_digits y) by lia.
  rewrite !setw2_decimal by lia.
  rewrite setw3_decimal by lia.
  split; [reflexivity | lia].
Qed.

Lemma date_key_era (z : Z) :
  date_key z = era_key ((z + 719468) mod 146097) + 4000000 * ((z + 719468) / 146097).
Proof.
  unfold date_key, civil_from_days, era_key.
  set (doe := (z + 719468) mod 146097).
  set (era := (z + 719468) / 146097).
  set (yoe := (doe - doe / 1460 + doe / 36524 - doe / 146096) / 365).
  set (doy := doe - (365 * yoe + yoe / 4 - yoe / 100)).
  set (mp := (5 * doy + 2) / 153).
  set (m := if mp <? 10 then mp + 3 else mp - 9).
  destruct (m <=? 2); ring.
Qed.

Lemma date_key_step (z : Z) : date_key z < date_key (z + 1).
Proof.
  rewrite !date_key_era.
  assert (Hd : 0 <= (z + 719468) mod 146097 < 146097) by divlia.
  destruct (Z.eq_dec ((z + 719468) mod 146097) 146096) as [He|Hne].
  - assert (H1 : (z + 1 + 719468) mod 146097 = 0) by divlia.
    assert (H2 : (z + 1 + 719468) / 146097 = (z + 719468) / 146097 + 1) by divlia.
    rewrite H1, H2, He.
    replace (era_key 146096) with 4000229 by (vm_compute; reflexivity).
    replace (era_key 0) with 301 by (vm_compute; reflexivity).
    lia.
  - assert (H1 : (z + 1 + 719468) mod 146097 = (z + 719468) mod 146097 + 1) by divlia.
    assert (H2 : (z + 1 + 719468) / 146097 = (z + 719468) / 146097) by divlia.
    rewrite H1, H2.
    pose proof (era_key_step ((z + 719468) mod 146097)). lia.
Qed.

Lemma date_key_lt (z1 z2 : Z) : z1 < z2 -> date_key z1 < date_key z2.
Proof.
  intros H. replace z2 with (z1 + 1 + Z.of_nat (Z.to_nat (z2 - z1 - 1))) by lia.
  generalize (Z.to_nat (z2 - z1 - 1)). intros n.
  induction n as [|n IH].
  - rewrite Z.add_0_r. apply date_key_step.
  - apply Z.lt_trans with (1 := IH).
    replace (z1 + 1 + Z.of_nat (S n)) with (z1 + 1 + Z.of_nat n + 1) by lia.
    apply date_key_step.
Qed.

Lemma date_key_le (z1 z2 : Z) : z1 <= z2 -> date_key z1 <= date_key z2.
Proof.
  intros H. destruct (Z.eq_dec z1 z2) as [->|Hne]; [lia|].
  apply Z.lt_le_incl, date_key_lt. lia.
Qed.

(** Later instants have larger keys. *)
Lemma stamp_key_mono (t1 t2 : Z) :
  clock_in_range t1 -> clock_in_range t2 -> t1 <= t2 ->
  fields_key (Time.tm_year (Time.gmtime (Time.to_time_t t1)) + 1900)
             (Time.tm_mon (Time.gmtime (Time.to_time_t t1)) + 1)
             (Time.tm_mday (Time.gmtime (Time.to_time_t t1)))
             (Time.tm_hour (Time.gmtime (Time.to_time_t t1)))
             (Time.tm_min (Time.gmtime (Time.to_time_t t1)))
             (Time.tm_sec (Time.gmtime (Time.to_time_t t1)))
             (Time.millis t1)
  <= fields_key (Time.tm_year (Time.gmtime (Time.to_time_t t2)) + 1900)
                (Time.tm_mon (Time.gmtime (Time.to_time_t t2)) + 1)
                (Time.tm_mday (Time.gmtime (Time.to_time_t t2)))
                (Time.tm_hour (Time.gmtime (Time.to_time_t t2)))
                (Time.tm_min (Time.gmtime (Time.to_time_t t2)))
                (Time.tm_sec (Time.gmtime (Time.to_time_t t2)))
                (Time.millis t2).
Proof.
  intros H1 H2 Hle. unfold fields_key.
  destruct (clock_in_range_seconds t1 H1) as [-> Hs1].
  destruct (clock_in_range_seconds t2 H2) as [-> Hs2].
  destruct (clock_in_range_millis t1 H1) as [-> _].
  destruct (clock_in_range_millis t2 H2) as [-> _].
  unfold clock_in_range, ticks_per_sec in H1, H2. unfold gmtime.
  set (D1 := t1 / 1000000000 / 86400). set (D2 := t2 / 1000000000 / 86400).
  set (x1 := (t1 / 1000000000) mod 86400). set (x2 := (t2 / 1000000000) mod 86400).
  set (ms1 := (t1 / 1000000) mod 1000). set (ms2 := (t2 / 1000000) mod 1000).
  assert (HD : D1 <= D2) by (subst D1 D2; divlia).
  assert (Hx : D1 = D2 -> x1 <= x2) by (subst D1 D2 x1 x2; divlia).
  assert (Hm : D1 = D2 -> x1 = x2 -> ms1 <= ms2) by (subst D1 D2 x1 x2 ms1 ms2; divlia).
  assert (Hx1 : 0 <= x1 < 86400) by (subst x1; divlia).
  assert (Hx2 : 0 <= x2 < 86400) by (subst x2; divlia).
  assert (Hm1 : 0 <= ms1 < 1000) by (subst ms1; divlia).
  assert (Hm2 : 0 <= ms2 < 1000) by (subst ms2; divlia).
  assert (HKeq : D1 = D2 -> date_key D1 = date_key D2) by (intros ->; reflexivity).
  assert (HKlt : D1 < D2 -> date_key D1 < date_key D2) by apply date_key_lt.
  clearbody D1 D2 x1 x2 ms1 ms2. clear H1 H2 Hs1 Hs2 Hle.
  unfold date_key in HKeq, HKlt.
  destruct (civil_from_days D1) as [[y1 m1] d1].
  destruct (civil_from_days D2) as [[y2 m2] d2].
  cbn [tm_year tm_mon tm_mday tm_hour tm_min tm_sec].
  destruct (Z.eq_dec D1 D2) as [He|Hne].
  - specialize (HKeq He). specialize (Hx He).
    destruct (Z.eq_dec x1 x2) as [Hxe|Hxne].
    + specialize (Hm He Hxe). subst x2. lia.
    + assert (Hlt : x1 < x2) by lia. clear Hm HKlt Hx Hxne. divlia.
  - specialize (HKlt ltac:(lia)). clear HKeq Hx Hm. divlia.
Qed.

(** A later millisecond has a strictly larger key. *)
Lemma stamp_key_lt (t1 t2 : Z) :
  clock_in_range t1 -> clock_in_range t2 -> t1 / 1000000 < t2 / 1000000 ->
  fields_key (Time.tm_year (Time.gmtime (Time.to_time_t t1)) + 1900)
             (Time.tm_mon (Time.gmtime (Time.to_time_t t1)) + 1)
             (Time.tm_mday (Time.gmtime (Time.to_time_t t1)))
             (Time.tm_hour (Time.gmtime (Time.to_time_t t1)))
             (Time.tm_min (Time.gmtime (Time.to_time_t t1)))
             (Time.tm_sec (Time.gmtime (Time.to_time_t t1)))
             (Time.millis t1)
  < fields_key (Time.tm_year (Time.gmtime (Time.to_time_t t2)) + 1900)
               (Time.tm_mon (Time.gmtime (Time.to_time_t t2)) + 1)
               (Time.tm_mday (Time.gmtime (Time.to_time_t t2)))
               (Time.tm_hour (Time.gmtime (Time.to_time_t t2)))
               (Time.tm_min (Time.gmtime (Time.to_time_t t2)))
               (Time.tm_sec (Time.gmtime (Time.to_time_t t2)))
               (Time.millis t2).
Proof.
  intros H1 H2 Hlt. unfold fields_key.
  destruct (clock_in_range_seconds t1 H1) as [-> Hs1].
  destruct (clock_in_range_seconds t2 H2) as [-> Hs2].
  destruct (clock_in_range_millis t1 H1) as [-> _].
  destruct (clock_in_range_millis t2 H2) as [-> _].
  unfold clock_in_range, ticks_per_sec in H1, H2. unfold gmtime.
  set (D1 := t1 / 1000000000 / 86400). set (D2 := t2 / 1000000000 / 86400).
  set (x1 := (t1 / 1000000000) mod 86400). set (x2 := (t2 / 1000000000) mod 86400).
  set (ms1 := (t1 / 1000000) mod 1000). set (ms2 := (t2 / 1000000) mod 1000).
  assert (HD : D1 <= D2) by (subst D1 D2; divlia).
  assert (Hx : D1 = D2 -> x1 <= x2) by (subst D1 D2 x1 x2; divlia).
  assert (Hm : D1 = D2 -> x1 = x2 -> ms1 < ms2) by (subst D1 D2 x1 x2 ms1 ms2; divlia).
  assert (Hx1 : 0 <= x1 < 86400) by (subst x1; divlia).
  assert (Hx2 : 0 <= x2 < 86400) by (subst x2; divlia).
  assert (Hm1 : 0 <= ms1 < 1000) by (subst ms1; divlia).
  assert (Hm2 : 0 <= ms2 < 1000) by (subst ms2; divlia).
  assert (HKeq : D1 = D2 -> date_key D1 = date_key D2) by (intros ->; reflexivity).
  assert (HKlt : D1 < D2 -> date_key D1 < date_key D2) by apply date_key_lt.
  clearbody D1 D2 x1 x2 ms1 ms2. clear H1 H2 Hs1 Hs2 Hlt.
  unfold date_key in HKeq, HKlt.
  destruct (civil_from_days D1) as [[y1 m1] d1].
  destruct (civil_from_days D2) as [[y2 m2] d2].
  cbn [tm_year tm_mon tm_mday tm_hour tm_min tm_sec].
  destruct (Z.eq_dec D1 D2) as [He|Hne].
  - specialize (HKeq He). specialize (Hx He).
    destruct (Z.eq_dec x1 x2) as [Hxe|Hxne].
    + specialize (Hm He Hxe). subst x2. lia.
    + assert (Hlt : x1 < x2) by lia. clear Hm HKlt Hx Hxne. divlia.
  - specialize (HKlt ltac:(lia)). clear HKeq Hx Hm. divlia.
Qed.

(** The timestamp depends on the instant through its millisecond only. *)
Lemma timestamp_same_millisecond (t1 t2 : Z) :
  clock_in_range t1 -> clock_in_range t2 -> t1 / 1000000 = t2 / 1000000 ->
  getCurrentTimestamp t1 = getCurrentTimestamp t2.
Proof.
  intros H1 H2 He. unfold getCurrentTimestamp.
  destruct (clock_in_range_seconds t1 H1) as [-> _].
  destruct (clock_in_range_seconds t2 H2) as [-> _].
  destruct (clock_in_range_millis t1 H1) as [-> _].
  destruct (clock_in_range_millis t2 H2) as [-> _].
  unfold clock_in_range, ticks_per_sec in H1, H2.
  assert (E : t1 / 1000000000 = t2 / 1000000000) by divlia.
  rewrite E, He. reflexivity.
Qed.

End TimeFacts.

(** ** The calendar of [gmtime] *)

Section CalendarFacts.

Lemma is_leap_spec (y : Z) :
  Utc.is_leap y = true <-> (y mod 4 = 0 /\ (y mod 100 <> 0 \/ y mod 400 = 0)).
Proof.
  unfold Utc.is_leap.
  rewrite andb_true_iff, orb_true_iff, negb_true_iff, Z.eqb_neq, !Z.eqb_eq. tauto.
Qed.

(** A year's length is what the count of leap years grows by. *)
Lemma days_in_year_diff (y : Z) :
  Utc.days_in_year y
  = 365 + (y / 4 - (y - 1) / 4) - (y / 100 - (y - 1) / 100) + (y / 400 - (y - 1) / 400).
Proof.
  unfold Utc.days_in_year.
  destruct (Utc.is_leap y) eqn:E.
  - apply is_leap_spec in E. divlia.
  - assert (N : ~ (y mod 4 = 0 /\ (y mod 100 <> 0 \/ y mod 400 = 0))).
    { intros H. apply is_leap_spec in H. congruence. }
    divlia.
Qed.

Lemma sum_years (n : nat) :
  forall a : Z,
    Utc.sum_from Utc.days_in_year a n
    = 365 * Z.of_nat n
      + ((a + Z.of_nat n - 1) / 4 - (a - 1) / 4)
      - ((a + Z.of_nat n - 1) / 100 - (a - 1) / 100)
      + ((a + Z.of_nat n - 1) / 400 - (a - 1) / 400).
Proof.
  induction n as [|n IH]; intros a.
  - cbn [Utc.sum_from]. replace (a + Z.of_nat 0 - 1) with (a - 1) by lia. lia.
  - cbn [Utc.sum_from]. rewrite IH, days_in_year_diff.
    replace (a + 1 + Z.of_nat n - 1) with (a + Z.of_nat (S n) - 1) by lia.
    replace (a + 1 - 1) with a by lia. lia.
Qed.

Lemma days_before_year_closed (y : Z) :
  1970 <= y ->
  Utc.days_before_year y
  = 365 * (y - 1970) + (y - 1) / 4 - (y - 1) / 100 + (y - 1) / 400 - 477.
Proof.
  intros H. unfold Utc.days_before_year. rewrite sum_years.
  rewrite Z2Nat.id by lia.
  replace (1970 + (y - 1970) - 1) with (y - 1) by lia.
  change ((1970 - 1) / 4) with 492. change ((1970 - 1) / 100) with 19.
  change ((1970 - 1) / 400) with 4. lia.
Qed.

Lemma month_cases (m : Z) :
  1 <= m <= 12 ->
  m = 1 \/ m = 2 \/ m = 3 \/ m = 4 \/ m = 5 \/ m = 6 \/ m = 7 \/ m = 8 \/ m = 9
  \/ m = 10 \/ m = 11 \/ m = 12.
Proof. lia. Qed.

Lemma days_in_month_arith (y m : Z) :
  1 <= m <= 12 ->
  Utc.days_in_month y m
  = if m =? 2 then 28 + (if Utc.is_leap y then 1 else 0) else 30 + (m + m / 8) mod 2.
Proof.
  intros H. apply month_cases in H. unfold Utc.days_in_month.
  repeat match goal with H : _ \/ _ |- _ => destruct H as [->|H] end; try subst m;
    destruct (Utc.is_leap y); reflexivity.
Qed.

Lemma days_before_month_arith (y m : Z) :
  1 <= m <= 12 ->
  Utc.days_before_month y m
  = if m <=? 2 then 31 * (m - 1)
    else (153 * (m - 3) + 2) / 5 + 59 + (if Utc.is_leap y then 1 else 0).
Proof.
  intros H. apply month_cases in H. unfold Utc.days_before_month, Utc.days_in_month.
  repeat match goal with H : _ \/ _ |- _ => destruct H as [->|H] end; try subst m;
    destruct (Utc.is_leap y); reflexivity.
Qed.

Lemma days_in_month_le_31 (y m : Z) : Utc.days_in_month y m <= 31.
Proof.
  unfold Utc.days_in_month.
  destruct (m =? 2); [destruct (Utc.is_leap y); lia|].
  destruct ((m =? 4) || (m =? 6) || (m =? 9) || (m =? 11)); lia.
Qed.

(** Month and day from the day of a year that starts on 1 March. *)
Lemma month_part (doy : Z) :
  0 <= doy <= 365 ->
  let mp := (5 * doy + 2) / 153 in
  let d := doy - (153 * mp + 2) / 5 + 1 in
  let m := if mp <? 10 then mp + 3 else mp - 9 in
  1 <= m <= 12 /\ (3 <= m <-> doy < 306) /\ 1 <= d
  /\ (m <> 2 -> d <= 30 + (m + m / 8) mod 2)
  /\ (m = 2 -> d <= 29 /\ (doy <= 364 -> d <= 28))
  /\ (3 <= m -> (153 * (m - 3) + 2) / 5 + d - 1 = doy)
  /\ (m <= 2 -> 31 * (m - 1) + d - 1 = doy - 306).
Proof.
  intros H mp d m.
  assert (Hmp : 153 * mp <= 5 * doy + 2 < 153 * mp + 153) by (subst mp; divlia).
  assert (Hc : mp = 0 \/ mp = 1 \/ mp = 2 \/ mp = 3 \/ mp = 4 \/ mp = 5 \/ mp = 6 \/ mp = 7
               \/ mp = 8 \/ mp = 9 \/ mp = 10 \/ mp = 11) by lia.
  subst m d. clearbody mp.
  repeat match goal with H : _ \/ _ |- _ => destruct H as [H|H] end; subst mp;
    match goal with
    | |- context [?a <? ?b] =>
        let v := eval vm_compute in (a <? b) in change (a <? b) with v
    end; cbv iota; repeat split; intros; divlia.
Qed.

(** The date [civil_from_days] gives for a day of 1970..9999 is a date of
    the calendar, and it is that day's date. *)
Lemma civil_from_days_correct (z : Z) :
  0 <= z <= 2932896 ->
  let '(y, m, d) := Time.civil_from_days z in
  1970 <= y <= 9999 /\ 1 <= m <= 12 /\ 1 <= d <= Utc.days_in_month y m
  /\ Utc.epoch_days y m d = z.
Proof.
  intros Hz. unfold Time.civil_from_days.
  set (doe := (z + 719468) mod 146097).
  set (era := (z + 719468) / 146097).
  set (yoe := (doe - doe / 1460 + doe / 36524 - doe / 146096) / 365).
  set (doy := doe - (365 * yoe + yoe / 4 - yoe / 100)).
  assert (Hdoe : 0 <= doe < 146097) by (subst doe; divlia).
  assert (Hera : z + 719468 = 146097 * era + doe) by (subst doe era; divlia).
  assert (Hyoe : 0 <= yoe <= 399 /\ 0 <= doy <= 365) by (subst doy yoe; divlia).
  assert (Hleap : doy <= 364 \/ (yoe mod 4 = 3 /\ (yoe mod 100 <> 99 \/ yoe = 399)))
    by (subst doy yoe; divlia).
  assert (Hlo : era = 4 -> 369 <= yoe /\ (yoe = 369 -> 306 <= doy))
    by (intros He; subst doy yoe; divlia).
  assert (Hhi : era = 24 -> yoe <= 399 /\ (yoe = 399 -> doy < 306))
    by (intros He; subst doy yoe; divlia).
  assert (Hera' : 4 <= era <= 24) by lia.
  assert (Hdoy : doe = 365 * yoe + yoe / 4 - yoe / 100 + doy) by (subst doy; lia).
  pose proof (month_part doy (proj2 Hyoe)) as HB. cbv zeta in HB.
  clearbody doy yoe doe era.
  set (mp := (5 * doy + 2) / 153) in *.
  set (d := doy - (153 * mp + 2) / 5 + 1) in *.
  set (m := if mp <? 10 then mp + 3 else mp - 9) in *.
  destruct HB as (Hm & Hmp & Hd1 & Hd30 & Hd2 & Hs3 & Hs2).
  clearbody m d. clear mp.
  set (c := if m <=? 2 then 1 else 0).
  assert (Hcm : (m <= 2 /\ c = 1) \/ (3 <= m /\ c = 0)).
  { subst c. destruct (Z.leb_spec m 2); [left|right]; lia. }
  clearbody c.
  set (y := yoe + era * 400 + c).
  assert (Hy : y = yoe + era * 400 + c) by reflexivity. clearbody y.
  assert (Hyr : 1970 <= y <= 9999) by (clear - Hy Hcm Hlo Hhi Hera' Hyoe Hmp; lia).
  split; [exact Hyr|]. split; [exact Hm|].
  unfold Utc.epoch_days.
  rewrite days_before_year_closed by lia.
  rewrite days_before_month_arith by lia.
  rewrite days_in_month_arith by lia.
  pose proof (is_leap_spec y) as HL.
  assert (HLy : (y mod 4 = 0 /\ (y mod 100 <> 0 \/ y mod 400 = 0)) ->
                (y - 1) / 4 - (y - 1) / 100 + (y - 1) / 400 + 1 = y / 4 - y / 100 + y / 400)
    by (clear; intros; divlia).
  assert (HLn : ~ (y mod 4 = 0 /\ (y mod 100 <> 0 \/ y mod 400 = 0)) ->
                (y - 1) / 4 - (y - 1) / 100 + (y - 1) / 400 = y / 4 - y / 100 + y / 400)
    by (clear; intros; divlia).
  assert (Hq0 : c = 0 -> y / 4 - y / 100 + y / 400 = 97 * era + yoe / 4 - yoe / 100)
    by (clear - Hy Hyoe; intros; divlia).
  assert (Hq1 : c = 1 -> (y - 1) / 4 - (y - 1) / 100 + (y - 1) / 400
                         = 97 * era + yoe / 4 - yoe / 100)
    by (clear - Hy Hyoe; intros; divlia).
  assert (Hfeb : m = 2 -> doy <= 364 \/ (y mod 4 = 0 /\ (y mod 100 <> 0 \/ y mod 400 = 0))).
  { intros Hm2. destruct Hleap as [Hl|Hl]; [left; exact Hl|right].
    assert (c = 1) by (clear - Hcm Hm2; lia). clear - Hl Hy H Hyoe. divlia. }
  destruct (Z.leb_spec m 2) as [Hle|Hgt].
  - assert (Hc1 : c = 1) by (clear - Hcm Hle; lia).
    specialize (Hq1 Hc1). specialize (Hs2 Hle).
    split.
    + destruct (Z.eqb_spec m 2) as [E2|E2].
      * destruct (Hd2 E2) as [Hd29 Hd28].
        destruct (Utc.is_leap y) eqn:El; [clear - Hd1 Hd29; lia|].
        destruct (Hfeb E2) as [Hl|Hl]; [specialize (Hd28 Hl); clear - Hd1 Hd28; lia|].
        apply HL in Hl. discriminate.
      * specialize (Hd30 E2). clear - Hd1 Hd30. lia.
    + clear - Hq1 Hs2 Hy Hc1 Hera Hdoy. lia.
  - assert (Hc0 : c = 0) by (clear - Hcm Hgt; lia). specialize (Hq0 Hc0).
    specialize (Hs3 ltac:(clear - Hgt; lia)).
    split.
    + destruct (Z.eqb_spec m 2) as [E2|E2]; [clear - E2 Hgt; lia|].
      specialize (Hd30 E2). clear - Hd1 Hd30. lia.
    + destruct (Utc.is_leap y) eqn:El.
      * specialize (HLy (proj1 HL eq_refl)). clear - Hq0 Hs3 Hy Hc0 Hera Hdoy HLy. lia.
      * assert (HN : ~ (y mod 4 = 0 /\ (y mod 100 <> 0 \/ y mod 400 = 0))).
        { intros Hx. apply HL in Hx. discriminate. }
        specialize (HLn HN). clear - Hq0 Hs3 Hy Hc0 Hera Hdoy HLn. lia.
Qed.

(** The fields [gmtime] fills in for a second of 1970..9999 are a date
    and a time of day of the calendar, and they denote that second. *)
Lemma gmtime_denotes (t : Z) :
  0 <= t < 253402300800 ->
  let b := Time.gmtime t in
  1970 <= Time.tm_year b + 1900 <= 9999
  /\ 1 <= Time.tm_mon b + 1 <= 12
  /\ 1 <= Time.tm_mday b <= Utc.days_in_month (Time.tm_year b + 1900) (Time.tm_mon b + 1)
  /\ 0 <= Time.tm_hour b <= 23 /\ 0 <= Time.tm_min b <= 59 /\ 0 <= Time.tm_sec b <= 59
  /\ ((Utc.epoch_days (Time.tm_year b + 1900) (Time.tm_mon b + 1) (Time.tm_mday b) * 24
       + Time.tm_hour b) * 60 + Time.tm_min b) * 60 + Time.tm_sec b = t.
Proof.
  intros Ht. unfold Time.gmtime.
  pose proof (civil_from_days_correct (t / 86400)) as Hc.
  destruct (Time.civil_from_days (t / 86400)) as [[y m] d].
  specialize (Hc ltac:(divlia)). destruct Hc as (Hy & Hm & Hd & He).
  cbn [Time.tm_year Time.tm_mon Time.tm_mday Time.tm_hour Time.tm_min Time.tm_sec].
  replace (y - 1900 + 1900) with y by lia.
  replace (m - 1 + 1) with m by lia.
  rewrite He.
  split; [exact Hy|]. split; [exact Hm|]. split; [exact Hd|].
  clear He Hd Hy Hm. divlia.
Qed.

End CalendarFacts.

(** ** Order of doubles *)

Section FloatFacts.

Lemma SFcompare_antisym (x y : spec_float) :
  SFcompare y x = option_map CompOpp (SFcompare x y).
Proof.
  destruct x as [sx|sx| |sx mx ex], y as [sy|sy| |sy my ey]; cbn;
    try reflexivity;
    try (destruct sx; reflexivity); try (destruct sy; reflexivity);
    try (destruct sx, sy; reflexivity).
  destruct sx, sy; cbn; try reflexivity;
    rewrite (Z.compare_antisym ex ey);
    destruct (ex ?= ey) eqn:He; cbn; try reflexivity;
    change (Pos.compare_cont Eq my mx) with (my ?= mx)%positive;
    change (Pos.compare_cont Eq mx my) with (mx ?= my)%positive;
    rewrite (Pos.compare_antisym mx my); destruct (mx ?= my)%positive; reflexivity.
Qed.

Lemma SFcompare_refl (x : spec_float) :
  x <> S754_nan -> SFcompare x x = Some Eq.
Proof.
  destruct x as [sx|sx| |sx mx ex]; cbn; intros Hx;
    try congruence; try (destruct sx; reflexivity).
  rewrite Z.compare_refl.
  change (Pos.compare_cont Eq mx mx) with (mx ?= mx)%positive.
  rewrite Pos.compare_refl. destruct sx; reflexivity.
Qed.

(** [50.0 <= v] excludes [v < 50.0]. *)
Lemma leb_not_ltb (x y : float) :
  (x <=? y)%float = true -> (y <? x)%float = false.
Proof.
  rewrite leb_spec, ltb_spec. unfold SFleb, SFltb.
  rewrite (SFcompare_antisym (Prim2SF x) (Prim2SF y)).
  destruct (SFcompare (Prim2SF x) (Prim2SF y)) as [[| |]|]; cbn; congruence.
Qed.

Lemma leb_left_refl (x y : float) :
  (x <=? y)%float = true -> (x <=? x)%float = true.
Proof.
  rewrite !leb_spec. unfold SFleb. intros H.
  rewrite SFcompare_refl; [reflexivity|].
  intros Hn. rewrite Hn in H. cbn in H. discriminate.
Qed.

(** A double between two finite doubles is zero or finite. *)
Lemma between_finite (a b x : float) :
  finite_or_zero a -> finite_or_zero b ->
  (a <=? x)%float = true -> (x <=? b)%float = true -> finite_or_zero x.
Proof.
  unfold finite_or_zero. rewrite !leb_spec. unfold SFleb.
  destruct (Prim2SF x) as [sx|sx| |sx mx ex]; auto.
  - destruct (Prim2SF a) as [sa|sa| |sa ma ea], (Prim2SF b) as [sb|sb| |sb mb eb];
      try tauto; destruct sx; cbn; congruence.
  - destruct (Prim2SF a) as [sa|sa| |sa ma ea]; cbn; try tauto; congruence.
Qed.

End FloatFacts.

(** The scripted generator keeps the library's promise. *)
Lemma scripted_contract : uniform_real_contract Scripted.uniform_real.
Proof.
  intros a b g Hab. unfold Scripted.uniform_real.
  destruct g as [|x g']; cbn [fst].
  - split; [exact (leb_left_refl a b Hab) | exact Hab].
  - destruct ((a <=? x)%float && (x <=? b)%float) eqn:Hx.
    + apply andb_true_iff in Hx. exact Hx.
    + split; [exact (leb_left_refl a b Hab) | exact Hab].
Qed.

(** ** The loop *)

Section LoopFacts.

Context {Gen : Type}.
Variable uniform_real : float -> float -> Gen -> float * Gen.
Variable clock : nat -> Z.

Lemma stdout_of_app (t1 t2 : list event) :
  stdout_of (t1 ++ t2) = (stdout_of t1 ++ stdout_of t2)%list.
Proof. apply flat_map_app. Qed.

Lemma stderr_of_app (t1 t2 : list event) :
  stderr_of (t1 ++ t2) = (stderr_of t1 ++ stderr_of t2)%list.
Proof. apply flat_map_app. Qed.

Lemma sleeps_of_app (t1 t2 : list event) :
  sleeps_of (t1 ++ t2) = (sleeps_of t1 ++ sleeps_of t2)%list.
Proof. apply flat_map_app. Qed.

Lemma emit_trace (sector : string) (w : world Gen) :
  trace (emitPowerEvent uniform_real clock sector w) =
    (trace w ++ [Out (serialize (fst (drawReading uniform_real clock sector w)))])%list.
Proof.
  unfold emitPowerEvent.
  destruct (drawReading uniform_real clock sector w) as [r g]. reflexivity.
Qed.

Lemma emit_reads (sector : string) (w : world Gen) :
  reads (emitPowerEvent uniform_real clock sector w) = S (reads w).
Proof.
  unfold emitPowerEvent.
  destruct (drawReading uniform_real clock sector w) as [r g]. reflexivity.
Qed.

Lemma emit_cycle (sector : string) (w : world Gen) :
  cycle (emitPowerEvent uniform_real clock sector w) = cycle w.
Proof.
  unfold emitPowerEvent.
  destruct (drawReading uniform_real clock sector w) as [r g]. reflexivity.
Qed.

(** What a reading is made of. *)
Lemma draw_fields (sector : string) (w : world Gen) :
  let r := fst (drawReading uniform_real clock sector w) in
  let v := uniform_real 0.0%float 130.0%float (gen w) in
  sector_id r = sector
  /\ voltage r = fst v
  /\ load r = fst (uniform_real LOAD_MIN LOAD_MAX (snd v))
  /\ timestamp r = getCurrentTimestamp (clock (reads w))
  /\ is_failure r = (fst v <? 50.0)%float.
Proof.
  unfold drawReading.
  destruct (uniform_real 0.0%float 130.0%float (gen w)) as [v g1].
  cbn [fst snd].
  destruct (uniform_real LOAD_MIN LOAD_MAX g1) as [l g2].
  cbn. auto.
Qed.

Lemma for_sectors_unfold (w : world Gen) :
  for_sectors Gen uniform_real clock (Z.to_nat NUM_SECTORS) 0 w =
    emitPowerEvent uniform_real clock "sector-3"
      (emitPowerEvent uniform_real clock "sector-2"
         (emitPowerEvent uniform_real clock "sector-1" w)).
Proof. reflexivity. Qed.

(** One cycle, event by event. *)
Lemma body_trace (w : world Gen) :
  let w1 := logged w in
  let w2 := emitPowerEvent uniform_real clock "sector-1" w1 in
  let w3 := emitPowerEvent uniform_real clock "sector-2" w2 in
  trace (cycle_body uniform_real clock w) =
    (trace w
     ++ [ Err (cycle_line (wrap_int (cycle w + 1)));
          Out (serialize (fst (drawReading uniform_real clock "sector-1" w1)));
          Out (serialize (fst (drawReading uniform_real clock "sector-2" w2)));
          Out (serialize (fst (drawReading uniform_real clock "sector-3" w3)));
          Sleep EVENT_INTERVAL_SEC ])%list.
Proof.
  cbv zeta. unfold cycle_body, write. rewrite for_sectors_unfold.
  cbn [trace]. rewrite !emit_trace. unfold logged at 1. cbn [trace].
  repeat rewrite <- app_assoc. reflexivity.
Qed.

Lemma body_cycle (w : world Gen) :
  cycle (cycle_body uniform_real clock w) = wrap_int (cycle w + 1).
Proof.
  unfold cycle_body, write. rewrite for_sectors_unfold.
  cbn [cycle]. rewrite !emit_cycle. reflexivity.
Qed.

Lemma body_reads (w : world Gen) :
  reads (cycle_body uniform_real clock w) = (3 + reads w)%nat.
Proof.
  unfold cycle_body, write. rewrite for_sectors_unfold.
  cbn [reads]. rewrite !emit_reads. reflexivity.
Qed.

(** The lines of a cycle are its readings, serialized. *)
Lemma body_trace_readings (w : world Gen) :
  trace (cycle_body uniform_real clock w) =
    (trace w
     ++ Err (cycle_line (wrap_int (cycle w + 1)))
        :: map (fun r => Out (serialize r)) (cycle_readings uniform_real clock w)
     ++ [Sleep EVENT_INTERVAL_SEC])%list.
Proof.
  rewrite body_trace. reflexivity.
Qed.

Lemma iterate_trace_step (n : nat) (w : world Gen) :
  trace (iterate uniform_real clock (S n) w) =
    (trace (iterate uniform_real clock n w)
     ++ Err (cycle_line (wrap_int (cycle (iterate uniform_real clock n w) + 1)))
        :: map (fun r => Out (serialize r))
             (cycle_readings uniform_real clock (iterate uniform_real clock n w))
     ++ [Sleep EVENT_INTERVAL_SEC])%list.
Proof. cbn [iterate]. apply body_trace_readings. Qed.

Lemma stdout_of_outs (rs : list Reading) :
  stdout_of (map (fun r => Out (serialize r)) rs) = map serialize rs.
Proof.
  induction rs as [|r rs IH]; [reflexivity|].
  cbn. f_equal. exact IH.
Qed.

Lemma stderr_of_outs (rs : list Reading) :
  stderr_of (map (fun r => Out (serialize r)) rs) = [].
Proof. induction rs as [|r rs IH]; [reflexivity | exact IH]. Qed.

Lemma sleeps_of_outs (rs : list Reading) :
  sleeps_of (map (fun r => Out (serialize r)) rs) = [].
Proof. induction rs as [|r rs IH]; [reflexivity | exact IH]. Qed.

(** The primary stream is the serialized readings, in order. *)
Lemma run_stdout (n : nat) (w : world Gen) :
  stdout_of (trace (iterate uniform_real clock n w)) =
    (stdout_of (trace w) ++ map serialize (run_readings uniform_real clock n w))%list.
Proof.
  induction n as [|n IH].
  - cbn. rewrite app_nil_r. reflexivity.
  - rewrite iterate_trace_step. rewrite stdout_of_app, IH.
    change (Err ?l :: ?t) with ([Err l] ++ t)%list.
    rewrite !stdout_of_app, stdout_of_outs. cbn [run_readings].
    change (stdout_of [Err ?l]) with (@nil string).
    change (stdout_of [Sleep ?k]) with (@nil string).
    rewrite map_app, <- app_assoc, app_nil_r. reflexivity.
Qed.

(** Every reading of a run was built by [emitPowerEvent] for one of the
    configured sectors. *)
Lemma readings_from_origin (sectors : list string) :
  forall (w : world Gen) (r : Reading),
    In r (readings_from Gen uniform_real clock sectors w) ->
    exists (sector : string) (w' : world Gen),
      In sector sectors /\ r = fst (drawReading uniform_real clock sector w').
Proof.
  induction sectors as [|s rest IH]; intros w r Hin; cbn in Hin.
  - contradiction.
  - destruct Hin as [<-|Hin].
    + exists s, w. split; [left; reflexivity | reflexivity].
    + destruct (IH _ _ Hin) as (s' & w' & Hs & Hr).
      exists s', w'. split; [right; exact Hs | exact Hr].
Qed.

Lemma run_readings_origin (n : nat) (w : world Gen) (r : Reading) :
  In r (run_readings uniform_real clock n w) ->
  exists (sector : string) (w' : world Gen),
    In sector SECTORS /\ r = fst (drawReading uniform_real clock sector w').
Proof.
  induction n as [|n IH]; cbn [run_readings]; intros Hin.
  - contradiction.
  - apply in_app_or in Hin. destruct Hin as [Hin|Hin]; [exact (IH Hin)|].
    exact (readings_from_origin SECTORS _ _ Hin).
Qed.

Lemma iterate_reads (n : nat) (w : world Gen) :
  reads (iterate uniform_real clock n w) = (3 * n + reads w)%nat.
Proof.
  induction n as [|n IH]; [reflexivity|].
  cbn [iterate]. rewrite body_reads, IH. lia.
Qed.

Lemma iterate_cycle (n : nat) (w : world Gen) :
  0 <= cycle w -> cycle w + Z.of_nat n <= INT_MAX ->
  cycle (iterate uniform_real clock n w) = cycle w + Z.of_nat n.
Proof.
  induction n as [|n IH]; intros H0 Hmax.
  - cbn. lia.
  - cbn [iterate]. rewrite body_cycle, IH by lia.
    unfold wrap_int, INT_MAX in *.
    change (2 ^ 31) with 2147483648. change (2 ^ 32) with 4294967296.
    rewrite Z.mod_small by lia. lia.
Qed.

End LoopFacts.

(** ** Dependence on the clock *)

Section ClockFacts.

Context {Gen : Type}.
Variable uniform_real : float -> float -> Gen -> float * Gen.
Variables clock1 clock2 : nat -> Z.




End ClockFacts.

(** ** Lexicographic order of fixed-width texts *)

Section OrderFacts.

Lemma digit_compare (a b : Z) :
  0 <= a < 10 -> 0 <= b < 10 ->
  Ascii.compare (Fmt.digit a) (Fmt.digit b) = (a ?= b).
Proof.
  intros Ha Hb.
  assert (Ca : a = 0 \/ a = 1 \/ a = 2 \/ a = 3 \/ a = 4 \/ a = 5 \/ a = 6
               \/ a = 7 \/ a = 8 \/ a = 9) by lia.
  assert (Cb : b = 0 \/ b = 1 \/ b = 2 \/ b = 3 \/ b = 4 \/ b = 5 \/ b = 6
               \/ b = 7 \/ b = 8 \/ b = 9) by lia.
  clear Ha Hb.
  repeat (destruct Ca as [->|Ca]); try subst a;
    repeat (destruct Cb as [->|Cb]); try subst b; reflexivity.
Qed.

Lemma compare_same_head (c : ascii) (s1 s2 : string) :
  String.compare (String c s1) (String c s2) = String.compare s1 s2.
Proof.
  cbn [String.compare]. unfold Ascii.compare. rewrite N.compare_refl. reflexivity.
Qed.

Lemma compare_split_digits (a b : Z) :
  0 <= a -> 0 <= b -> lex (a / 10 ?= b / 10) (a mod 10 ?= b mod 10) = (a ?= b).
Proof.
  intros Ha Hb.
  destruct (Z.compare_spec (a / 10) (b / 10)) as [E|E|E]; cbn [lex].
  - destruct (Z.compare_spec (a mod 10) (b mod 10)) as [F|F|F];
      symmetry; [apply Z.compare_eq_iff | apply Z.compare_lt_iff | apply Z.compare_gt_iff];
      divlia.
  - symmetry. apply Z.compare_lt_iff. divlia.
  - symmetry. apply Z.compare_gt_iff. divlia.
Qed.

Lemma lex_assoc (c1 c2 c3 : comparison) : lex (lex c1 c2) c3 = lex c1 (lex c2 c3).
Proof. destruct c1; reflexivity. Qed.

(** Texts that start with numbers of the same width compare as the
    numbers do, then as what follows them. *)
Lemma compare_fixed_width (k : nat) :
  forall (a b : Z) (s1 s2 : string),
    0 <= a < 10 ^ Z.of_nat k -> 0 <= b < 10 ^ Z.of_nat k ->
    String.compare (fixed_width k a s1) (fixed_width k b s2)
    = lex (a ?= b) (String.compare s1 s2).
Proof.
  induction k as [|k IH]; intros a b s1 s2 Ha Hb.
  - change (10 ^ Z.of_nat 0) with 1 in Ha, Hb.
    assert (a = 0) by lia. assert (b = 0) by lia. subst. reflexivity.
  - rewrite Nat2Z.inj_succ, Z.pow_succ_r in Ha, Hb by lia.
    cbn [fixed_width]. rewrite IH by (split; [divlia | apply Z.div_lt_upper_bound; lia]).
    cbn [String.compare]. rewrite digit_compare by divlia.
    rewrite <- (compare_split_digits a b) by lia.
    rewrite lex_assoc.
    destruct (a / 10 ?= b / 10); cbn [lex]; try reflexivity.
    destruct (a mod 10 ?= b mod 10); reflexivity.
Qed.

Lemma fixed_width_append (k : nat) :
  forall (a : Z) (acc s : string),
    fixed_width k a acc ++ s = fixed_width k a (acc ++ s).
Proof.
  induction k as [|k IH]; intros a acc s; cbn [fixed_width]; [reflexivity|].
  rewrite IH. reflexivity.
Qed.

Lemma compare_render_fields (y1 mo1 d1 h1 mi1 s1 ms1 y2 mo2 d2 h2 mi2 s2 ms2 : Z) :
  0 <= y1 < 10000 -> 0 <= mo1 < 100 -> 0 <= d1 < 100 -> 0 <= h1 < 100 ->
  0 <= mi1 < 100 -> 0 <= s1 < 100 -> 0 <= ms1 < 1000 ->
  0 <= y2 < 10000 -> 0 <= mo2 < 100 -> 0 <= d2 < 100 -> 0 <= h2 < 100 ->
  0 <= mi2 < 100 -> 0 <= s2 < 100 -> 0 <= ms2 < 1000 ->
  String.compare (render_fields y1 mo1 d1 h1 mi1 s1 ms1)
                 (render_fields y2 mo2 d2 h2 mi2 s2 ms2)
  = lex (y1 ?= y2) (lex (mo1 ?= mo2) (lex (d1 ?= d2) (lex (h1 ?= h2)
      (lex (mi1 ?= mi2) (lex (s1 ?= s2) (ms1 ?= ms2)))))).
Proof.
  intros. unfold render_fields.
  rewrite !fixed_width_append. cbn [append].
  rewrite (compare_fixed_width 4) by (change (10 ^ Z.of_nat 4) with 10000; lia).
  rewrite compare_same_head.
  rewrite (compare_fixed_width 2) by (change (10 ^ Z.of_nat 2) with 100; lia).
  rewrite compare_same_head.
  rewrite (compare_fixed_width 2) by (change (10 ^ Z.of_nat 2) with 100; lia).
  rewrite compare_same_head.
  rewrite (compare_fixed_width 2) by (change (10 ^ Z.of_nat 2) with 100; lia).
  rewrite compare_same_head.
  rewrite (compare_fixed_width 2) by (change (10 ^ Z.of_nat 2) with 100; lia).
  rewrite compare_same_head.
  rewrite (compare_fixed_width 2) by (change (10 ^ Z.of_nat 2) with 100; lia).
  rewrite compare_same_head.
  rewrite (compare_fixed_width 3) by (change (10 ^ Z.of_nat 3) with 1000; lia).
  destruct (ms1 ?= ms2); reflexivity.
Qed.

(** Fields in order give texts in order. *)
Lemma leb_render_fields (y1 mo1 d1 h1 mi1 s1 ms1 y2 mo2 d2 h2 mi2 s2 ms2 : Z) :
  0 <= y1 < 10000 -> 0 <= mo1 < 100 -> 0 <= d1 < 100 -> 0 <= h1 < 100 ->
  0 <= mi1 < 100 -> 0 <= s1 < 100 -> 0 <= ms1 < 1000 ->
  0 <= y2 < 10000 -> 0 <= mo2 < 100 -> 0 <= d2 < 100 -> 0 <= h2 < 100 ->
  0 <= mi2 < 100 -> 0 <= s2 < 100 -> 0 <= ms2 < 1000 ->
  fields_key y1 mo1 d1 h1 mi1 s1 ms1 <= fields_key y2 mo2 d2 h2 mi2 s2 ms2 ->
  String.leb (render_fields y1 mo1 d1 h1 mi1 s1 ms1)
             (render_fields y2 mo2 d2 h2 mi2 s2 ms2) = true.
Proof.
  intros Hy1 Hmo1 Hd1 Hh1 Hmi1 Hs1 Hms1 Hy2 Hmo2 Hd2 Hh2 Hmi2 Hs2 Hms2 Hk.
  unfold fields_key in Hk.
  unfold String.leb. rewrite compare_render_fields by assumption.
  destruct (Z.compare_spec y1 y2); cbn [lex]; try reflexivity; [|exfalso; lia].
  destruct (Z.compare_spec mo1 mo2); cbn [lex]; try reflexivity; [|exfalso; lia].
  destruct (Z.compare_spec d1 d2); cbn [lex]; try reflexivity; [|exfalso; lia].
  destruct (Z.compare_spec h1 h2); cbn [lex]; try reflexivity; [|exfalso; lia].
  destruct (Z.compare_spec mi1 mi2); cbn [lex]; try reflexivity; [|exfalso; lia].
  destruct (Z.compare_spec s1 s2); cbn [lex]; try reflexivity; [|exfalso; lia].
  destruct (Z.compare_spec ms1 ms2); try reflexivity. exfalso; lia.
Qed.

(** Later instants have timestamps that are no smaller as texts. *)
Lemma timestamp_leb (t1 t2 : Z) :
  clock_in_range t1 -> clock_in_range t2 -> t1 <= t2 ->
  String.leb (getCurrentTimestamp t1) (getCurrentTimestamp t2) = true.
Proof.
  intros H1 H2 Hle.
  pose proof (stamp_key_mono t1 t2 H1 H2 Hle) as Hk.
  destruct (getCurrentTimestamp_fields t1 H1) as (E1 & Hy1 & Hmo1 & Hd1 & Hh1 & Hmi1 & Hs1).
  destruct (getCurrentTimestamp_fields t2 H2) as (E2 & Hy2 & Hmo2 & Hd2 & Hh2 & Hmi2 & Hs2).
  destruct (clock_in_range_millis t1 H1) as [_ Hms1].
  destruct (clock_in_range_millis t2 H2) as [_ Hms2].
  cbv zeta in E1, E2. rewrite E1, E2.
  apply leb_render_fields; first [exact Hk | lia].
Qed.

Lemma string_compare_refl (a : string) : String.compare a a = Eq.
Proof.
  induction a as [|c a IH]; [reflexivity|]. rewrite compare_same_head. exact IH.
Qed.

(** The fields compare, left to right, as their keys do. *)
Lemma lex_fields_key (y1 mo1 d1 h1 mi1 s1 ms1 y2 mo2 d2 h2 mi2 s2 ms2 : Z) :
  0 <= y1 < 10000 -> 0 <= mo1 < 100 -> 0 <= d1 < 100 -> 0 <= h1 < 100 ->
  0 <= mi1 < 100 -> 0 <= s1 < 100 -> 0 <= ms1 < 1000 ->
  0 <= y2 < 10000 -> 0 <= mo2 < 100 -> 0 <= d2 < 100 -> 0 <= h2 < 100 ->
  0 <= mi2 < 100 -> 0 <= s2 < 100 -> 0 <= ms2 < 1000 ->
  lex (y1 ?= y2) (lex (mo1 ?= mo2) (lex (d1 ?= d2) (lex (h1 ?= h2)
      (lex (mi1 ?= mi2) (lex (s1 ?= s2) (ms1 ?= ms2))))))
  = (fields_key y1 mo1 d1 h1 mi1 s1 ms1 ?= fields_key y2 mo2 d2 h2 mi2 s2 ms2).
Proof.
  intros Hy1 Hmo1 Hd1 Hh1 Hmi1 Hs1 Hms1 Hy2 Hmo2 Hd2 Hh2 Hmi2 Hs2 Hms2.
  unfold fields_key. symmetry.
  destruct (Z.compare_spec y1 y2); cbn [lex];
    [| apply Z.compare_lt_iff; lia | apply Z.compare_gt_iff; lia].
  destruct (Z.compare_spec mo1 mo2); cbn [lex];
    [| apply Z.compare_lt_iff; lia | apply Z.compare_gt_iff; lia].
  destruct (Z.compare_spec d1 d2); cbn [lex];
    [| apply Z.compare_lt_iff; lia | apply Z.compare_gt_iff; lia].
  destruct (Z.compare_spec h1 h2); cbn [lex];
    [| apply Z.compare_lt_iff; lia | apply Z.compare_gt_iff; lia].
  destruct (Z.compare_spec mi1 mi2); cbn [lex];
    [| apply Z.compare_lt_iff; lia | apply Z.compare_gt_iff; lia].
  destruct (Z.compare_spec s1 s2); cbn [lex];
    [| apply Z.compare_lt_iff; lia | apply Z.compare_gt_iff; lia].
  destruct (Z.compare_spec ms1 ms2);
    [apply Z.compare_eq_iff; lia | apply Z.compare_lt_iff; lia | apply Z.compare_gt_iff; lia].
Qed.

(** Timestamps of different milliseconds: the earlier is the smaller text. *)
Lemma timestamp_compare_lt (t1 t2 : Z) :
  clock_in_range t1 -> clock_in_range t2 -> t1 / 1000000 < t2 / 1000000 ->
  String.compare (getCurrentTimestamp t1) (getCurrentTimestamp t2) = Lt.
Proof.
  intros H1 H2 Hlt.
  pose proof (stamp_key_lt t1 t2 H1 H2 Hlt) as Hk.
  destruct (getCurrentTimestamp_fields t1 H1) as (E1 & Hy1 & Hmo1 & Hd1 & Hh1 & Hmi1 & Hs1).
  destruct (getCurrentTimestamp_fields t2 H2) as (E2 & Hy2 & Hmo2 & Hd2 & Hh2 & Hmi2 & Hs2).
  destruct (clock_in_range_millis t1 H1) as [_ Hms1].
  destruct (clock_in_range_millis t2 H2) as [_ Hms2].
  cbv zeta in E1, E2. rewrite E1, E2.
  rewrite compare_render_fields by lia.
  rewrite lex_fields_key by lia.
  apply Z.compare_lt_iff. exact Hk.
Qed.

End OrderFacts.

(** ** Timestamps *)

Lemma matches_render_fields (y mo d h mi s ms : Z) :
  matches iso8601_ms (render_fields y mo d h mi s ms) = true.
Proof.
  unfold render_fields, iso8601_ms. cbn [fixed_width append matches].
  rewrite !is_digit_digit by divlia. reflexivity.
Qed.

Lemma timestamp_iso8601_shape (now : Z) :
  clock_in_range now -> matches iso8601_ms (getCurrentTimestamp now) = true.
Proof.
  intros H. destruct (getCurrentTimestamp_fields now H) as [-> _].
  apply matches_render_fields.
Qed.

(** A text of full-width fields reads back as its fields. *)
Lemma read_render_fields (y mo d h mi s ms : Z) :
  0 <= y < 10000 -> 0 <= mo < 100 -> 0 <= d < 100 -> 0 <= h < 100 ->
  0 <= mi < 100 -> 0 <= s < 100 -> 0 <= ms < 1000 ->
  Utc.read (render_fields y mo d h mi s ms) = Some (y, mo, d, h, mi, s, ms).
Proof.
  intros Hy Hmo Hd Hh Hmi Hs Hms. unfold Utc.read.
  rewrite matches_render_fields.
  unfold render_fields, Utc.number.
  cbn [fixed_width append substring digits_value].
  rewrite !digit_value_digit by divlia.
  repeat f_equal; divlia.
Qed.

(** C6. Every timestamp taken between the epoch and the end of the year
    9999 is an ISO-8601 UTC date and time with milliseconds and the Z
    suffix.  It has the layout YYYY-MM-DDTHH:MM:SS.mmmZ: nineteen
    characters of date and time, a dot, the three digits of the
    millisecond count and Z, and a zero millisecond count is printed as
    .000.  Its seven numbers, in that order, are a year, a month 1..12, a
    day that exists in that month of that year, an hour 0..23, a minute
    and a second 0..59 and a millisecond 0..999; and that date and time,
    taken as UTC, is the instant the clock returned, cut to the
    millisecond. *)
Theorem timestamp_iso8601_millis (now : Z) :
  clock_in_range now ->
  matches iso8601_ms (getCurrentTimestamp now) = true
  /\ (exists date_time : string,
        String.length date_time = 19%nat
        /\ getCurrentTimestamp now
           = date_time ++ "." ++ fixed_width 3 ((now / 1000000) mod 1000) "" ++ "Z")
  /\ ((now / 1000000) mod 1000 = 0 ->
      exists date_time : string,
        String.length date_time = 19%nat
        /\ getCurrentTimestamp now = date_time ++ ".000Z")
  /\ (exists y mo d h mi s ms : Z,
        getCurrentTimestamp now = render_fields y mo d h mi s ms
        /\ Utc.read (getCurrentTimestamp now) = Some (y, mo, d, h, mi, s, ms)
        /\ 1970 <= y <= 9999 /\ 1 <= mo <= 12 /\ 1 <= d <= Utc.days_in_month y mo
        /\ 0 <= h <= 23 /\ 0 <= mi <= 59 /\ 0 <= s <= 59 /\ 0 <= ms <= 999
        /\ Utc.epoch_millis y mo d h mi s ms = now / 1000000).
Proof.
  intros H.
  destruct (getCurrentTimestamp_fields now H) as [Heq _].
  destruct (clock_in_range_millis now H) as [Hms Hmsr].
  destruct (clock_in_range_seconds now H) as [Ht Htr].
  assert (Hg := gmtime_denotes (Time.to_time_t now) ltac:(rewrite Ht; exact Htr)).
  cbv zeta in Heq, Hg.
  set (b := Time.gmtime (Time.to_time_t now)) in *.
  destruct Hg as (Hy & Hmo & Hd & Hh & Hmi & Hs & Hden).
  assert (Hex : exists date_time : string,
             String.length date_time = 19%nat
             /\ getCurrentTimestamp now
                = date_time ++ "." ++ fixed_width 3 ((now / 1000000) mod 1000) "" ++ "Z").
  { exists (fixed_width 4 (Time.tm_year b + 1900) "" ++ "-"
            ++ fixed_width 2 (Time.tm_mon b + 1) "" ++ "-"
            ++ fixed_width 2 (Time.tm_mday b) "" ++ "T"
            ++ fixed_width 2 (Time.tm_hour b) "" ++ ":"
            ++ fixed_width 2 (Time.tm_min b) "" ++ ":"
            ++ fixed_width 2 (Time.tm_sec b) "").
    split; [reflexivity|]. rewrite Heq, Hms. reflexivity. }
  split; [|split; [|split]].
  - rewrite Heq. apply matches_render_fields.
  - exact Hex.
  - intros Hz. destruct Hex as (dt & Hlen & Hts). exists dt. split; [exact Hlen|].
    rewrite Hts, Hz. reflexivity.
  - exists (Time.tm_year b + 1900), (Time.tm_mon b + 1), (Time.tm_mday b),
      (Time.tm_hour b), (Time.tm_min b), (Time.tm_sec b), (Time.millis now).
    split; [exact Heq|]. split.
    { rewrite Heq. apply read_render_fields; try lia.
      pose proof (days_in_month_le_31 (Time.tm_year b + 1900) (Time.tm_mon b + 1)). lia. }
    split; [exact Hy|]. split; [exact Hmo|]. split; [exact Hd|].
    split; [exact Hh|]. split; [exact Hmi|]. split; [exact Hs|]. split; [lia|].
    unfold Utc.epoch_millis. rewrite Hden, Ht, Hms.
    unfold clock_in_range, Time.ticks_per_sec in H. clear - H. divlia.
Qed.

Lemma timestamp_iso8601_millis_witness :
  clock_in_range 1709251199999123456
  /\ exists y mo d h mi s ms : Z,
       getCurrentTimestamp 1709251199999123456 = render_fields y mo d h mi s ms
       /\ Utc.read (getCurrentTimestamp 1709251199999123456) = Some (y, mo, d, h, mi, s, ms)
       /\ 1970 <= y <= 9999 /\ 1 <= mo <= 12 /\ 1 <= d <= Utc.days_in_month y mo
       /\ 0 <= h <= 23 /\ 0 <= mi <= 59 /\ 0 <= s <= 59 /\ 0 <= ms <= 999
       /\ Utc.epoch_millis y mo d h mi s ms = 1709251199999123456 / 1000000.
Proof.
  assert (H : clock_in_range 1709251199999123456)
    by (unfold clock_in_range, Time.ticks_per_sec; lia).
  split; [exact H|].
  exact (proj2 (proj2 (proj2 (timestamp_iso8601_millis 1709251199999123456 H)))).
Defined.

(** ** Readings: status and ranges *)

Lemma status_text_failure (r : Reading) :
  status_text r = failure_text <-> is_failure r = true.
Proof.
  unfold status_text, failure_text. destruct (is_failure r); split; intros H;
    try reflexivity; discriminate.
Qed.

Lemma status_text_normal (r : Reading) :
  status_text r = normal_text <-> is_failure r = false.
Proof.
  unfold status_text, normal_text. destruct (is_failure r); split; intros H;
    try reflexivity; discriminate.
Qed.

(** C1. The primary stream of a run is its readings, serialized in order,
    and for each of them the status is "failure" exactly when the voltage
    drawn for it compares below 50.0; a voltage of 50.0 or more gives
    "normal", and there is no third status. *)
Theorem status_failure_iff_voltage_below_50
    (Gen : Type) (mt19937 : Z -> Gen)
    (uniform_real : float -> float -> Gen -> float * Gen)
    (clock : nat -> Z) (seed : Z) (n : nat) :
  stdout_of (trace (main mt19937 uniform_real clock seed n))
    = map serialize (run_readings uniform_real clock n (startup mt19937 seed))
  /\ Forall
       (fun r : Reading =>
          (exists g : Gen, voltage r = fst (uniform_real 0.0%float 130.0%float g))
          /\ (status_text r = failure_text <-> (voltage r <? 50.0)%float = true)
          /\ ((50.0 <=? voltage r)%float = true -> status_text r = normal_text)
          /\ (status_text r = failure_text \/ status_text r = normal_text))
       (run_readings uniform_real clock n (startup mt19937 seed)).
Proof.
  split.
  - unfold main. rewrite run_stdout. reflexivity.
  - apply Forall_forall. intros r Hin.
    destruct (run_readings_origin uniform_real clock n _ r Hin) as (sector & w & _ & ->).
    destruct (draw_fields uniform_real clock sector w) as (_ & Hv & _ & _ & Hf).
    cbv zeta in Hv, Hf.
    split; [exists (gen w); exact Hv|].
    split; [|split].
    + rewrite status_text_failure, Hf, Hv. tauto.
    + intros Hge. apply status_text_normal. rewrite Hf, <- Hv.
      apply leb_not_ltb. exact Hge.
    + destruct (is_failure (fst (drawReading uniform_real clock sector w))) eqn:E.
      * left. apply status_text_failure. exact E.
      * right. apply status_text_normal. exact E.
Qed.

(** C2. With a generator that keeps the library's promise, every reading
    of a run has its voltage drawn from the distribution over 0.0 .. 130.0
    and its load from a separate distribution over 0.0 .. 100.0, on the
    generator the voltage draw left behind, and both values lie within
    their ranges. *)
Theorem readings_within_ranges
    (Gen : Type) (mt19937 : Z -> Gen)
    (uniform_real : float -> float -> Gen -> float * Gen)
    (clock : nat -> Z) (seed : Z) (n : nat) :
  uniform_real_contract uniform_real ->
  Forall
    (fun r : Reading =>
       (exists g : Gen,
          voltage r = fst (uniform_real 0.0%float 130.0%float g)
          /\ load r = fst (uniform_real 0.0%float 100.0%float
                             (snd (uniform_real 0.0%float 130.0%float g))))
       /\ (0.0 <=? voltage r)%float = true /\ (voltage r <=? 130.0)%float = true
       /\ (0.0 <=? load r)%float = true /\ (load r <=? 100.0)%float = true)
    (run_readings uniform_real clock n (startup mt19937 seed)).
Proof.
  intros Hc. apply Forall_forall. intros r Hin.
  destruct (run_readings_origin uniform_real clock n _ r Hin) as (sector & w & _ & ->).
  destruct (draw_fields uniform_real clock sector w) as (_ & Hv & Hl & _ & _).
  cbv zeta in Hv, Hl. change LOAD_MIN with 0.0%float in Hl.
  change LOAD_MAX with 100.0%float in Hl.
  split; [exists (gen w); split; assumption|].
  rewrite Hv, Hl.
  destruct (Hc 0.0%float 130.0%float (gen w) eq_refl) as [H1 H2].
  destruct (Hc 0.0%float 100.0%float
               (snd (uniform_real 0.0%float 130.0%float (gen w))) eq_refl) as [H3 H4].
  auto.
Qed.

Lemma readings_within_ranges_witness :
  uniform_real_contract Scripted.uniform_real
  /\ Forall
       (fun r : Reading =>
          (exists g : Scripted.Gen,
             voltage r = fst (Scripted.uniform_real 0.0%float 130.0%float g)
             /\ load r = fst (Scripted.uniform_real 0.0%float 100.0%float
                                (snd (Scripted.uniform_real 0.0%float 130.0%float g))))
          /\ (0.0 <=? voltage r)%float = true /\ (voltage r <=? 130.0)%float = true
          /\ (0.0 <=? load r)%float = true /\ (load r <=? 100.0)%float = true)
       (run_readings Scripted.uniform_real (fun k : nat => Z.of_nat k) 1
          (startup (Scripted.mt19937 [121.5; 30.25; 200.0; 99.5]%float) 7)).
Proof.
  split; [exact scripted_contract|].
  exact (readings_within_ranges Scripted.Gen
           (Scripted.mt19937 [121.5; 30.25; 200.0; 99.5]%float)
           Scripted.uniform_real (fun k : nat => Z.of_nat k) 7 1 scripted_contract).
Defined.

(** ** Lines *)

Lemma plain_digit (d : Z) : 0 <= d < 10 -> plain (Fmt.digit d) = true.
Proof.
  intros H. apply number_char_plain, is_digit_number_char, is_digit_digit. exact H.
Qed.

Lemma plain_render_fields (y mo d h mi s ms : Z) :
  string_forall plain (render_fields y mo d h mi s ms) = true.
Proof.
  unfold render_fields. cbn [fixed_width append string_forall].
  rewrite !plain_digit by divlia. reflexivity.
Qed.

Lemma plain_sector (sector : string) :
  In sector SECTORS -> string_forall plain sector = true.
Proof.
  intros [<-|[<-|[<-|[]]]]; reflexivity.
Qed.

Lemma finite_or_zero_drawn
    (Gen : Type) (uniform_real : float -> float -> Gen -> float * Gen)
    (a b : float) (g : Gen) :
  uniform_real_contract uniform_real ->
  finite_or_zero a -> finite_or_zero b -> (a <=? b)%float = true ->
  finite_or_zero (fst (uniform_real a b g)).
Proof.
  intros Hc Ha Hb Hab. destruct (Hc a b g Hab) as [H1 H2].
  exact (between_finite a b _ Ha Hb H1 H2).
Qed.

(** A reading of a configured sector with finite values and a timestamp
    taken within the clock's range serializes to a well-formed line. *)
Lemma serialize_line_ok (r : Reading) :
  In (sector_id r) SECTORS ->
  finite_or_zero (voltage r) -> finite_or_zero (load r) ->
  (exists now : Z, clock_in_range now /\ timestamp r = getCurrentTimestamp now) ->
  line_ok (serialize r).
Proof.
  intros Hs Hv Hl (now & Hnow & Hts).
  destruct (fixed2_number_chars _ Hv) as [Hv0 Hvn].
  destruct (fixed2_number_chars _ Hl) as [Hl0 Hln].
  assert (Htp : string_forall plain (timestamp r) = true).
  { rewrite Hts. destruct (getCurrentTimestamp_fields now Hnow) as [-> _].
    apply plain_render_fields. }
  assert (Hsp : string_forall plain (sector_id r) = true) by exact (plain_sector _ Hs).
  assert (Hns : forall c : ascii, plain c = true -> (fun c => negb (is_space c)) c = true)
    by exact plain_not_space.
  assert (Hnn : forall c : ascii,
             is_number_char c = true -> (fun c => negb (is_space c)) c = true).
  { intros c Hc. apply plain_not_space, number_char_plain, Hc. }
  split.
  - unfold serialize. rewrite !string_forall_app.
    rewrite (string_forall_impl _ _ _ Hns Hsp), (string_forall_impl _ _ _ Hns Htp).
    rewrite (string_forall_impl _ _ _ Hnn Hvn), (string_forall_impl _ _ _ Hnn Hln).
    unfold status_text. destruct (is_failure r); reflexivity.
  - exists (sector_id r), (Fixed.fixed2 (voltage r)), (Fixed.fixed2 (load r)),
           (timestamp r), (if is_failure r then "failure" else "normal").
    split; [|split; [exact Hs|split; [|split; [|split]]]].
    + unfold serialize, status_text.
      replace (if is_failure r then dq ++ "failure" ++ dq else dq ++ "normal" ++ dq)
        with (dq ++ (if is_failure r then "failure" else "normal") ++ dq)
        by (destruct (is_failure r); reflexivity).
      apply parse_object_members; auto.
      destruct (is_failure r); reflexivity.
    + apply fixed2_two_decimals, Hv.
    + apply fixed2_two_decimals, Hl.
    + rewrite Hts. apply timestamp_iso8601_shape, Hnow.
    + destruct (is_failure r); auto.
Qed.

(** C4. With a generator that keeps the library's promise and a clock
    within its range, every line of the primary stream has no white space
    anywhere (none trailing, no line break inside) and reads back as one
    object with the members sector_id, voltage, load, timestamp, status, in
    that order; voltage and load are fixed-point texts with two fractional
    digits, and the timestamp has the ISO layout. *)
Theorem stdout_lines_well_formed
    (Gen : Type) (mt19937 : Z -> Gen)
    (uniform_real : float -> float -> Gen -> float * Gen)
    (clock : nat -> Z) (seed : Z) (n : nat) :
  uniform_real_contract uniform_real ->
  (forall k : nat, clock_in_range (clock k)) ->
  Forall line_ok (stdout_of (trace (main mt19937 uniform_real clock seed n))).
Proof.
  intros Hc Hclk. unfold main. rewrite run_stdout.
  change (stdout_of (trace (startup mt19937 seed))) with (@nil string).
  cbn [app]. apply Forall_forall. intros l Hin.
  apply in_map_iff in Hin. destruct Hin as (r & <- & Hin).
  destruct (run_readings_origin uniform_real clock n _ r Hin) as (sector & w & Hs & ->).
  destruct (draw_fields uniform_real clock sector w) as (Hid & Hv & Hl & Ht & _).
  cbv zeta in Hid, Hv, Hl, Ht.
  apply serialize_line_ok.
  - rewrite Hid. exact Hs.
  - rewrite Hv. apply finite_or_zero_drawn; auto; exact I.
  - rewrite Hl. apply finite_or_zero_drawn; auto; exact I.
  - exists (clock (reads w)). split; [apply Hclk | exact Ht].
Qed.

Lemma stdout_lines_well_formed_witness :
  uniform_real_contract Scripted.uniform_real
  /\ (forall k : nat, clock_in_range ((fun _ : nat => 1798589100005000000) k))
  /\ Forall line_ok
       (stdout_of (trace (main (Scripted.mt19937 [121.5; 30.25]%float) Scripted.uniform_real
                            (fun _ : nat => 1798589100005000000) 7 1))).
Proof.
  assert (H : forall k : nat, clock_in_range ((fun _ : nat => 1798589100005000000) k))
    by (intros k; unfold clock_in_range, Time.ticks_per_sec; lia).
  split; [exact scripted_contract|]. split; [exact H|].
  exact (stdout_lines_well_formed Scripted.Gen (Scripted.mt19937 [121.5; 30.25]%float)
           Scripted.uniform_real (fun _ : nat => 1798589100005000000) 7 1
           scripted_contract H).
Defined.

(** ** Rounding at the threshold *)

Lemma just_below_50 (x : float) :
  (least_above_49_995 <=? x)%float = true -> (x <? 50.0)%float = true ->
  exists m : positive,
    Prim2SF x = S754_finite false m (-47)
    /\ 7036170730324624 <= Z.pos m < 7036874417766400.
Proof.
  rewrite leb_spec, ltb_spec.
  replace (Prim2SF least_above_49_995) with (S754_finite false 7036170730324624 (-47))
    by (vm_compute; reflexivity).
  replace (Prim2SF 50.0%float) with (S754_finite false 7036874417766400 (-47))
    by (vm_compute; reflexivity).
  unfold SFleb, SFltb, SFcompare.
  destruct (Prim2SF x) as [sx|sx| |sx m e]; try discriminate.
  - destruct sx; discriminate.
  - destruct sx; try discriminate.
    destruct (Z.compare_spec (-47) e) as [He|He|He]; try discriminate.
    + subst e. rewrite Z.compare_refl.
      intros H1 H2. exists m. split; [reflexivity|].
      split.
      * unfold Z.le, Z.compare, Pos.compare.
        destruct (Pos.compare_cont Eq 7036170730324624 m); congruence.
      * unfold Z.lt, Z.compare, Pos.compare.
        destruct (Pos.compare_cont Eq m 7036874417766400); congruence.
    + intros _. destruct (Z.compare_spec e (-47)); try discriminate; lia.
Qed.

Lemma hundredths_just_below_50 (m : positive) :
  7036170730324624 <= Z.pos m < 7036874417766400 ->
  Fixed.hundredths m (-47) = 5000.
Proof.
  intros Hm. unfold Fixed.hundredths.
  replace (0 <=? -47) with false by reflexivity.
  replace (2 ^ (- -47)) with 140737488355328 by (vm_compute; reflexivity).
  unfold Fixed.round_half_even. generalize dependent (Z.pos m). intros z Hz.
  assert (Hq : z * 100 / 140737488355328 = 4999) by divlia.
  rewrite Hq. replace (Z.even 4999) with false by reflexivity.
  destruct (Z.compare_spec (2 * ((z * 100) mod 140737488355328)) 140737488355328);
    try reflexivity.
  exfalso. divlia.
Qed.

(** C5. A voltage draw at or above 49.995 and below 50.0 (such doubles
    exist: 49.99609375 is one) is classified as a failure, and yet the line
    shows it as 50.00, the very text of a voltage of exactly 50.0, which
    is not below the threshold.  The status agrees with the value drawn,
    not with the value printed. *)
Theorem rounded_voltage_disagrees_with_status
    (Gen : Type) (uniform_real : float -> float -> Gen -> float * Gen)
    (clock : nat -> Z) (sector : string) (w : world Gen) :
  (least_above_49_995 <=? fst (uniform_real 0.0%float 130.0%float (gen w)))%float = true ->
  (fst (uniform_real 0.0%float 130.0%float (gen w)) <? 50.0)%float = true ->
  let r := fst (drawReading uniform_real clock sector w) in
  voltage r = fst (uniform_real 0.0%float 130.0%float (gen w))
  /\ status_text r = failure_text
  /\ Fixed.fixed2 (voltage r) = "50.00"
  /\ Fixed.fixed2 (voltage r) = Fixed.fixed2 50.0%float
  /\ (50.0 <? 50.0)%float = false
  /\ serialize r
     = "{" ++ (dq ++ "sector_id" ++ dq ++ ":" ++ dq) ++ sector ++ (dq ++ ",")
           ++ (dq ++ "voltage" ++ dq ++ ":") ++ "50.00" ++ ","
           ++ (dq ++ "load" ++ dq ++ ":") ++ Fixed.fixed2 (load r) ++ ","
           ++ (dq ++ "timestamp" ++ dq ++ ":" ++ dq) ++ timestamp r ++ (dq ++ ",")
           ++ (dq ++ "status" ++ dq ++ ":") ++ failure_text
           ++ "}".
Proof.
  intros Hlo Hhi r.
  destruct (draw_fields uniform_real clock sector w) as (Hid & Hv & _ & _ & Hf).
  cbv zeta in Hid, Hv, Hf. fold r in Hid, Hv, Hf.
  rewrite <- Hv in Hlo, Hhi, Hf.
  assert (Hs : status_text r = failure_text).
  { apply status_text_failure. rewrite Hf. exact Hhi. }
  assert (Hp : Fixed.fixed2 (voltage r) = "50.00").
  { destruct (just_below_50 _ Hlo Hhi) as (m & Hm & Hr).
    unfold Fixed.fixed2. rewrite Hm, (hundredths_just_below_50 m Hr). reflexivity. }
  assert (H50 : Fixed.fixed2 50.0%float = "50.00") by (vm_compute; reflexivity).
  split; [exact Hv|]. split; [exact Hs|]. split; [exact Hp|].
  split; [rewrite Hp, H50; reflexivity|]. split; [vm_compute; reflexivity|].
  unfold serialize. rewrite Hid, Hp, Hs. reflexivity.
Qed.

Lemma rounded_voltage_disagrees_with_status_witness :
  let w := startup (Scripted.mt19937 [49.99609375; 30.25]%float) 7 in
  (least_above_49_995 <=? fst (Scripted.uniform_real 0.0%float 130.0%float (gen w)))%float = true
  /\ (fst (Scripted.uniform_real 0.0%float 130.0%float (gen w)) <? 50.0)%float = true
  /\ Fixed.fixed2
       (voltage (fst (drawReading Scripted.uniform_real (fun _ : nat => 0) "sector-1" w)))
     = "50.00"
  /\ status_text (fst (drawReading Scripted.uniform_real (fun _ : nat => 0) "sector-1" w))
     = failure_text.
Proof.
  intros w.
  assert (H1 : (least_above_49_995
                <=? fst (Scripted.uniform_real 0.0%float 130.0%float (gen w)))%float = true)
    by (vm_compute; reflexivity).
  assert (H2 : (fst (Scripted.uniform_real 0.0%float 130.0%float (gen w)) <? 50.0)%float = true)
    by (vm_compute; reflexivity).
  split; [exact H1|]. split; [exact H2|].
  pose proof (rounded_voltage_disagrees_with_status Scripted.Gen Scripted.uniform_real
                (fun _ : nat => 0) "sector-1" w H1 H2) as H.
  cbv zeta in H. split; [exact (proj1 (proj2 (proj2 H))) | exact (proj1 (proj2 H))].
Defined.

(** ** Cycles *)

(** C3. Each cycle adds exactly three lines to the primary stream: the
    serialized readings of sector-1, sector-2 and sector-3, in that order,
    one reading per configured sector. *)
Theorem cycle_emits_one_reading_per_sector
    (Gen : Type) (mt19937 : Z -> Gen)
    (uniform_real : float -> float -> Gen -> float * Gen)
    (clock : nat -> Z) (seed : Z) (n : nat) :
  exists r1 r2 r3 : Reading,
    cycle_readings uniform_real clock (main mt19937 uniform_real clock seed n) = [r1; r2; r3]
    /\ stdout_of (trace (main mt19937 uniform_real clock seed (S n)))
       = (stdout_of (trace (main mt19937 uniform_real clock seed n))
          ++ [serialize r1; serialize r2; serialize r3])%list
    /\ map sector_id [r1; r2; r3] = SECTORS
    /\ SECTORS = ["sector-1"; "sector-2"; "sector-3"].
Proof.
  set (w := main mt19937 uniform_real clock seed n).
  set (w1 := logged w).
  set (w2 := emitPowerEvent uniform_real clock "sector-1" w1).
  set (w3 := emitPowerEvent uniform_real clock "sector-2" w2).
  exists (fst (drawReading uniform_real clock "sector-1" w1)),
         (fst (drawReading uniform_real clock "sector-2" w2)),
         (fst (drawReading uniform_real clock "sector-3" w3)).
  split; [reflexivity|]. split; [|split; [|reflexivity]].
  - change (main mt19937 uniform_real clock seed (S n))
      with (cycle_body uniform_real clock w).
    rewrite body_trace. rewrite stdout_of_app. reflexivity.
  - cbn [map].
    destruct (draw_fields uniform_real clock "sector-1" w1) as (-> & _).
    destruct (draw_fields uniform_real clock "sector-2" w2) as (-> & _).
    destruct (draw_fields uniform_real clock "sector-3" w3) as (-> & _).
    reflexivity.
Qed.

(** C7. Before the counter reaches INT_MAX: after [n] cycles it stands at
    [n], so the cycles are numbered 1, 2, 3, ...; cycle [n + 1] writes
    exactly one diagnostic line, the progress line with the number [n + 1],
    and writes it first, ahead of its three readings and its sleep. *)
Theorem cycle_numbering
    (Gen : Type) (mt19937 : Z -> Gen)
    (uniform_real : float -> float -> Gen -> float * Gen)
    (clock : nat -> Z) (seed : Z) (n : nat) :
  Z.of_nat n < INT_MAX ->
  cycle (main mt19937 uniform_real clock seed n) = Z.of_nat n
  /\ cycle (main mt19937 uniform_real clock seed (S n)) = Z.of_nat n + 1
  /\ trace (main mt19937 uniform_real clock seed (S n))
     = (trace (main mt19937 uniform_real clock seed n)
        ++ Err (cycle_line (Z.of_nat n + 1))
           :: map (fun r => Out (serialize r))
                (cycle_readings uniform_real clock (main mt19937 uniform_real clock seed n))
        ++ [Sleep EVENT_INTERVAL_SEC])%list
  /\ stderr_of (trace (main mt19937 uniform_real clock seed (S n)))
     = (stderr_of (trace (main mt19937 uniform_real clock seed n))
        ++ [cycle_line (Z.of_nat n + 1)])%list
  /\ cycle_line (Z.of_nat n + 1)
     = "[QNX] deterministic loop - cycle " ++ Fmt.decimal (Z.of_nat n + 1).
Proof.
  intros Hn. unfold main.
  assert (Hc : cycle (iterate uniform_real clock n (startup mt19937 seed)) = Z.of_nat n).
  { rewrite iterate_cycle; cbn [cycle startup]; lia. }
  assert (Hw : wrap_int (Z.of_nat n + 1) = Z.of_nat n + 1).
  { unfold wrap_int, INT_MAX in *.
    change (2 ^ 31) with 2147483648. change (2 ^ 32) with 4294967296.
    rewrite Z.mod_small by lia. lia. }
  assert (Ht : trace (iterate uniform_real clock (S n) (startup mt19937 seed))
     = (trace (iterate uniform_real clock n (startup mt19937 seed))
        ++ Err (cycle_line (Z.of_nat n + 1))
           :: map (fun r => Out (serialize r))
                (cycle_readings uniform_real clock
                   (iterate uniform_real clock n (startup mt19937 seed)))
        ++ [Sleep EVENT_INTERVAL_SEC])%list).
  { rewrite iterate_trace_step, Hc, Hw. reflexivity. }
  split; [exact Hc|]. split; [|split; [exact Ht|split; [|reflexivity]]].
  - rewrite iterate_cycle; cbn [cycle startup]; lia.
  - rewrite Ht. rewrite stderr_of_app.
    change (Err ?l :: ?t) with ([Err l] ++ t)%list.
    rewrite !stderr_of_app, stderr_of_outs. reflexivity.
Qed.

Lemma cycle_numbering_witness :
  Z.of_nat 2 < INT_MAX
  /\ cycle (main (Scripted.mt19937 []) Scripted.uniform_real (fun k : nat => Z.of_nat k) 7 3)
     = Z.of_nat 2 + 1.
Proof.
  assert (H : Z.of_nat 2 < INT_MAX) by (unfold INT_MAX; lia).
  split; [exact H|].
  exact (proj1 (proj2 (cycle_numbering Scripted.Gen (Scripted.mt19937 [])
                         Scripted.uniform_real (fun k : nat => Z.of_nat k) 7 2 H))).
Defined.

(** C8. Every cycle ends by sleeping for the five-second interval, after
    its three readings, and that is the only sleep of the cycle; whatever
    the number of cycles already run, another one follows: the loop has no
    exit, and the events of a run grow without bound. *)
Theorem cycle_ends_with_sleep_and_repeats
    (Gen : Type) (mt19937 : Z -> Gen)
    (uniform_real : float -> float -> Gen -> float * Gen)
    (clock : nat -> Z) (seed : Z) (n : nat) :
  (exists (line : string) (r1 r2 r3 : Reading),
     trace (main mt19937 uniform_real clock seed (S n))
     = (trace (main mt19937 uniform_real clock seed n)
        ++ [Err line; Out (serialize r1); Out (serialize r2); Out (serialize r3);
            Sleep 5])%list)
  /\ sleeps_of (trace (main mt19937 uniform_real clock seed n)) = repeat 5 n
  /\ EVENT_INTERVAL_SEC = 5
  /\ List.length (trace (main mt19937 uniform_real clock seed n)) = (4 + 5 * n)%nat.
Proof.
  split; [|split; [|split; [reflexivity|]]].
  - set (w := main mt19937 uniform_real clock seed n).
    exists (cycle_line (wrap_int (cycle w + 1))),
           (fst (drawReading uniform_real clock "sector-1" (logged w))),
           (fst (drawReading uniform_real clock "sector-2"
                   (emitPowerEvent uniform_real clock "sector-1" (logged w)))),
           (fst (drawReading uniform_real clock "sector-3"
                   (emitPowerEvent uniform_real clock "sector-2"
                      (emitPowerEvent uniform_real clock "sector-1" (logged w))))).
    change (main mt19937 uniform_real clock seed (S n))
      with (cycle_body uniform_real clock w).
    rewrite body_trace. reflexivity.
  - unfold main. induction n as [|n IH]; [reflexivity|].
    cbn [iterate]. rewrite body_trace, sleeps_of_app, IH.
    change (sleeps_of _) with [5] at 1.
    change [5] with (repeat 5 1). rewrite <- repeat_app.
    f_equal. lia.
  - unfold main. induction n as [|n IH]; [reflexivity|].
    cbn [iterate]. rewrite body_trace, length_app, IH. cbn [List.length]. lia.
Qed.

(** * Further properties of the code *)

(** ** Timestamps and the order of instants *)

Section RunTimestamps.

Context {Gen : Type}.
Variable uniform_real : float -> float -> Gen -> float * Gen.
Variable clock : nat -> Z.

Lemma cycle_timestamps (w : world Gen) :
  map timestamp (cycle_readings uniform_real clock w)
  = map (fun k => getCurrentTimestamp (clock k)) (seq (reads w) 3).
Proof.
  unfold cycle_readings, SECTORS. cbn [readings_from map seq].
  destruct (draw_fields uniform_real clock "sector-1" (logged w)) as (_ & _ & _ & -> & _).
  destruct (draw_fields uniform_real clock "sector-2"
              (emitPowerEvent uniform_real clock "sector-1" (logged w)))
    as (_ & _ & _ & -> & _).
  destruct (draw_fields uniform_real clock "sector-3"
              (emitPowerEvent uniform_real clock "sector-2"
                 (emitPowerEvent uniform_real clock "sector-1" (logged w))))
    as (_ & _ & _ & -> & _).
  rewrite !emit_reads. reflexivity.
Qed.

(** The [k]-th reading of a run carries the instant of the [k]-th call
    of [now()]. *)
Lemma run_timestamps (n : nat) (w : world Gen) :
  map timestamp (run_readings uniform_real clock n w)
  = map (fun k => getCurrentTimestamp (clock k)) (seq (reads w) (3 * n)).
Proof.
  induction n as [|n IH]; [reflexivity|].
  cbn [run_readings]. rewrite map_app, IH, cycle_timestamps, iterate_reads.
  replace (3 * S n)%nat with (3 * n + 3)%nat by lia.
  rewrite seq_app, map_app. do 3 f_equal. lia.
Qed.

Lemma run_readings_length (n : nat) (w : world Gen) :
  List.length (run_readings uniform_real clock n w) = (3 * n)%nat.
Proof.
  induction n as [|n IH]; [reflexivity|].
  cbn [run_readings]. rewrite length_app, IH.
  change (List.length (cycle_readings uniform_real clock
                         (iterate uniform_real clock n w))) with 3%nat.
  lia.
Qed.

End RunTimestamps.

Lemma nondecreasing_map_seq (f : nat -> string) (len : nat) :
  forall start : nat,
    (forall k : nat, String.leb (f k) (f (S k)) = true) ->
    nondecreasing (map f (seq start len)) = true.
Proof.
  induction len as [|len IH]; intros start H; [reflexivity|].
  destruct len as [|len]; [reflexivity|].
  change (nondecreasing (map f (seq start (S (S len)))))
    with (String.leb (f start) (f (S start))
          && nondecreasing (map f (seq (S start) (S len)))).
  rewrite H, (IH (S start) H). reflexivity.
Qed.

Lemma nondecreasing_map_seq_broken (f : nat -> string) (len : nat) :
  forall start k : nat,
    (start <= k)%nat -> (S k < start + len)%nat ->
    String.leb (f k) (f (S k)) = false ->
    nondecreasing (map f (seq start len)) = false.
Proof.
  induction len as [|len IH]; intros start k Hs Hk Hf; [lia|].
  destruct len as [|len]; [lia|].
  change (nondecreasing (map f (seq start (S (S len)))))
    with (String.leb (f start) (f (S start))
          && nondecreasing (map f (seq (S start) (S len)))).
  destruct (Nat.eq_dec k start) as [->|Hne].
  - rewrite Hf. reflexivity.
  - rewrite (IH (S start) k) by (assumption || lia). apply andb_false_r.
Qed.

(** Two instants within the clock's range have timestamps that compare,
    as texts, exactly as their millisecond counts compare as numbers: the
    same millisecond gives the same text, an earlier one a smaller text. *)
Theorem timestamp_order_is_millisecond_order (t1 t2 : Z) :
  clock_in_range t1 -> clock_in_range t2 ->
  String.compare (getCurrentTimestamp t1) (getCurrentTimestamp t2)
  = (t1 / 1000000 ?= t2 / 1000000).
Proof.
  intros H1 H2.
  destruct (Z.compare_spec (t1 / 1000000) (t2 / 1000000)) as [He|Hlt|Hgt].
  - rewrite (timestamp_same_millisecond t1 t2 H1 H2 He). apply string_compare_refl.
  - apply timestamp_compare_lt; assumption.
  - rewrite String.compare_antisym.
    rewrite (timestamp_compare_lt t2 t1 H2 H1 Hgt). reflexivity.
Qed.

Lemma timestamp_order_is_millisecond_order_witness :
  clock_in_range 1798589100005000000 /\ clock_in_range 1798589099999999999
  /\ String.compare (getCurrentTimestamp 1798589100005000000)
                    (getCurrentTimestamp 1798589099999999999)
     = (1798589100005000000 / 1000000 ?= 1798589099999999999 / 1000000).
Proof.
  assert (H1 : clock_in_range 1798589100005000000)
    by (unfold clock_in_range, Time.ticks_per_sec; lia).
  assert (H2 : clock_in_range 1798589099999999999)
    by (unfold clock_in_range, Time.ticks_per_sec; lia).
  split; [exact H1|]. split; [exact H2|].
  exact (timestamp_order_is_millisecond_order _ _ H1 H2).
Defined.

(** On a clock that stays within its range and never steps back, every
    reading of a run is stamped with the instant of its own call of
    [now()], the [k]-th reading with the [k]-th call, and the timestamps
    of consecutive readings never decrease. *)
Theorem timestamps_nondecreasing_on_steady_clock
    (Gen : Type) (mt19937 : Z -> Gen)
    (uniform_real : float -> float -> Gen -> float * Gen)
    (clock : nat -> Z) (seed : Z) (n : nat) :
  (forall k : nat, clock_in_range (clock k)) ->
  (forall k : nat, clock k <= clock (S k)) ->
  map timestamp (run_readings uniform_real clock n (startup mt19937 seed))
  = map (fun k => getCurrentTimestamp (clock k)) (seq 0 (3 * n))
  /\ nondecreasing
       (map timestamp (run_readings uniform_real clock n (startup mt19937 seed))) = true.
Proof.
  intros Hr Hm.
  assert (E : map timestamp (run_readings uniform_real clock n (startup mt19937 seed))
              = map (fun k => getCurrentTimestamp (clock k)) (seq 0 (3 * n)))
    by apply run_timestamps.
  split; [exact E|]. rewrite E.
  apply nondecreasing_map_seq. intros k.
  apply timestamp_leb; auto.
Qed.

Lemma timestamps_nondecreasing_on_steady_clock_witness :
  (forall k : nat,
     clock_in_range ((fun i : nat => Z.of_nat (Nat.min i 100) * 2500000000) k))
  /\ (forall k : nat,
        (fun i : nat => Z.of_nat (Nat.min i 100) * 2500000000) k
        <= (fun i : nat => Z.of_nat (Nat.min i 100) * 2500000000) (S k))
  /\ nondecreasing
       (map timestamp
          (run_readings Scripted.uniform_real
             (fun i : nat => Z.of_nat (Nat.min i 100) * 2500000000) 2
             (startup (Scripted.mt19937 [121.5; 30.25]%float) 7))) = true.
Proof.
  assert (H1 : forall k : nat,
             clock_in_range ((fun i : nat => Z.of_nat (Nat.min i 100) * 2500000000) k))
    by (intros k; unfold clock_in_range, Time.ticks_per_sec; cbv beta; lia).
  assert (H2 : forall k : nat,
             (fun i : nat => Z.of_nat (Nat.min i 100) * 2500000000) k
             <= (fun i : nat => Z.of_nat (Nat.min i 100) * 2500000000) (S k))
    by (intros k; cbv beta; lia).
  split; [exact H1|]. split; [exact H2|].
  exact (proj2 (timestamps_nondecreasing_on_steady_clock Scripted.Gen
                  (Scripted.mt19937 [121.5; 30.25]%float) Scripted.uniform_real
                  _ 7 2 H1 H2)).
Defined.

(** When the clock steps back by a millisecond or more between two
    consecutive calls made during the first [n] cycles, the timestamps of
    the run are not in order: the later reading carries the smaller
    text. *)
Theorem clock_step_back_breaks_timestamp_order
    (Gen : Type) (mt19937 : Z -> Gen)
    (uniform_real : float -> float -> Gen -> float * Gen)
    (clock : nat -> Z) (seed : Z) (n k : nat) :
  (forall i : nat, clock_in_range (clock i)) ->
  (S k < 3 * n)%nat ->
  clock (S k) / 1000000 < clock k / 1000000 ->
  String.ltb (getCurrentTimestamp (clock (S k))) (getCurrentTimestamp (clock k)) = true
  /\ nondecreasing
       (map timestamp (run_readings uniform_real clock n (startup mt19937 seed))) = false.
Proof.
  intros Hr Hk Hback.
  assert (Hc : String.compare (getCurrentTimestamp (clock (S k)))
                              (getCurrentTimestamp (clock k)) = Lt)
    by (apply timestamp_compare_lt; auto).
  split.
  - unfold String.ltb. rewrite Hc. reflexivity.
  - rewrite run_timestamps. cbn [reads startup].
    apply (nondecreasing_map_seq_broken _ _ 0%nat k); [lia | lia |].
    unfold String.leb. rewrite String.compare_antisym, Hc. reflexivity.
Qed.

Lemma clock_step_back_breaks_timestamp_order_witness :
  (forall i : nat,
     clock_in_range
       ((fun j : nat => if (j =? 1)%nat then 1798589098000000000
                        else 1798589100005000000) i))
  /\ (S 0 < 3 * 1)%nat
  /\ (fun j : nat => if (j =? 1)%nat then 1798589098000000000
                     else 1798589100005000000) (S 0) / 1000000
     < (fun j : nat => if (j =? 1)%nat then 1798589098000000000
                       else 1798589100005000000) 0%nat / 1000000
  /\ nondecreasing
       (map timestamp
          (run_readings Scripted.uniform_real
             (fun j : nat => if (j =? 1)%nat then 1798589098000000000
                             else 1798589100005000000) 1
             (startup (Scripted.mt19937 [121.5; 30.25]%float) 7))) = false.
Proof.
  assert (H1 : forall i : nat,
             clock_in_range
               ((fun j : nat => if (j =? 1)%nat then 1798589098000000000
                                else 1798589100005000000) i)).
  { intros i. cbv beta. unfold clock_in_range, Time.ticks_per_sec.
    destruct (i =? 1)%nat; lia. }
  assert (H2 : (S 0 < 3 * 1)%nat) by lia.
  assert (H3 : (fun j : nat => if (j =? 1)%nat then 1798589098000000000
                               else 1798589100005000000) (S 0) / 1000000
               < (fun j : nat => if (j =? 1)%nat then 1798589098000000000
                                 else 1798589100005000000) 0%nat / 1000000)
    by (vm_compute; reflexivity).
  split; [exact H1|]. split; [exact H2|]. split; [exact H3|].
  exact (proj2 (clock_step_back_breaks_timestamp_order Scripted.Gen
                  (Scripted.mt19937 [121.5; 30.25]%float) Scripted.uniform_real
                  _ 7 1 0 H1 H2 H3)).
Defined.

(** ** Before the epoch *)

Lemma decimal_negative_small (m : Z) :
  -999 <= m <= -1 ->
  Fmt.decimal m = String "-" (Fmt.dec_digits 3 (- m) "").
Proof.
  intros Hm. unfold Fmt.decimal. destruct (Z.ltb_spec m 0); [|lia].
  f_equal. unfold Fmt.dec_fuel at 1.
  apply dec_digits_enough;
    [ lia
    | apply (dec_fuel_enough (- m)); lia
    | change (10 ^ Z.of_nat 3) with 1000; lia ].
Qed.

(** In the last second before the epoch, from one millisecond before it
    on: [to_time_t] truncates to the epoch itself and the millisecond
    count is negative, so the text shows 1970-01-01T00:00:00 followed by a
    fraction that holds a minus sign; it does not have the ISO layout. *)
Theorem timestamp_before_epoch_malformed (now : Z) :
  -1000000000 < now <= -1000000 ->
  Time.to_time_t now = 0
  /\ -999 <= Time.millis now <= -1
  /\ getCurrentTimestamp now
     = "1970-01-01T00:00:00." ++ Fmt.setw 3 "0" (Fmt.decimal (Time.millis now)) ++ "Z"
  /\ matches iso8601_ms (getCurrentTimestamp now) = false.
Proof.
  intros Hn.
  assert (Ht : Time.to_time_t now = 0).
  { unfold Time.to_time_t, Time.ticks_per_sec. Z.to_euclidean_division_equations. lia. }
  assert (Hm : -999 <= Time.millis now <= -1).
  { unfold Time.millis, Time.ticks_per_ms. Z.to_euclidean_division_equations. lia. }
  assert (E : getCurrentTimestamp now
     = "1970-01-01T00:00:00." ++ Fmt.setw 3 "0" (Fmt.decimal (Time.millis now)) ++ "Z").
  { unfold getCurrentTimestamp. rewrite Ht.
    replace (Time.put_time (Time.gmtime 0)) with "1970-01-01T00:00:00"
      by (vm_compute; reflexivity).
    reflexivity. }
  split; [exact Ht|]. split; [exact Hm|]. split; [exact E|].
  rewrite E. set (m := Time.millis now) in *. clearbody m.
  rewrite (decimal_negative_small m Hm). cbn [Fmt.dec_digits].
  destruct (Z.ltb_spec (- m) 10); [reflexivity|].
  destruct (Z.ltb_spec (- m / 10) 10); [reflexivity|].
  destruct (- m / 10 / 10 <? 10); reflexivity.
Qed.

Lemma timestamp_before_epoch_malformed_witness :
  -1000000000 < -5000000 <= -1000000
  /\ getCurrentTimestamp (-5000000) = "1970-01-01T00:00:00.0-5Z"
  /\ matches iso8601_ms (getCurrentTimestamp (-5000000)) = false.
Proof.
  assert (H : -1000000000 < -5000000 <= -1000000) by lia.
  split; [exact H|].
  destruct (timestamp_before_epoch_malformed (-5000000) H) as (_ & _ & E & Hb).
  split; [|exact Hb].
  rewrite E. vm_compute. reflexivity.
Defined.

(** ** The streams after [n] cycles *)

(** After [n] cycles the primary stream holds [3 * n] lines, one per
    reading, the clock has been read [3 * n] times, once per reading, and
    the diagnostic stream holds the four start-up lines and [n] progress
    lines. *)
Theorem stream_sizes_after_cycles
    (Gen : Type) (mt19937 : Z -> Gen)
    (uniform_real : float -> float -> Gen -> float * Gen)
    (clock : nat -> Z) (seed : Z) (n : nat) :
  List.length (stdout_of (trace (main mt19937 uniform_real clock seed n))) = (3 * n)%nat
  /\ List.length (run_readings uniform_real clock n (startup mt19937 seed)) = (3 * n)%nat
  /\ reads (main mt19937 uniform_real clock seed n) = (3 * n)%nat
  /\ List.length (stderr_of (trace (main mt19937 uniform_real clock seed n))) = (4 + n)%nat.
Proof.
  assert (Hr : List.length (run_readings uniform_real clock n (startup mt19937 seed))
               = (3 * n)%nat) by apply run_readings_length.
  split; [|split; [exact Hr|split]].
  - unfold main. rewrite run_stdout. cbn [startup trace stdout_of flat_map app].
    rewrite length_map. exact Hr.
  - unfold main. rewrite iterate_reads. cbn [reads startup]. lia.
  - unfold main. clear Hr. induction n as [|n IH]; [reflexivity|].
    rewrite iterate_trace_step, stderr_of_app.
    change (Err ?l :: ?t) with ([Err l] ++ t)%list.
    rewrite !stderr_of_app, stderr_of_outs, !length_app, IH.
    cbn [stderr_of flat_map List.length app]. lia.
Qed.

(** Below [INT_MAX] cycles the diagnostic stream is the four start-up
    lines followed by the progress lines of the cycles 1, 2, ..., [n], and
    nothing else. *)
Theorem diagnostic_stream_content
    (Gen : Type) (mt19937 : Z -> Gen)
    (uniform_real : float -> float -> Gen -> float * Gen)
    (clock : nat -> Z) (seed : Z) (n : nat) :
  Z.of_nat n <= INT_MAX ->
  stderr_of (trace (main mt19937 uniform_real clock seed n))
  = ([ "[QNX] Grid Simulator started";
       "[QNX] Emitting power events every 5 seconds";
       "[QNX] Sectors: sector-1, sector-2, sector-3";
       "[QNX] Deterministic loop" ]
     ++ map (fun k : nat => cycle_line (Z.of_nat k)) (seq 1 n))%list.
Proof.
  unfold main. induction n as [|n IH]; intros Hn.
  - reflexivity.
  - rewrite iterate_trace_step, stderr_of_app.
    change (Err ?l :: ?t) with ([Err l] ++ t)%list.
    rewrite !stderr_of_app, stderr_of_outs, IH by lia.
    rewrite iterate_cycle by (cbn [cycle startup]; lia).
    cbn [cycle startup].
    replace (wrap_int (0 + Z.of_nat n + 1)) with (Z.of_nat (S n)).
    + rewrite seq_S, map_app, <- app_assoc. reflexivity.
    + unfold wrap_int, INT_MAX in *.
      change (2 ^ 31) with 2147483648. change (2 ^ 32) with 4294967296.
      rewrite Z.mod_small by lia. lia.
Qed.

Lemma diagnostic_stream_content_witness :
  Z.of_nat 2 <= INT_MAX
  /\ stderr_of (trace (main (Scripted.mt19937 []) Scripted.uniform_real
                         (fun k : nat => Z.of_nat k) 7 2))
     = [ "[QNX] Grid Simulator started";
         "[QNX] Emitting power events every 5 seconds";
         "[QNX] Sectors: sector-1, sector-2, sector-3";
         "[QNX] Deterministic loop";
         "[QNX] deterministic loop - cycle 1";
         "[QNX] deterministic loop - cycle 2" ].
Proof.
  assert (H : Z.of_nat 2 <= INT_MAX) by (unfold INT_MAX; lia).
  split; [exact H|].
  rewrite (diagnostic_stream_content Scripted.Gen (Scripted.mt19937 [])
             Scripted.uniform_real (fun k : nat => Z.of_nat k) 7 2 H).
  vm_compute. reflexivity.
Defined.

(** ** Lines read back as their readings *)

Lemma parse_serialize (r : Reading) :
  string_forall plain (sector_id r) = true ->
  finite_or_zero (voltage r) -> finite_or_zero (load r) ->
  string_forall plain (timestamp r) = true ->
  parse_object (serialize r)
  = Some [ ("sector_id", JString (sector_id r));
           ("voltage", JNumber (Fixed.fixed2 (voltage r)));
           ("load", JNumber (Fixed.fixed2 (load r)));
           ("timestamp", JString (timestamp r));
           ("status", JString (if is_failure r then "failure" else "normal")) ].
Proof.
  intros Hs Hv Hl Ht.
  destruct (fixed2_number_chars _ Hv) as [Hv0 Hvn].
  destruct (fixed2_number_chars _ Hl) as [Hl0 Hln].
  unfold serialize, status_text.
  replace (if is_failure r then dq ++ "failure" ++ dq else dq ++ "normal" ++ dq)
    with (dq ++ (if is_failure r then "failure" else "normal") ++ dq)
    by (destruct (is_failure r); reflexivity).
  apply parse_object_members; auto.
  destruct (is_failure r); reflexivity.
Qed.

(** With a generator that keeps the library's promise and a clock within
    its range, every line of the primary stream is the serialization of
    a reading and reads back as that reading: its sector, the two-decimal
    texts of its voltage and load, its timestamp, and the status word of
    its classification. *)
Theorem stdout_lines_read_back
    (Gen : Type) (mt19937 : Z -> Gen)
    (uniform_real : float -> float -> Gen -> float * Gen)
    (clock : nat -> Z) (seed : Z) (n : nat) :
  uniform_real_contract uniform_real ->
  (forall k : nat, clock_in_range (clock k)) ->
  stdout_of (trace (main mt19937 uniform_real clock seed n))
  = map serialize (run_readings uniform_real clock n (startup mt19937 seed))
  /\ Forall
       (fun r : Reading =>
          parse_object (serialize r)
          = Some [ ("sector_id", JString (sector_id r));
                   ("voltage", JNumber (Fixed.fixed2 (voltage r)));
                   ("load", JNumber (Fixed.fixed2 (load r)));
                   ("timestamp", JString (timestamp r));
                   ("status", JString (if is_failure r then "failure" else "normal")) ])
       (run_readings uniform_real clock n (startup mt19937 seed)).
Proof.
  intros Hc Hclk. split.
  - unfold main. rewrite run_stdout. reflexivity.
  - apply Forall_forall. intros r Hin.
    destruct (run_readings_origin uniform_real clock n _ r Hin) as (sector & w & Hs & ->).
    destruct (draw_fields uniform_real clock sector w) as (Hid & Hv & Hl & Ht & _).
    cbv zeta in Hid, Hv, Hl, Ht.
    apply parse_serialize.
    + rewrite Hid. apply plain_sector, Hs.
    + rewrite Hv. apply finite_or_zero_drawn; auto; exact I.
    + rewrite Hl. apply finite_or_zero_drawn; auto; exact I.
    + rewrite Ht. destruct (getCurrentTimestamp_fields _ (Hclk (reads w))) as [-> _].
      apply plain_render_fields.
Qed.

Lemma stdout_lines_read_back_witness :
  uniform_real_contract Scripted.uniform_real
  /\ (forall k : nat, clock_in_range ((fun _ : nat => 1798589100005000000) k))
  /\ Forall
       (fun r : Reading =>
          parse_object (serialize r)
          = Some [ ("sector_id", JString (sector_id r));
                   ("voltage", JNumber (Fixed.fixed2 (voltage r)));
                   ("load", JNumber (Fixed.fixed2 (load r)));
                   ("timestamp", JString (timestamp r));
                   ("status", JString (if is_failure r then "failure" else "normal")) ])
       (run_readings Scripted.uniform_real (fun _ : nat => 1798589100005000000) 1
          (startup (Scripted.mt19937 [121.5; 30.25]%float) 7)).
Proof.
  assert (H : forall k : nat, clock_in_range ((fun _ : nat => 1798589100005000000) k))
    by (intros k; unfold clock_in_range, Time.ticks_per_sec; lia).
  split; [exact scripted_contract|]. split; [exact H|].
  exact (proj2 (stdout_lines_read_back Scripted.Gen (Scripted.mt19937 [121.5; 30.25]%float)
                  Scripted.uniform_real (fun _ : nat => 1798589100005000000) 7 1
                  scripted_contract H)).
Defined.

(** ** Printed numbers read back *)

Section PrintedFacts.

Lemma digits_value_app (a b : string) :
  forall acc : Z, digits_value acc (a ++ b) = digits_value (digits_value acc a) b.
Proof.
  induction a as [|c a IH]; intros acc; cbn [append digits_value]; [reflexivity|].
  apply IH.
Qed.

(** With fuel for all its digits, a number prints as digits that denote
    it. *)
Lemma dec_digits_value (fuel : nat) :
  forall (n : Z) (acc : string),
    0 <= n < 10 ^ Z.of_nat (S fuel) ->
    exists D : string,
      Fmt.dec_digits (S fuel) n acc = D ++ acc
      /\ string_forall Fmt.is_digit D = true /\ D <> ""
      /\ digits_value 0 D = n.
Proof.
  induction fuel as [|fuel IH]; intros n acc Hn.
  - change (10 ^ Z.of_nat 1) with 10 in Hn.
    exists (String (Fmt.digit (n mod 10)) "").
    cbn [Fmt.dec_digits]. split; [destruct (n <? 10); reflexivity|].
    split; [cbn [string_forall]; rewrite is_digit_digit by divlia; reflexivity|].
    split; [discriminate|].
    cbn [digits_value]. rewrite digit_value_digit by divlia. divlia.
  - remember (S fuel) as f eqn:Hf. cbn [Fmt.dec_digits].
    destruct (Z.ltb_spec n 10) as [Hlt|Hge].
    + exists (String (Fmt.digit (n mod 10)) "").
      split; [reflexivity|].
      split; [cbn [string_forall]; rewrite is_digit_digit by divlia; reflexivity|].
      split; [discriminate|].
      cbn [digits_value]. rewrite digit_value_digit by divlia. divlia.
    + subst f.
      assert (Hq : 0 <= n / 10 < 10 ^ Z.of_nat (S fuel)).
      { rewrite (Nat2Z.inj_succ (S fuel)), Z.pow_succ_r in Hn by lia.
        split; [divlia | apply Z.div_lt_upper_bound; lia]. }
      destruct (IH (n / 10) (String (Fmt.digit (n mod 10)) acc) Hq)
        as (D & HD & Hd & Hne & Hval).
      exists (D ++ String (Fmt.digit (n mod 10)) "").
      rewrite HD, append_assoc. split; [reflexivity|]. split; [|split].
      * rewrite string_forall_app, Hd. cbn [string_forall].
        rewrite is_digit_digit by divlia. reflexivity.
      * destruct D; [congruence | discriminate].
      * rewrite digits_value_app, Hval. cbn [digits_value].
        rewrite digit_value_digit by divlia. divlia.
Qed.

Lemma decimal_value (n : Z) :
  0 <= n ->
  string_forall Fmt.is_digit (Fmt.decimal n) = true /\ Fmt.decimal n <> ""
  /\ digits_value 0 (Fmt.decimal n) = n.
Proof.
  intros Hn. unfold Fmt.decimal. destruct (Z.ltb_spec n 0); [lia|].
  unfold Fmt.dec_fuel.
  destruct (dec_digits_value (Z.to_nat (Z.log2 n)) n "") as (D & HD & Hd & Hne & Hv).
  { split; [exact Hn | apply (dec_fuel_enough n Hn)]. }
  rewrite HD, append_nil_r. auto.
Qed.

Lemma read_int_frac_digits (D F : string) :
  forall (acc : Z) (seen : bool),
    string_forall Fmt.is_digit D = true -> D <> "" \/ seen = true ->
    matches [Dg; Dg] F = true ->
    read_int_frac acc seen (D ++ "." ++ F) = Some (digits_value (digits_value acc D) F).
Proof.
  induction D as [|c D IH]; intros acc seen Hd Hs HF.
  - destruct Hs as [Hs| ->]; [congruence|].
    cbn [append read_int_frac digits_value].
    change (Fmt.is_digit ".") with false. change (Ascii.eqb "." ".") with true.
    cbn [andb]. rewrite HF. reflexivity.
  - cbn [string_forall] in Hd. apply andb_true_iff in Hd. destruct Hd as [Hc Hd].
    cbn [append read_int_frac digits_value]. rewrite Hc. apply IH; auto.
Qed.

(** The text of [n] hundredths reads back as [n]. *)
Lemma read_int_frac_render (n : Z) :
  0 <= n -> read_int_frac 0 false (Fixed.render_hundredths n) = Some n.
Proof.
  intros Hn. unfold Fixed.render_hundredths.
  destruct (decimal_value (n / 100)) as (Hd & Hne & Hv); [divlia|].
  rewrite setw2_decimal by divlia.
  rewrite read_int_frac_digits; auto.
  - rewrite Hv. cbn [fixed_width digits_value].
    rewrite !digit_value_digit by divlia. f_equal. divlia.
  - cbn [fixed_width matches]. rewrite !is_digit_digit by divlia. reflexivity.
Qed.

Lemma read_fixed2_render (n : Z) :
  0 <= n -> read_fixed2 (Fixed.render_hundredths n) = Some n.
Proof.
  intros Hn. rewrite <- (read_int_frac_render n Hn).
  unfold Fixed.render_hundredths.
  destruct (decimal_value (n / 100)) as (Hd & Hne & _); [divlia|].
  destruct (Fmt.decimal (n / 100)) as [|c D]; [congruence|].
  cbn [string_forall] in Hd. apply andb_true_iff in Hd. destruct Hd as [Hc _].
  cbn [append read_fixed2]. rewrite (is_digit_not_minus c Hc). reflexivity.
Qed.

Lemma read_fixed2_negative (n : Z) :
  0 <= n -> read_fixed2 ("-" ++ Fixed.render_hundredths n) = Some (- n).
Proof.
  intros Hn. cbn [append read_fixed2]. change (Ascii.eqb "-" "-") with true.
  cbv iota. rewrite (read_int_frac_render n Hn). reflexivity.
Qed.

End PrintedFacts.

(** ** The values behind the printed texts *)

Section ValueFacts.

Lemma digits2_pos_bounds (m : positive) :
  2 ^ (Z.pos (digits2_pos m) - 1) <= Z.pos m < 2 ^ Z.pos (digits2_pos m).
Proof.
  induction m as [m IH|m IH|]; cbn [digits2_pos].
  - rewrite Pos2Z.inj_succ.
    replace (Z.succ (Z.pos (digits2_pos m)) - 1) with (Z.succ (Z.pos (digits2_pos m) - 1)) by lia.
    rewrite !Z.pow_succ_r by lia. lia.
  - rewrite Pos2Z.inj_succ.
    replace (Z.succ (Z.pos (digits2_pos m)) - 1) with (Z.succ (Z.pos (digits2_pos m) - 1)) by lia.
    rewrite !Z.pow_succ_r by lia. lia.
  - cbn. lia.
Qed.

Lemma mantissa_bounds (x : float) (s : bool) (m : positive) (e : Z) :
  Prim2SF x = S754_finite s m e ->
  Z.pos m < 9007199254740992 /\ (-1074 < e -> 4503599627370496 <= Z.pos m).
Proof.
  intros H. pose proof (Prim2SF_valid x) as Hv. rewrite H in Hv.
  unfold valid_binary, bounded, canonical_mantissa, fexp, emin, prec, emax in Hv.
  apply andb_true_iff in Hv. destruct Hv as [Hc _]. apply Z.eqb_eq in Hc.
  pose proof (digits2_pos_bounds m) as Hb.
  set (d := Z.pos (digits2_pos m)) in *.
  assert (Hd : 1 <= d) by (subst d; lia).
  assert (Hd53 : d <= 53) by lia.
  split.
  - apply Z.lt_le_trans with (1 := proj2 Hb).
    change 9007199254740992 with (2 ^ 53). apply Z.pow_le_mono_r; lia.
  - intros He. assert (d = 53) by lia.
    replace (d - 1) with 52 in Hb by lia.
    change (2 ^ 52) with 4503599627370496 in Hb. lia.
Qed.

Lemma round_half_even_le (num den k : Z) :
  0 < den -> num <= k * den -> Fixed.round_half_even num den <= k.
Proof.
  intros Hd Hk. unfold Fixed.round_half_even.
  assert (Hq : num / den <= k) by (apply Z.div_le_upper_bound; lia).
  pose proof (Z.div_mod num den ltac:(lia)) as Hdm.
  pose proof (Z.mod_pos_bound num den Hd) as Hr.
  destruct (Z.eq_dec (num / den) k) as [He|Hne].
  - rewrite He in *. assert (Hr0 : num mod den = 0) by nia.
    rewrite Hr0. change (2 * 0) with 0.
    destruct (Z.compare_spec 0 den); lia.
  - destruct (2 * (num mod den) ?= den); [destruct (Z.even (num / den))| |]; lia.
Qed.

Lemma round_half_even_ge (num den k : Z) :
  0 < den -> k * den <= num -> k <= Fixed.round_half_even num den.
Proof.
  intros Hd Hk. unfold Fixed.round_half_even.
  assert (Hq : k <= num / den) by (apply Z.div_le_lower_bound; lia).
  destruct (2 * (num mod den) ?= den); [destruct (Z.even (num / den))| |]; lia.
Qed.

Lemma hundredths_upper (m : positive) (e K : Z) :
  (e < 0 -> Z.pos m * 100 <= K * 2 ^ (- e)) ->
  (0 <= e -> Z.pos m * 2 ^ e * 100 <= K) ->
  Fixed.hundredths m e <= K.
Proof.
  intros H1 H2. unfold Fixed.hundredths. destruct (Z.leb_spec 0 e).
  - apply H2. lia.
  - apply round_half_even_le; [apply Z.pow_pos_nonneg; lia | apply H1; lia].
Qed.

Lemma hundredths_lower (m : positive) (e K : Z) :
  (e < 0 -> K * 2 ^ (- e) <= Z.pos m * 100) ->
  (0 <= e -> K <= Z.pos m * 2 ^ e * 100) ->
  K <= Fixed.hundredths m e.
Proof.
  intros H1 H2. unfold Fixed.hundredths. destruct (Z.leb_spec 0 e).
  - apply H2. lia.
  - apply round_half_even_ge; [apply Z.pow_pos_nonneg; lia | apply H1; lia].
Qed.

(** A positive double at most the double of the integer [C], whose
    mantissa is [C * 2 ^ (- ec)], prints as at most [C]: rounding to
    hundredths never crosses an integer bound. *)
Lemma below_threshold (m mc : positive) (e ec C : Z) :
  Z.pos m < 9007199254740992 ->
  4503599627370496 <= Z.pos mc ->
  ec < 0 -> Z.pos mc = C * 2 ^ (- ec) ->
  SFleb (S754_finite false m e) (S754_finite false mc ec) = true ->
  Fixed.hundredths m e <= 100 * C.
Proof.
  intros Hm Hmc Hec HC Hle. unfold SFleb, SFcompare in Hle.
  assert (HP : 0 < 2 ^ (- ec)) by (apply Z.pow_pos_nonneg; lia).
  destruct (Z.compare_spec e ec) as [He|He|He]; [| |discriminate].
  - subst e.
    assert (Hmm : Z.pos m <= Z.pos mc).
    { unfold Z.le, Z.compare, Pos.compare.
      destruct (Pos.compare_cont Eq m mc); congruence. }
    apply hundredths_upper; [|lia]. intros _. nia.
  - clear Hle. apply hundredths_upper; [|lia]. intros _.
    replace (- e) with (- ec + (ec - e - 1) + 1) by lia.
    rewrite Z.pow_add_r, Z.pow_add_r by lia. change (2 ^ 1) with 2.
    assert (HQ : 0 < 2 ^ (ec - e - 1)) by (apply Z.pow_pos_nonneg; lia).
    set (Q := 2 ^ (ec - e - 1)) in *. set (P := 2 ^ (- ec)) in *.
    assert (Z.pos mc <= Z.pos mc * Q) by nia.
    nia.
Qed.

(** A positive double not below the double of [C] prints as [C] or more. *)
Lemma above_threshold (m mc : positive) (e ec C : Z) :
  (-1074 < e -> 4503599627370496 <= Z.pos m) ->
  Z.pos mc < 9007199254740992 ->
  -1074 < ec < 0 -> Z.pos mc = C * 2 ^ (- ec) ->
  SFltb (S754_finite false m e) (S754_finite false mc ec) = false ->
  100 * C <= Fixed.hundredths m e.
Proof.
  intros Hm Hmc Hec HC Hlt. unfold SFltb, SFcompare in Hlt.
  assert (HP : 0 < 2 ^ (- ec)) by (apply Z.pow_pos_nonneg; lia).
  assert (HC0 : 0 <= C) by nia.
  destruct (Z.compare_spec e ec) as [He|He|He]; [|discriminate|].
  - subst e.
    assert (Hmm : Z.pos mc <= Z.pos m).
    { apply Z.ge_le. unfold Z.ge, Z.compare, Pos.compare.
      destruct (Pos.compare_cont Eq m mc); congruence. }
    apply hundredths_lower; [|lia]. intros _. nia.
  - clear Hlt. specialize (Hm ltac:(lia)).
    apply hundredths_lower.
    + intros He0.
      assert (HPs : 2 ^ (- ec) = 2 ^ (- e) * 2 ^ (e - ec - 1) * 2).
      { replace (- ec) with (- e + (e - ec - 1) + 1) by lia.
        rewrite Z.pow_add_r, Z.pow_add_r by lia. reflexivity. }
      assert (HQ : 0 < 2 ^ (e - ec - 1)) by (apply Z.pow_pos_nonneg; lia).
      assert (HD : 0 < 2 ^ (- e)) by (apply Z.pow_pos_nonneg; lia).
      set (Q := 2 ^ (e - ec - 1)) in *. set (D := 2 ^ (- e)) in *.
      set (P := 2 ^ (- ec)) in *.
      assert (C * D * 2 <= C * D * Q * 2) by nia.
      nia.
    + intros He0.
      assert (HE : 1 <= 2 ^ e) by (pose proof (Z.pow_pos_nonneg 2 e); lia).
      assert (HP2 : 2 <= 2 ^ (- ec)).
      { replace (- ec) with (1 + (- ec - 1)) by lia. rewrite Z.pow_add_r by lia.
        assert (0 < 2 ^ (- ec - 1)) by (apply Z.pow_pos_nonneg; lia).
        change (2 ^ 1) with 2. lia. }
      set (P := 2 ^ (- ec)) in *. set (E := 2 ^ e) in *.
      assert (C * 2 <= C * P) by nia.
      nia.
Qed.

Lemma SF_50 : Prim2SF 50.0%float = S754_finite false 7036874417766400 (-47).
Proof. vm_compute. reflexivity. Qed.
Lemma SF_100 : Prim2SF 100.0%float = S754_finite false 7036874417766400 (-46).
Proof. vm_compute. reflexivity. Qed.
Lemma SF_130 : Prim2SF 130.0%float = S754_finite false 4573968371548160 (-45).
Proof. vm_compute. reflexivity. Qed.
Lemma SF_0 : Prim2SF 0.0%float = S754_zero false.
Proof. vm_compute. reflexivity. Qed.

(** A drawn value between 0.0 and a finite bound is a zero or a positive
    finite double. *)
Lemma drawn_cases (x b : float) (mb : positive) (eb : Z) :
  Prim2SF b = S754_finite false mb eb ->
  (0.0 <=? x)%float = true -> (x <=? b)%float = true ->
  (exists s : bool, Prim2SF x = S754_zero s)
  \/ (exists (m : positive) (e : Z),
        Prim2SF x = S754_finite false m e
        /\ SFleb (S754_finite false m e) (S754_finite false mb eb) = true).
Proof.
  intros Hb H0 Hx. rewrite leb_spec in H0, Hx. rewrite SF_0 in H0. rewrite Hb in Hx.
  destruct (Prim2SF x) as [s|s| |s m e].
  - left. exists s. reflexivity.
  - destruct s; cbn in H0, Hx; discriminate.
  - cbn in H0. discriminate.
  - destruct s; [cbn in H0; discriminate|].
    right. exists m, e. split; [reflexivity | exact Hx].
Qed.

Lemma read_fixed2_zero (s : bool) (x : float) :
  Prim2SF x = S754_zero s -> read_fixed2 (Fixed.fixed2 x) = Some 0.
Proof.
  intros H. unfold Fixed.fixed2. rewrite H. destruct s; reflexivity.
Qed.

Lemma read_fixed2_positive (x : float) (m : positive) (e : Z) :
  Prim2SF x = S754_finite false m e ->
  read_fixed2 (Fixed.fixed2 x) = Some (Fixed.hundredths m e).
Proof.
  intros H. unfold Fixed.fixed2. rewrite H.
  change (Fixed.sign_prefix false ++ ?t) with t.
  apply read_fixed2_render, hundredths_nonneg.
Qed.

Lemma printed_voltage (x : float) :
  (0.0 <=? x)%float = true -> (x <=? 130.0)%float = true ->
  exists n : Z,
    read_fixed2 (Fixed.fixed2 x) = Some n
    /\ 0 <= n <= 13000
    /\ ((x <? 50.0)%float = true -> n <= 5000)
    /\ ((x <? 50.0)%float = false -> 5000 <= n).
Proof.
  intros H0 H130.
  destruct (drawn_cases x _ _ _ SF_130 H0 H130) as [[s Hx]|(m & e & Hx & Hle)].
  - exists 0. split; [exact (read_fixed2_zero s x Hx)|]. split; [lia|]. split; [lia|].
    rewrite ltb_spec, Hx, SF_50. destruct s; discriminate.
  - destruct (mantissa_bounds x false m e Hx) as [Hm Hn].
    exists (Fixed.hundredths m e).
    split; [exact (read_fixed2_positive x m e Hx)|].
    split; [split; [apply hundredths_nonneg|]|split].
    + change 13000 with (100 * 130).
      apply (below_threshold m 4573968371548160 e (-45));
        [exact Hm | lia | lia | vm_compute; reflexivity | exact Hle].
    + rewrite leb_spec in H130. rewrite ltb_spec, Hx, SF_50. intros Hlt.
      change 5000 with (100 * 50).
      apply (below_threshold m 7036874417766400 e (-47));
        [exact Hm | lia | lia | vm_compute; reflexivity |].
      unfold SFleb. unfold SFltb in Hlt.
      destruct (SFcompare (S754_finite false m e)
                  (S754_finite false 7036874417766400 (-47))) as [[| |]|];
        try discriminate; reflexivity.
    + rewrite ltb_spec, Hx, SF_50. intros Hlt.
      change 5000 with (100 * 50).
      apply (above_threshold m 7036874417766400 e (-47));
        [exact Hn | lia | lia | vm_compute; reflexivity | exact Hlt].
Qed.

Lemma printed_load (x : float) :
  (0.0 <=? x)%float = true -> (x <=? 100.0)%float = true ->
  exists n : Z, read_fixed2 (Fixed.fixed2 x) = Some n /\ 0 <= n <= 10000.
Proof.
  intros H0 H100.
  destruct (drawn_cases x _ _ _ SF_100 H0 H100) as [[s Hx]|(m & e & Hx & Hle)].
  - exists 0. split; [exact (read_fixed2_zero s x Hx) | lia].
  - destruct (mantissa_bounds x false m e Hx) as [Hm Hn].
    exists (Fixed.hundredths m e).
    split; [exact (read_fixed2_positive x m e Hx)|].
    split; [apply hundredths_nonneg|].
    change 10000 with (100 * 100).
    apply (below_threshold m 7036874417766400 e (-46));
      [exact Hm | lia | lia | vm_compute; reflexivity | exact Hle].
Qed.

End ValueFacts.

(** With a generator that keeps the library's promise, the voltage and
    the load of every reading print as numbers a consumer reads back
    within the ranges: between 0.00 and 130.00 for the voltage, between
    0.00 and 100.00 for the load.  Rounding to two decimals never takes
    a value out of its range. *)
Theorem printed_values_within_ranges
    (Gen : Type) (mt19937 : Z -> Gen)
    (uniform_real : float -> float -> Gen -> float * Gen)
    (clock : nat -> Z) (seed : Z) (n : nat) :
  uniform_real_contract uniform_real ->
  Forall
    (fun r : Reading =>
       exists nv nl : Z,
         read_fixed2 (Fixed.fixed2 (voltage r)) = Some nv /\ 0 <= nv <= 13000
         /\ read_fixed2 (Fixed.fixed2 (load r)) = Some nl /\ 0 <= nl <= 10000)
    (run_readings uniform_real clock n (startup mt19937 seed)).
Proof.
  intros Hc. apply Forall_forall. intros r Hin.
  destruct (run_readings_origin uniform_real clock n _ r Hin) as (sector & w & _ & ->).
  destruct (draw_fields uniform_real clock sector w) as (_ & Hv & Hl & _ & _).
  cbv zeta in Hv, Hl. change LOAD_MIN with 0.0%float in Hl.
  change LOAD_MAX with 100.0%float in Hl.
  destruct (Hc 0.0%float 130.0%float (gen w) eq_refl) as [H1 H2].
  destruct (Hc 0.0%float 100.0%float
               (snd (uniform_real 0.0%float 130.0%float (gen w))) eq_refl) as [H3 H4].
  rewrite <- Hv in H1, H2. rewrite <- Hl in H3, H4.
  destruct (printed_voltage _ H1 H2) as (nv & Hnv & Hbv & _).
  destruct (printed_load _ H3 H4) as (nl & Hnl & Hbl).
  exists nv, nl. auto.
Qed.

Lemma printed_values_within_ranges_witness :
  uniform_real_contract Scripted.uniform_real
  /\ Forall
       (fun r : Reading =>
          exists nv nl : Z,
            read_fixed2 (Fixed.fixed2 (voltage r)) = Some nv /\ 0 <= nv <= 13000
            /\ read_fixed2 (Fixed.fixed2 (load r)) = Some nl /\ 0 <= nl <= 10000)
       (run_readings Scripted.uniform_real (fun k : nat => Z.of_nat k) 1
          (startup (Scripted.mt19937 [129.9990234375; 99.9990234375; 200.0; 0.00390625]%float) 7)).
Proof.
  split; [exact scripted_contract|].
  exact (printed_values_within_ranges Scripted.Gen
           (Scripted.mt19937 [129.9990234375; 99.9990234375; 200.0; 0.00390625]%float)
           Scripted.uniform_real (fun k : nat => Z.of_nat k) 7 1 scripted_contract).
Defined.

(** With a generator that keeps the library's promise, the status of a
    reading and its printed voltage can disagree at 50.00 only: a reading
    classified as a failure prints a voltage of 50.00 or less, a reading
    classified as normal prints 50.00 or more. *)
Theorem status_agrees_with_printed_voltage_up_to_rounding
    (Gen : Type) (mt19937 : Z -> Gen)
    (uniform_real : float -> float -> Gen -> float * Gen)
    (clock : nat -> Z) (seed : Z) (n : nat) :
  uniform_real_contract uniform_real ->
  Forall
    (fun r : Reading =>
       exists nv : Z,
         read_fixed2 (Fixed.fixed2 (voltage r)) = Some nv
         /\ (status_text r = failure_text -> nv <= 5000)
         /\ (status_text r = normal_text -> 5000 <= nv))
    (run_readings uniform_real clock n (startup mt19937 seed)).
Proof.
  intros Hc. apply Forall_forall. intros r Hin.
  destruct (run_readings_origin uniform_real clock n _ r Hin) as (sector & w & _ & ->).
  destruct (draw_fields uniform_real clock sector w) as (_ & Hv & _ & _ & Hf).
  cbv zeta in Hv, Hf.
  destruct (Hc 0.0%float 130.0%float (gen w) eq_refl) as [H1 H2].
  rewrite <- Hv in H1, H2, Hf.
  destruct (printed_voltage _ H1 H2) as (nv & Hnv & _ & Hlo & Hhi).
  exists nv. split; [exact Hnv|]. split.
  - intros Hs. apply status_text_failure in Hs. apply Hlo. rewrite <- Hf. exact Hs.
  - intros Hs. apply status_text_normal in Hs. apply Hhi. rewrite <- Hf. exact Hs.
Qed.

Lemma status_agrees_with_printed_voltage_up_to_rounding_witness :
  uniform_real_contract Scripted.uniform_real
  /\ Forall
       (fun r : Reading =>
          exists nv : Z,
            read_fixed2 (Fixed.fixed2 (voltage r)) = Some nv
            /\ (status_text r = failure_text -> nv <= 5000)
            /\ (status_text r = normal_text -> 5000 <= nv))
       (run_readings Scripted.uniform_real (fun k : nat => Z.of_nat k) 1
          (startup (Scripted.mt19937 [49.99609375; 30.25; 50.0; 0.5]%float) 7)).
Proof.
  split; [exact scripted_contract|].
  exact (status_agrees_with_printed_voltage_up_to_rounding Scripted.Gen
           (Scripted.mt19937 [49.99609375; 30.25; 50.0; 0.5]%float)
           Scripted.uniform_real (fun k : nat => Z.of_nat k) 7 1 scripted_contract).
Defined.

(** ** The generator and the values of a run *)

Section GeneratorFacts.

Context {Gen : Type}.
Variable uniform_real : float -> float -> Gen -> float * Gen.
Variable clock : nat -> Z.

Lemma emit_gen (sector : string) (w : world Gen) :
  gen (emitPowerEvent uniform_real clock sector w) = two_draws uniform_real (gen w).
Proof.
  unfold emitPowerEvent, drawReading, two_draws.
  destruct (uniform_real 0.0%float 130.0%float (gen w)) as [v g1]. cbn [snd].
  destruct (uniform_real LOAD_MIN LOAD_MAX g1) as [l g2]. reflexivity.
Qed.

Lemma draw_values (sector : string) (w : world Gen) :
  (fun r => (voltage r, load r, is_failure r)) (fst (drawReading uniform_real clock sector w))
  = drawn_values uniform_real (gen w).
Proof.
  unfold drawReading, drawn_values.
  destruct (uniform_real 0.0%float 130.0%float (gen w)) as [v g1]. cbn [fst snd].
  destruct (uniform_real LOAD_MIN LOAD_MAX g1) as [l g2]. reflexivity.
Qed.

Lemma body_gen (w : world Gen) :
  gen (cycle_body uniform_real clock w) = Nat.iter 3 (two_draws uniform_real) (gen w).
Proof.
  unfold cycle_body, write. rewrite for_sectors_unfold. cbn [gen].
  rewrite !emit_gen. reflexivity.
Qed.

Lemma iterate_gen (n : nat) (w : world Gen) :
  gen (iterate uniform_real clock n w) = Nat.iter (3 * n) (two_draws uniform_real) (gen w).
Proof.
  induction n as [|n IH]; [reflexivity|].
  cbn [iterate]. rewrite body_gen, IH.
  replace (3 * S n)%nat with (3 + 3 * n)%nat by lia.
  rewrite Nat.iter_add. reflexivity.
Qed.

Lemma cycle_values (w : world Gen) :
  map (fun r => (voltage r, load r, is_failure r)) (cycle_readings uniform_real clock w)
  = map (fun j => drawn_values uniform_real (Nat.iter j (two_draws uniform_real) (gen w)))
        (seq 0 3).
Proof.
  unfold cycle_readings, SECTORS. cbn [readings_from map seq].
  rewrite !draw_values, !emit_gen. reflexivity.
Qed.

Lemma run_values (n : nat) (w : world Gen) :
  map (fun r => (voltage r, load r, is_failure r)) (run_readings uniform_real clock n w)
  = map (fun j => drawn_values uniform_real (Nat.iter j (two_draws uniform_real) (gen w)))
        (seq 0 (3 * n)).
Proof.
  induction n as [|n IH]; [reflexivity|].
  cbn [run_readings]. rewrite map_app, IH, cycle_values, iterate_gen.
  replace (3 * S n)%nat with (3 * n + 3)%nat by lia.
  rewrite seq_app, map_app. cbn [seq map]. rewrite <- !Nat.iter_add. reflexivity.
Qed.

End GeneratorFacts.

(** The voltage, the load and the classification of the [j]-th reading
    of a run are what [emitPowerEvent] draws from the seeded generator
    advanced by [j] pairs of draws: they depend on the seed alone, not on
    the clock nor on the sector; and after [n] cycles the generator has
    been advanced by exactly [3 * n] pairs of draws. *)
Theorem reading_values_from_seed_alone
    (Gen : Type) (mt19937 : Z -> Gen)
    (uniform_real : float -> float -> Gen -> float * Gen)
    (clock : nat -> Z) (seed : Z) (n : nat) :
  map (fun r => (voltage r, load r, is_failure r))
      (run_readings uniform_real clock n (startup mt19937 seed))
  = map (fun j => drawn_values uniform_real
                    (Nat.iter j (two_draws uniform_real) (mt19937 seed)))
        (seq 0 (3 * n))
  /\ gen (main mt19937 uniform_real clock seed n)
     = Nat.iter (3 * n) (two_draws uniform_real) (mt19937 seed).
Proof.
  split.
  - apply (run_values uniform_real clock n (startup mt19937 seed)).
  - unfold main. apply (iterate_gen uniform_real clock n (startup mt19937 seed)).
Qed.

(** The loop over the sectors ends by its own test: started at index 0
    it emits the three configured sectors and stops, however many more
    iterations it is allowed, and started at [NUM_SECTORS] or beyond it
    emits nothing; no sector beyond the table is ever read. *)
Theorem sector_loop_stops_at_bound
    (Gen : Type) (uniform_real : float -> float -> Gen -> float * Gen)
    (clock : nat -> Z) (w : world Gen) (extra : nat) :
  for_sectors Gen uniform_real clock (Z.to_nat NUM_SECTORS + extra) 0 w
  = emitPowerEvent uniform_real clock "sector-3"
      (emitPowerEvent uniform_real clock "sector-2"
         (emitPowerEvent uniform_real clock "sector-1" w))
  /\ (forall (fuel : nat) (i : Z) (w' : world Gen),
        NUM_SECTORS <= i -> for_sectors Gen uniform_real clock fuel i w' = w').
Proof.
  assert (Hstop : forall (fuel : nat) (i : Z) (w' : world Gen),
             NUM_SECTORS <= i -> for_sectors Gen uniform_real clock fuel i w' = w').
  { intros fuel i w' Hi. destruct fuel as [|fuel]; [reflexivity|].
    cbn [for_sectors]. destruct (Z.ltb_spec i NUM_SECTORS); [lia | reflexivity]. }
  split; [|exact Hstop].
  change (Z.to_nat NUM_SECTORS + extra)%nat with (S (S (S extra))).
  cbn [for_sectors]. change (0 <? NUM_SECTORS) with true.
  change (0 + 1 <? NUM_SECTORS) with true. change (0 + 1 + 1 <? NUM_SECTORS) with true.
  cbv iota. rewrite Hstop by (unfold NUM_SECTORS; lia). reflexivity.
Qed.

(** The progress line of a cycle ends with the decimal digits of its
    number: what follows the fixed text reads back as the cycle number. *)
Theorem progress_line_reads_back (k : Z) :
  0 <= k ->
  exists D : string,
    cycle_line k = "[QNX] deterministic loop - cycle " ++ D
    /\ string_forall Fmt.is_digit D = true /\ D <> ""
    /\ digits_value 0 D = k.
Proof.
  intros Hk. exists (Fmt.decimal k).
  destruct (decimal_value k Hk) as (Hd & Hne & Hv).
  split; [reflexivity|]. auto.
Qed.

Lemma progress_line_reads_back_witness :
  0 <= 2147483647
  /\ exists D : string,
       cycle_line 2147483647 = "[QNX] deterministic loop - cycle " ++ D
       /\ string_forall Fmt.is_digit D = true /\ D <> ""
       /\ digits_value 0 D = 2147483647.
Proof.
  assert (H : 0 <= 2147483647) by lia.
  split; [exact H|]. exact (progress_line_reads_back 2147483647 H).
Defined.

(** * The run as a function of its inputs *)

(** ** Both streams from the seed and the instants read *)

Section StreamFacts.

Context {Gen : Type}.
Variable mt19937 : Z -> Gen.
Variable uniform_real : float -> float -> Gen -> float * Gen.
Variable clock : nat -> Z.







End StreamFacts.



(** ** Consecutive readings and the system clock *)

Lemma nth_error_map_seq {A : Type} (f : nat -> A) (len k : nat) :
  (k < len)%nat -> nth_error (map f (seq 0 len)) k = Some (f k).
Proof.
  intros H. rewrite nth_error_map, nth_error_seq.
  destruct (Nat.ltb_spec k len); [reflexivity | lia].
Qed.

Lemma nth_error_map_inv {A B : Type} (f : A -> B) (l : list A) (k : nat) (y : B) :
  nth_error (map f l) k = Some y -> exists x : A, nth_error l k = Some x /\ f x = y.
Proof.
  rewrite nth_error_map. destruct (nth_error l k) as [x|]; cbn; intros E.
  - exists x. split; [reflexivity | congruence].
  - discriminate.
Qed.

(** C9, as the code has it.  The [k]-th and the [k + 1]-th reading of a
    run are the [k]-th and the [k + 1]-th line of the primary stream, and
    each carries the instant of its own call of [now()], the [k]-th and
    the [k + 1]-th call, also within one cycle.  When the system clock did
    not step back between these two calls, both instants being between
    the epoch and the end of the year 9999, the later timestamp is not
    smaller than the earlier one. *)
Theorem consecutive_timestamps_follow_the_clock
    (Gen : Type) (mt19937 : Z -> Gen)
    (uniform_real : float -> float -> Gen -> float * Gen)
    (clock : nat -> Z) (seed : Z) (n k : nat) :
  (S k < 3 * n)%nat ->
  clock_in_range (clock k) -> clock_in_range (clock (S k)) ->
  clock k <= clock (S k) ->
  exists r1 r2 : Reading,
    nth_error (run_readings uniform_real clock n (startup mt19937 seed)) k = Some r1
    /\ nth_error (run_readings uniform_real clock n (startup mt19937 seed)) (S k) = Some r2
    /\ nth_error (stdout_of (trace (main mt19937 uniform_real clock seed n))) k
       = Some (serialize r1)
    /\ nth_error (stdout_of (trace (main mt19937 uniform_real clock seed n))) (S k)
       = Some (serialize r2)
    /\ timestamp r1 = getCurrentTimestamp (clock k)
    /\ timestamp r2 = getCurrentTimestamp (clock (S k))
    /\ String.leb (timestamp r1) (timestamp r2) = true.
Proof.
  intros Hk H1 H2 Hle.
  pose proof (run_timestamps uniform_real clock n (startup mt19937 seed)) as Hts.
  cbn [reads startup] in Hts.
  assert (E1 : nth_error (map timestamp
                            (run_readings uniform_real clock n (startup mt19937 seed))) k
               = Some (getCurrentTimestamp (clock k)))
    by (rewrite Hts;
        apply (nth_error_map_seq (fun i : nat => getCurrentTimestamp (clock i))); lia).
  assert (E2 : nth_error (map timestamp
                            (run_readings uniform_real clock n (startup mt19937 seed))) (S k)
               = Some (getCurrentTimestamp (clock (S k))))
    by (rewrite Hts;
        apply (nth_error_map_seq (fun i : nat => getCurrentTimestamp (clock i))); lia).
  apply nth_error_map_inv in E1. destruct E1 as (r1 & Hr1 & Ht1).
  apply nth_error_map_inv in E2. destruct E2 as (r2 & Hr2 & Ht2).
  assert (Hout : stdout_of (trace (main mt19937 uniform_real clock seed n))
                 = map serialize (run_readings uniform_real clock n (startup mt19937 seed))).
  { unfold main. rewrite run_stdout. reflexivity. }
  exists r1, r2.
  split; [exact Hr1|]. split; [exact Hr2|].
  split; [rewrite Hout, nth_error_map, Hr1; reflexivity|].
  split; [rewrite Hout, nth_error_map, Hr2; reflexivity|].
  split; [exact Ht1|]. split; [exact Ht2|].
  rewrite Ht1, Ht2. apply timestamp_leb; assumption.
Qed.

Lemma consecutive_timestamps_follow_the_clock_witness :
  (S 2 < 3 * 2)%nat
  /\ clock_in_range ((fun i : nat => 1798589100005000000 + Z.of_nat i * 400000) 2%nat)
  /\ clock_in_range ((fun i : nat => 1798589100005000000 + Z.of_nat i * 400000) (S 2))
  /\ (fun i : nat => 1798589100005000000 + Z.of_nat i * 400000) 2%nat
     <= (fun i : nat => 1798589100005000000 + Z.of_nat i * 400000) (S 2)
  /\ exists r1 r2 : Reading,
       nth_error (run_readings Scripted.uniform_real
                    (fun i : nat => 1798589100005000000 + Z.of_nat i * 400000) 2
                    (startup (Scripted.mt19937 [121.5; 30.25]%float) 7)) 2 = Some r1
       /\ nth_error (run_readings Scripted.uniform_real
                       (fun i : nat => 1798589100005000000 + Z.of_nat i * 400000) 2
                       (startup (Scripted.mt19937 [121.5; 30.25]%float) 7)) (S 2) = Some r2
       /\ nth_error (stdout_of (trace (main (Scripted.mt19937 [121.5; 30.25]%float)
                                         Scripted.uniform_real
                                         (fun i : nat => 1798589100005000000
                                                         + Z.of_nat i * 400000) 7 2))) 2
          = Some (serialize r1)
       /\ nth_error (stdout_of (trace (main (Scripted.mt19937 [121.5; 30.25]%float)
                                         Scripted.uniform_real
                                         (fun i : nat => 1798589100005000000
                                                         + Z.of_nat i * 400000) 7 2))) (S 2)
          = Some (serialize r2)
       /\ timestamp r1
          = getCurrentTimestamp ((fun i : nat => 1798589100005000000 + Z.of_nat i * 400000) 2%nat)
       /\ timestamp r2
          = getCurrentTimestamp ((fun i : nat => 1798589100005000000 + Z.of_nat i * 400000) (S 2))
       /\ String.leb (timestamp r1) (timestamp r2) = true.
Proof.
  assert (H0 : (S 2 < 3 * 2)%nat) by lia.
  assert (H1 : clock_in_range
                 ((fun i : nat => 1798589100005000000 + Z.of_nat i * 400000) 2%nat))
    by (unfold clock_in_range, Time.ticks_per_sec; cbv beta; lia).
  assert (H2 : clock_in_range
                 ((fun i : nat => 1798589100005000000 + Z.of_nat i * 400000) (S 2)))
    by (unfold clock_in_range, Time.ticks_per_sec; cbv beta; lia).
  assert (H3 : (fun i : nat => 1798589100005000000 + Z.of_nat i * 400000) 2%nat
               <= (fun i : nat => 1798589100005000000 + Z.of_nat i * 400000) (S 2))
    by (cbv beta; lia).
  split; [exact H0|]. split; [exact H1|]. split; [exact H2|]. split; [exact H3|].
  exact (consecutive_timestamps_follow_the_clock Scripted.Gen
           (Scripted.mt19937 [121.5; 30.25]%float) Scripted.uniform_real
           (fun i : nat => 1798589100005000000 + Z.of_nat i * 400000) 7 2 2 H0 H1 H2 H3).
Defined.

(** C9 does not hold as stated: the program reads the system clock,
    which can be set back.  With the clock set back by two seconds
    between the first and the second call of [now()], the second reading
    of the first cycle carries a smaller timestamp than the first. *)
Lemma timestamps_decrease_when_clock_steps_back :
  map timestamp
    (run_readings Scripted.uniform_real stepping_back_clock 1
       (startup (Scripted.mt19937 [121.5; 30.25]%float) 7))
  = [ "2026-12-30T00:05:00.005Z"; "2026-12-30T00:04:58.000Z"; "2026-12-30T00:05:05.000Z" ]
  /\ String.leb "2026-12-30T00:05:00.005Z" "2026-12-30T00:04:58.000Z" = false
  /\ nondecreasing
       (map timestamp
          (run_readings Scripted.uniform_real stepping_back_clock 1
             (startup (Scripted.mt19937 [121.5; 30.25]%float) 7))) = false.
Proof. vm_compute. repeat split; reflexivity. Qed.

(** * Examples *)

Example timestamp_leap_day :
  getCurrentTimestamp 1709251199999123456 = "2024-02-29T23:59:59.999Z".
Proof. vm_compute. reflexivity. Qed.

Example fixed2_a : Fixed.fixed2 121.5%float = "121.50". Proof. vm_compute. reflexivity. Qed.
Example fixed2_b : Fixed.fixed2 0.125%float = "0.12". Proof. vm_compute. reflexivity. Qed.
Example fixed2_c : Fixed.fixed2 0.375%float = "0.38". Proof. vm_compute. reflexivity. Qed.
Example fixed2_d : Fixed.fixed2 49.99609375%float = "50.00". Proof. vm_compute. reflexivity. Qed.
